(** * RepoDocGen: the hybrid retrieval engine and the QA orchestrator

    A shallow embedding of [src/rag/vector_store.py], [src/rag/hybrid_search.py]
    and [src/chatbot/qa_bot.py], and the properties of the retrieval and
    question-answering flow proved over it.

    Modelling conventions.
    - Python floats (scores, distances, alpha, temperature) are exact
      rationals [Q]; arithmetic identities are stated up to [==].  Rounding
      is left out; the overflow of a float32 distance inside FAISS is not:
      a distance that reaches the largest float32 is not returned.
    - A character of a [string] is the code point of its number, so texts
      are over the code points below 256.
    - Python exceptions are values of [exn]; a method is a state transformer
      [self -> outcome A * self], so the mutations made before a [raise]
      stay visible, as they do in Python.
    - A Python [dict] is an insertion-ordered association list with unique
      keys ([PyDict]): assigning an existing key keeps its position.
    - The external collaborators (the Voyage embedding client, the OpenAI
      chat client, the scoring formula of [rank_bm25] and Flask's JSON
      encoder) are parameters: functions of their request.  FAISS' exact
      [IndexFlatL2] is modelled concretely. *)

From Stdlib Require Import List String Ascii ZArith QArith Qminmax Qabs Bool.
From Stdlib Require Import Lia Lqa.
From Stdlib Require Import Permutation Decimal DecimalString DecimalN Sorted.
Import ListNotations.

Local Open Scope string_scope.
Local Open Scope list_scope.
Local Open Scope Z_scope.

(** ** Exceptions and outcomes *)

(** The exception classes the modelled code can raise.  [CollaboratorError]
    stands for any [Exception] subclass raised inside an external client. *)
Inductive exn_class : Type :=
| ValueError
| AssertionError
| IndexError
| KeyError
| ZeroDivisionError
| CollaboratorError.

(** An exception object: its class and [str(e)]. *)
Record exn : Type := Exn { exn_cls : exn_class; exn_str : string }.

Inductive outcome (A : Type) : Type :=
| Returns (a : A)
| Raises (e : exn).

Arguments Returns {A} a.
Arguments Raises {A} e.

(** A method over receiver state [S]. *)
Definition M (S A : Type) : Type := S -> outcome A * S.

Definition ret {S A} (a : A) : M S A := fun s => (Returns a, s).

Definition raise {S A} (e : exn) : M S A := fun s => (Raises e, s).

Definition bind {S A B} (m : M S A) (k : A -> M S B) : M S B :=
  fun s =>
    match m s with
    | (Returns a, s') => k a s'
    | (Raises e, s') => (Raises e, s')
    end.

Definition get_self {S} : M S S := fun s => (Returns s, s).

Definition put_self {S} (s' : S) : M S unit := fun _ => (Returns tt, s').

(** A call into pure (state-free) code that may raise. *)
Definition lift {S A} (o : outcome A) : M S A := fun s => (o, s).

(** [try: m except Exception as e: h e]. *)
Definition try_except {S A} (m : M S A) (h : exn -> M S A) : M S A :=
  fun s =>
    match m s with
    | (Returns a, s') => (Returns a, s')
    | (Raises e, s') => h e s'
    end.

(** A method of a component object run on the field that holds it. *)
Definition on_field {S T A} (proj : S -> T) (upd : T -> S -> S) (m : M T A)
  : M S A :=
  fun s => let (o, t') := m (proj s) in (o, upd t' s).

Declare Scope py_scope.
Delimit Scope py_scope with py.
Notation "x <- m ;; k" := (bind m (fun x => k))
  (at level 100, m at next level, right associativity) : py_scope.
Notation "m ;;; k" := (bind m (fun _ => k))
  (at level 100, right associativity) : py_scope.

(** ** Python containers *)

(** Keys of a dict: a type with a boolean equality. *)
Class Hashable (K : Type) : Type :=
  { key_eqb : K -> K -> bool;
    key_eqb_spec : forall x y, reflect (x = y) (key_eqb x y) }.

#[export] Instance Hashable_string : Hashable string :=
  {| key_eqb := String.eqb; key_eqb_spec := String.eqb_spec |}.

#[export] Instance Hashable_Z : Hashable Z :=
  {| key_eqb := Z.eqb; key_eqb_spec := Z.eqb_spec |}.

Module PyDict.
Section Dict.
Context {K V : Type} `{Hashable K}.

Definition t : Type := list (K * V).

Definition empty : t := [].

(** [d.get(k)] *)
Fixpoint get (d : t) (k : K) : option V :=
match d with
| [] => None
| (k', v) :: d' => if key_eqb k k' then Some v else get d' k
end.

(** [k in d] *)
Definition mem (d : t) (k : K) : bool :=
match get d k with Some _ => true | None => false end.

(** [d[k] = v] *)
Fixpoint set (d : t) (k : K) (v : V) : t :=
match d with
| [] => [(k, v)]
| (k', v') :: d' =>
    if key_eqb k k' then (k', v) :: d' else (k', v') :: set d' k v
end.

Definition keys (d : t) : list K := map fst d.

(** [d.items()], in insertion order. *)
Definition items (d : t) : list (K * V) := d.

(** [len(d)] *)
Definition len (d : t) : Z := Z.of_nat (List.length d).
End Dict.
Arguments t K V : clear implicits.
End PyDict.

(** [l[:k]] *)
Definition slice_to {A} (l : list A) (k : Z) : list A :=
  if k <? 0 then firstn (Z.to_nat (Z.of_nat (List.length l) + k)) l
  else firstn (Z.to_nat k) l.

(** [zip(xs, ys)] is [combine xs ys]; [enumerate(xs)] pairs each element
    with its position. *)
Fixpoint enumerate_from {A} (i : Z) (l : list A) : list (Z * A) :=
  match l with
  | [] => []
  | x :: l' => (i, x) :: enumerate_from (i + 1) l'
  end.

Definition enumerate {A} (l : list A) : list (Z * A) := enumerate_from 0 l.

(** A stable sort: [insert_by] puts [x] in front of the first element that
    is not strictly better than it, so among equals the earlier stays
    first.  [better y x] reads: y must come before x. *)
Section StableSort.
Context {A : Type} (better : A -> A -> bool).

Fixpoint insert_by (x : A) (l : list A) : list A :=
  match l with
  | [] => [x]
  | y :: l' => if better y x then y :: insert_by x l' else x :: y :: l'
  end.

Definition stable_sort (l : list A) : list A :=
  fold_right insert_by [] l.
End StableSort.

Definition Qlt_bool (x y : Q) : bool := negb (Qle_bool y x).

(** [sorted(items, key=lambda x: x[1], reverse=True)] *)
Definition sorted_by_score_desc {A} (l : list (A * Q)) : list (A * Q) :=
  stable_sort (fun y x => Qlt_bool (snd x) (snd y)) l.

(** [str.split()] with no argument: maximal runs of non-whitespace
    characters.  A character of a [string] stands for the code point of
    its number, so the texts of this development are those over the code
    points below 256; the whitespace among them, by [str.isspace]: tab,
    newline, vertical tab, form feed, carriage return, the four
    separators 28-31, space, next line (133) and no-break space (160). *)
Definition is_space (c : ascii) : bool :=
  let n := nat_of_ascii c in
  ((9 <=? n) && (n <=? 13) || (28 <=? n) && (n <=? 32)
   || (n =? 133) || (n =? 160))%nat.

Fixpoint split_aux (s : string) (cur : string) : list string :=
  match s with
  | EmptyString => if (String.length cur =? 0)%nat then [] else [cur]
  | String c s' =>
      if is_space c
      then if (String.length cur =? 0)%nat then split_aux s' ""
           else cur :: split_aux s' ""
      else split_aux s' (cur ++ String c "")%string
  end.

Definition split (s : string) : list string := split_aux s "".

(** [str(i)] for a non-negative integer. *)
Definition str_of_Z (i : Z) : string :=
  NilEmpty.string_of_uint (N.to_uint (Z.to_N i)).

(** ** Configuration ([src/config.py])

    The class attributes of [Config] the retrieval and QA code reads; they
    are fixed when the module is imported. *)
Record Config : Type := mkConfig
  { OPENAI_API_KEY : string;
    VOYAGE_API_KEY : string;
    EMBEDDING_MODEL : string;
    EMBEDDING_DIMENSION : Z;
    LLM_MODEL : string;
    LLM_TEMPERATURE : Q;
    LLM_MAX_TOKENS : Z;
    TOP_K_RETRIEVAL : Z;
    HYBRID_SEARCH_ALPHA : Q }.

(** [x or default] on an optional string / integer argument. *)
Definition str_or (x : option string) (default : string) : string :=
  match x with
  | Some s => if (String.length s =? 0)%nat then default else s
  | None => default
  end.

Definition int_or (x : option Z) (default : Z) : Z :=
  match x with
  | Some n => if n =? 0 then default else n
  | None => default
  end.

(** ** FAISS' exact L2 index

    [IndexFlatL2] keeps the vectors in insertion order; slot [i] is the
    [i]-th vector ever added.  A float32 entry is modelled by the number
    it denotes, rounding left out; an entry beyond [FLT_MAX] stands for
    the infinity the cast to float32 makes of it.  [search] is brute
    force: the squared Euclidean distance to every stored vector goes
    through a heap that starts out filled with distance [FLT_MAX] and
    label [-1], and a vector enters it only when its distance compares
    below [FLT_MAX]; one whose distance overflows, or is not a number,
    never does.  The answer is the [k] smallest distances that entered, in
    increasing order (ties by slot), then what is left of the initial
    filling.  The Python wrappers assert the dimension and [k > 0]. *)
Module Faiss.
Record IndexFlatL2 : Type := mkIndex { d : Z; xb : list (list Q) }.

Definition ntotal (idx : IndexFlatL2) : Z := Z.of_nat (List.length (xb idx)).

Definition reset (idx : IndexFlatL2) : IndexFlatL2 :=
  {| d := d idx; xb := [] |}.

(** [index.add(x)]: [n, d = x.shape; assert d == self.d]. *)
Definition add (idx : IndexFlatL2) (x : list (list Q))
  : outcome IndexFlatL2 :=
  match x with
  | [] => Raises (Exn ValueError "")
  | row :: _ =>
      if Z.of_nat (List.length row) =? d idx
      then Returns {| d := d idx; xb := xb idx ++ x |}
      else Raises (Exn AssertionError "")
  end.

Definition l2_sqr (u v : list Q) : Q :=
  fold_left (fun acc p => acc + (fst p - snd p) * (fst p - snd p))%Q
            (combine u v) 0%Q.

(** The largest float32, and the distance reported next to a [-1]
    label. *)
Definition FLT_MAX : Q := 340282346638528859811704183484516925440 # 1.

(** No entry of the vector is an infinity. *)
Definition finite (v : list Q) : bool :=
  forallb (fun x => Qle_bool (Qabs x) FLT_MAX) v.

(** The distance from [q] to [v] is a number below [FLT_MAX], so [v]
    enters the result heap. *)
Definition admitted (q v : list Q) : bool :=
  finite q && finite v && Qlt_bool (l2_sqr q v) FLT_MAX.

Definition nearest (idx : IndexFlatL2) (q : list Q) : list (Q * Z) :=
  stable_sort (fun y x => Qlt_bool (fst y) (fst x))
    (map (fun iv => (l2_sqr q (snd iv), fst iv))
         (filter (fun iv => admitted q (snd iv)) (enumerate (xb idx)))).

(** [index.search(q, k)] for a single query row: the pairs
    [zip(distances[0], indices[0])]. *)
Definition search (idx : IndexFlatL2) (q : list Q) (k : Z)
  : outcome (list (Q * Z)) :=
  if negb (Z.of_nat (List.length q) =? d idx) then Raises (Exn AssertionError "")
  else if negb (0 <? k) then Raises (Exn AssertionError "")
  else
    let best := firstn (Z.to_nat k) (nearest idx q) in
    Returns (best ++ repeat (FLT_MAX, -1) (Z.to_nat k - List.length best)).
End Faiss.

(** [np.array(rows).astype("float32")]: a ragged list of rows is refused. *)
Definition np_array (rows : list (list Q)) : outcome (list (list Q)) :=
  match rows with
  | [] => Returns []
  | row :: rest =>
      if forallb (fun r => (List.length r =? List.length row)%nat) rest
      then Returns rows
      else Raises (Exn ValueError "")
  end.

(** ** The document store ([src/rag/vector_store.py]) *)

Record Document : Type := mkDocument
  { id : string;
    content : string;
    metadata : PyDict.t string string;
    embedding : option (list Q) }.

Definition with_embedding (doc : Document) (e : list Q) : Document :=
  {| id := id doc; content := content doc; metadata := metadata doc;
     embedding := Some e |}.

(** [input_type] of an embedding request. *)
Inductive input_type : Type := document | query.

(** The embedding collaborator:
    [client.embed(texts, model=..., input_type=...).embeddings]. *)
Definition embedder : Type :=
  list string -> string -> input_type -> outcome (list (list Q)).

Module VectorStore.
Record t : Type := mk
  { embedding_model_name : string;
    dimension : Z;
    use_gpu : bool;
    voyage_client : string;  (* the client, identified by its api key *)
    index : Faiss.IndexFlatL2;
    documents : PyDict.t string Document;
    id_to_idx : PyDict.t string Z }.

Definition set_index (i : Faiss.IndexFlatL2) (self : t) : t :=
  {| embedding_model_name := embedding_model_name self;
     dimension := dimension self; use_gpu := use_gpu self;
     voyage_client := voyage_client self;
     index := i; documents := documents self;
     id_to_idx := id_to_idx self |}.

Definition set_documents (ds : PyDict.t string Document) (self : t) : t :=
  {| embedding_model_name := embedding_model_name self;
     dimension := dimension self; use_gpu := use_gpu self;
     voyage_client := voyage_client self;
     index := index self; documents := ds;
     id_to_idx := id_to_idx self |}.

Definition set_id_to_idx (m : PyDict.t string Z) (self : t) : t :=
  {| embedding_model_name := embedding_model_name self;
     dimension := dimension self; use_gpu := use_gpu self;
     voyage_client := voyage_client self;
     index := index self; documents := documents self;
     id_to_idx := m |}.

(** [VectorStore.__init__] *)
Definition __init__ (cfg : Config) (embedding_model : option string)
    (dimension_arg : option Z) (gpu : bool) : outcome t :=
  let name := str_or embedding_model (EMBEDDING_MODEL cfg) in
  let dim := int_or dimension_arg (EMBEDDING_DIMENSION cfg) in
  if (String.length (VOYAGE_API_KEY cfg) =? 0)%nat
  then Raises (Exn ValueError "VOYAGE_API_KEY not set in environment")
  else Returns
         {| embedding_model_name := name; dimension := dim; use_gpu := gpu;
            voyage_client := VOYAGE_API_KEY cfg;
            index := Faiss.mkIndex dim [];
            documents := PyDict.empty; id_to_idx := PyDict.empty |}.

Section Methods.
Variable embed : embedder.

Local Open Scope py_scope.

(** The loop [for i, doc in enumerate(documents)] of [add_documents]. *)
Fixpoint store_documents (embeddings_np : list (list Q)) (start_idx : Z)
    (l : list (Z * Document)) : M t unit :=
  match l with
  | [] => ret tt
  | (i, doc) :: l' =>
      match nth_error embeddings_np (Z.to_nat i) with
      | None => raise (Exn IndexError "")
      | Some e =>
          self <- get_self ;;
          put_self
            (set_id_to_idx
               (PyDict.set (id_to_idx self) (id doc) (start_idx + i))
               (set_documents
                  (PyDict.set (documents self) (id doc)
                              (with_embedding doc e)) self)) ;;;
          store_documents embeddings_np start_idx l'
      end
  end.

(** [VectorStore.add_documents] *)
Definition add_documents (docs : list Document) : M t unit :=
  match docs with
  | [] => ret tt
  | _ :: _ =>
      self <- get_self ;;
      let texts := map content docs in
      embeddings <- lift (embed texts (embedding_model_name self) document) ;;
      embeddings_np <- lift (np_array embeddings) ;;
      let start_idx := Faiss.ntotal (index self) in
      index' <- lift (Faiss.add (index self) embeddings_np) ;;
      put_self (set_index index' self) ;;;
      store_documents embeddings_np start_idx (enumerate docs)
  end.

(** [{v: k for k, v in self.id_to_idx.items()}] *)
Definition invert (m : PyDict.t string Z) : PyDict.t Z string :=
  fold_left (fun acc kv => PyDict.set acc (snd kv) (fst kv))
            (PyDict.items m) PyDict.empty.

(** The loop [for dist, idx in zip(distances[0], indices[0])] of
    [search]; [self.documents[doc_id]] raises [KeyError] on a missing
    key. *)
Fixpoint collect (self : t) (idx_to_id : PyDict.t Z string)
    (hits : list (Q * Z)) : outcome (list (Document * Q)) :=
  match hits with
  | [] => Returns []
  | (dist, idx) :: hits' =>
      if negb (idx =? -1) && PyDict.mem idx_to_id idx then
        match PyDict.get idx_to_id idx with
        | None => Raises (Exn KeyError "")
        | Some doc_id =>
            match PyDict.get (documents self) doc_id with
            | None => Raises (Exn KeyError doc_id)
            | Some doc =>
                let similarity := (1 / (1 + dist))%Q in
                match collect self idx_to_id hits' with
                | Returns results => Returns ((doc, similarity) :: results)
                | Raises e => Raises e
                end
            end
        end
      else collect self idx_to_id hits'
  end.

(** [VectorStore.search] *)
Definition search (q : string) (top_k : Z) : M t (list (Document * Q)) :=
  self <- get_self ;;
  if Faiss.ntotal (index self) =? 0 then ret []
  else
    embeddings <- lift (embed [q] (embedding_model_name self) query) ;;
    match embeddings with
    | [] => raise (Exn IndexError "")
    | query_embedding :: _ =>
        hits <- lift (Faiss.search (index self) query_embedding top_k) ;;
        lift (collect self (invert (id_to_idx self)) hits)
    end.

(** [VectorStore.get_document] *)
Definition get_document (doc_id : string) : M t (option Document) :=
  self <- get_self ;;
  ret (PyDict.get (documents self) doc_id).

(** [VectorStore.clear] *)
Definition clear : M t unit :=
  self <- get_self ;;
  put_self (set_index (Faiss.reset (index self)) self) ;;;
  self <- get_self ;;
  put_self (set_documents PyDict.empty self) ;;;
  self <- get_self ;;
  put_self (set_id_to_idx PyDict.empty self).

(** [VectorStore.get_stats]: total_documents, index_size, dimension,
    model. *)
Definition get_stats : M t (Z * Z * Z * string) :=
  self <- get_self ;;
  ret (PyDict.len (documents self), Faiss.ntotal (index self),
       dimension self, embedding_model_name self).
End Methods.
End VectorStore.

(** ** The lexical index ([rank_bm25.BM25Okapi])

    The index is built over the tokenized corpus.  The constructor divides
    the token count by the corpus size and the summed idf by the size of
    the vocabulary, so it raises [ZeroDivisionError] when the corpus holds
    no token at all, in particular when it is empty.  [get_scores] returns
    one raw score per corpus document, in corpus order; the score of a
    document depends on the corpus statistics, the document and the query.
    The scoring formula itself is a parameter ([scorer]). *)
Definition scorer : Type := list (list string) -> list string -> list string -> Q.

Module BM25Okapi.
Record t : Type := mk { corpus : list (list string) }.

Definition no_token (doc : list string) : bool :=
  match doc with
  | [] => true
  | _ :: _ => false
  end.

Definition __init__ (tokenized_docs : list (list string)) : outcome t :=
  if forallb no_token tokenized_docs
  then Raises (Exn ZeroDivisionError "division by zero")
  else Returns {| corpus := tokenized_docs |}.

Definition get_scores (score : scorer) (self : t) (q : list string)
  : list Q :=
  map (fun doc => score (corpus self) doc q) (corpus self).
End BM25Okapi.

(** [a.max()] of a numpy array: refused on an empty array. *)
Definition np_max (a : list Q) : outcome Q :=
  match a with
  | [] => Raises (Exn ValueError "")
  | x :: a' => Returns (fold_left Qmax a' x)
  end.

(** ** The hybrid retriever ([src/rag/hybrid_search.py]) *)
Module HybridSearch.
Record t : Type := mk
  { vector_store : VectorStore.t;
    alpha : Q;
    bm25 : option BM25Okapi.t;
    doc_ids : list string }.

Definition set_vector_store (vs : VectorStore.t) (self : t) : t :=
  {| vector_store := vs; alpha := alpha self; bm25 := bm25 self;
     doc_ids := doc_ids self |}.

Definition set_alpha_field (a : Q) (self : t) : t :=
  {| vector_store := vector_store self; alpha := a; bm25 := bm25 self;
     doc_ids := doc_ids self |}.

Definition set_bm25 (b : option BM25Okapi.t) (self : t) : t :=
  {| vector_store := vector_store self; alpha := alpha self; bm25 := b;
     doc_ids := doc_ids self |}.

Definition set_doc_ids (ids : list string) (self : t) : t :=
  {| vector_store := vector_store self; alpha := alpha self;
     bm25 := bm25 self; doc_ids := ids |}.

(** [HybridSearch.__init__] *)
Definition __init__ (cfg : Config) (vs : VectorStore.t) (alpha_arg : option Q)
  : t :=
  {| vector_store := vs;
     alpha := match alpha_arg with
              | Some a => a
              | None => HYBRID_SEARCH_ALPHA cfg
              end;
     bm25 := None;
     doc_ids := [] |}.

(** Lines 63-67 of [search]: max-normalisation of the raw scores. *)
Definition normalize (bm25_scores : list Q) : outcome (list Q) :=
  match np_max bm25_scores with
  | Raises e => Raises e
  | Returns m =>
      if Qlt_bool 0 m
      then Returns (map (fun s => s / m)%Q bm25_scores)
      else Returns bm25_scores
  end.

(** Lines 76-78: the loop over [zip(self.doc_ids, bm25_scores_norm)]. *)
Definition add_bm25 (a : Q) (pairs : list (string * Q))
    (combined_scores : PyDict.t string Q) : PyDict.t string Q :=
  fold_left
    (fun acc p => PyDict.set acc (fst p) ((1 - a) * snd p)%Q)
    pairs combined_scores.

(** Lines 80-85: the loop over [semantic_results]. *)
Definition add_semantic (a : Q) (semantic_results : list (Document * Q))
    (combined_scores : PyDict.t string Q) : PyDict.t string Q :=
  fold_left
    (fun acc r =>
       match PyDict.get acc (id (fst r)) with
       | Some c => PyDict.set acc (id (fst r)) (c + a * snd r)%Q
       | None => PyDict.set acc (id (fst r)) (a * snd r)%Q
       end)
    semantic_results combined_scores.

(** Lines 73-85. *)
Definition combine_scores (a : Q) (ids : list string)
    (bm25_scores_norm : list Q) (semantic_results : list (Document * Q))
  : PyDict.t string Q :=
  add_semantic a semantic_results
    (add_bm25 a (combine ids bm25_scores_norm) PyDict.empty).

Section Methods.
Variable embed : embedder.
Variable score : scorer.

Local Open Scope py_scope.

(** [HybridSearch.index_documents] *)
Definition index_documents (docs : list Document) : M t unit :=
  on_field vector_store set_vector_store
           (VectorStore.add_documents embed docs) ;;;
  let tokenized_docs := map (fun doc => split (content doc)) docs in
  b <- lift (BM25Okapi.__init__ tokenized_docs) ;;
  self <- get_self ;;
  put_self (set_bm25 (Some b) self) ;;;
  self <- get_self ;;
  put_self (set_doc_ids (map id docs) self).

(** Lines 92-97 of [search]: a [Document] is always truthy, so only
    [None] is dropped. *)
Fixpoint retrieve (sorted_ids : list (string * Q))
  : M t (list (Document * Q)) :=
  match sorted_ids with
  | [] => ret []
  | (doc_id, s) :: rest =>
      doc <- on_field vector_store set_vector_store
                      (VectorStore.get_document doc_id) ;;
      results <- retrieve rest ;;
      match doc with
      | Some dc => ret ((dc, s) :: results)
      | None => ret results
      end
  end.

(** [HybridSearch.search] *)
Definition search (q : string) (top_k : Z) : M t (list (Document * Q)) :=
  self <- get_self ;;
  match bm25 self with
  | None =>
      on_field vector_store set_vector_store
               (VectorStore.search embed q top_k)
  | Some b =>
      let tokenized_query := split q in
      let bm25_scores := BM25Okapi.get_scores score b tokenized_query in
      bm25_scores_norm <- lift (normalize bm25_scores) ;;
      semantic_results <-
        on_field vector_store set_vector_store
                 (VectorStore.search embed q (top_k * 2)) ;;
      let combined_scores :=
        combine_scores (alpha self) (doc_ids self) bm25_scores_norm
                       semantic_results in
      let sorted_ids :=
        slice_to (sorted_by_score_desc (PyDict.items combined_scores))
                 top_k in
      retrieve sorted_ids
  end.

(** [HybridSearch.set_alpha] *)
Definition set_alpha (a : Q) : M t unit :=
  if negb (Qle_bool 0 a && Qle_bool a 1)
  then raise (Exn ValueError "alpha must be between 0 and 1")
  else self <- get_self ;; put_self (set_alpha_field a self).
End Methods.
End HybridSearch.

(** ** The QA orchestrator ([src/chatbot/qa_bot.py]) *)

(** The arguments of [client.chat.completions.create]; [prompt] is the
    content of the single user message. *)
Record ChatRequest : Type := mkChatRequest
  { req_model : string;
    req_prompt : string;
    req_temperature : Q;
    req_max_tokens : Z }.

(** The text-generation collaborator: the request either yields
    [response.choices[0].message.content] or raises. *)
Definition generator : Type := ChatRequest -> outcome string.

(** The OpenAI client object, observed through the requests sent with it. *)
Module OpenAI.
Record t : Type := mk { api_key : string; requests : list ChatRequest }.

Definition create (generate : generator) (r : ChatRequest) : M t string :=
  fun self =>
    (generate r, {| api_key := api_key self;
                    requests := requests self ++ [r] |}).
End OpenAI.

Definition nl : string := String (ascii_of_nat 10) "".

Definition join (sep : string) (parts : list string) : string :=
  String.concat sep parts.

Module QABot.
Record Source : Type := mkSource
  { file : string;
    line_range : string;
    type : string;
    relevance : Q;
    preview : string }.

(** The dict [query] returns. *)
Record Answer : Type := mkAnswer
  { answer : string;
    sources : list Source;
    confidence : Q }.

(** A history entry [{"question": ..., "answer": ...}]. *)
Record Exchange : Type := mkExchange
  { ex_question : string; ex_answer : string }.

Record t : Type := mk
  { hybrid_search : HybridSearch.t;
    api_key : string;
    model_name : string;
    client : OpenAI.t;
    temperature : Q;
    max_tokens : Z;
    history : list Exchange }.

Definition set_hybrid_search (hs : HybridSearch.t) (self : t) : t :=
  {| hybrid_search := hs; api_key := api_key self;
     model_name := model_name self; client := client self;
     temperature := temperature self; max_tokens := max_tokens self;
     history := history self |}.

Definition set_client (c : OpenAI.t) (self : t) : t :=
  {| hybrid_search := hybrid_search self; api_key := api_key self;
     model_name := model_name self; client := c;
     temperature := temperature self; max_tokens := max_tokens self;
     history := history self |}.

Definition set_history (h : list Exchange) (self : t) : t :=
  {| hybrid_search := hybrid_search self; api_key := api_key self;
     model_name := model_name self; client := client self;
     temperature := temperature self; max_tokens := max_tokens self;
     history := h |}.

(** [QABot.__init__] *)
Definition __init__ (cfg : Config) (hs : HybridSearch.t)
    (api_key_arg model_arg : option string) : t :=
  let key := str_or api_key_arg (OPENAI_API_KEY cfg) in
  {| hybrid_search := hs;
     api_key := key;
     model_name := str_or model_arg (LLM_MODEL cfg);
     client := OpenAI.mk key [];
     temperature := LLM_TEMPERATURE cfg;
     max_tokens := LLM_MAX_TOKENS cfg;
     history := [] |}.

Definition get_or (m : PyDict.t string string) (k default : string)
  : string :=
  match PyDict.get m k with Some v => v | None => default end.

(** [QABot._build_context] *)
Definition _build_context (results : list (Document * Q)) : string :=
  join nl
    (map (fun ir =>
            let i := fst ir in
            let doc := fst (snd ir) in
            let file_info :=
              ("File: " ++ get_or (metadata doc) "file_path" "Unknown")%string in
            let file_info :=
              match PyDict.get (metadata doc) "line_range" with
              | Some lr => (file_info ++ " (lines " ++ lr ++ ")")%string
              | None => file_info
              end in
            ("[Source " ++ str_of_Z i ++ "] " ++ file_info ++ nl
               ++ content doc ++ nl)%string)
         (enumerate_from 1 results)).

(** [QABot._build_qa_prompt] *)
Definition _build_qa_prompt (question context : string) : string :=
  ("You are a helpful assistant analyzing a code repository. Answer the user's question based on the provided context from the repository."
     ++ nl ++ nl
     ++ "Context from repository:" ++ nl
     ++ context ++ nl ++ nl
     ++ "User Question: " ++ question ++ nl ++ nl
     ++ "Instructions:" ++ nl
     ++ "1. Answer the question based ONLY on the provided context" ++ nl
     ++ "2. If the context doesn't contain enough information, say so" ++ nl
     ++ "3. Reference specific files and line numbers when relevant" ++ nl
     ++ "4. Be concise but complete" ++ nl
     ++ "5. If asked about code location, cite the file and lines" ++ nl
     ++ "6. If asked about functionality, explain what the code does" ++ nl
     ++ nl
     ++ "Answer:")%string.

(** [QABot._format_sources] *)
Definition _format_sources (results : list (Document * Q)) : list Source :=
  map (fun r =>
         let doc := fst r in
         {| file := get_or (metadata doc) "file_path" "Unknown";
            line_range := get_or (metadata doc) "line_range" "N/A";
            type := get_or (metadata doc) "element_type" "code";
            relevance := snd r;
            preview := content doc |})
      results.

(** The answer returned when nothing was retrieved. *)
Definition insufficient : Answer :=
  {| answer := "I don't have enough information to answer this question.";
     sources := [];
     confidence := 0 |}.

Section Methods.
Variable cfg : Config.
Variable embed : embedder.
Variable score : scorer.
Variable generate : generator.

Local Open Scope py_scope.

(** The body of the [try] block of [query]. *)
Definition generate_answer (question : string)
    (results : list (Document * Q)) (prompt : string) : M t Answer :=
  self <- get_self ;;
  answer_text <-
    on_field client set_client
      (OpenAI.create generate
         {| req_model := model_name self;
            req_prompt := prompt;
            req_temperature := temperature self;
            req_max_tokens := max_tokens self |}) ;;
  let srcs := _format_sources results in
  self <- get_self ;;
  put_self (set_history
              (history self ++ [mkExchange question answer_text]) self) ;;;
  ret {| answer := answer_text;
         sources := srcs;
         confidence := match results with
                       | r :: _ => snd r
                       | [] => 0
                       end |}.

(** [QABot.query] *)
Definition query (question : string) (top_k_arg : option Z) : M t Answer :=
  let top_k := match top_k_arg with
               | None => TOP_K_RETRIEVAL cfg
               | Some k => k
               end in
  results <- on_field hybrid_search set_hybrid_search
                      (HybridSearch.search embed score question top_k) ;;
  match results with
  | [] => ret insufficient
  | _ :: _ =>
      let context := _build_context results in
      let prompt := _build_qa_prompt question context in
      try_except
        (generate_answer question results prompt)
        (fun e =>
           ret {| answer := ("Error: " ++ exn_str e)%string;
                  sources := [];
                  confidence := 0 |})
  end.

(** [QABot.get_history] *)
Definition get_history : M t (list Exchange) :=
  self <- get_self ;; ret (history self).

(** [QABot.clear_history] *)
Definition clear_history : M t unit :=
  self <- get_self ;; put_self (set_history [] self).
End Methods.
End QABot.

(** ** Vocabulary of the properties *)

(** The lexical score the loop over [zip(doc_ids, scores)] leaves for a
    chunk id: the score paired with its last occurrence. *)
Definition lexical_score (pairs : list (string * Q)) (i : string) : option Q :=
  fold_left (fun acc p => if String.eqb i (fst p) then Some (snd p) else acc)
            pairs None.

(** The similarity of a chunk id in the semantic candidate list. *)
Fixpoint semantic_score (results : list (Document * Q)) (i : string)
  : option Q :=
  match results with
  | [] => None
  | (doc, s) :: rest =>
      if String.eqb i (id doc) then Some s else semantic_score rest i
  end.

(** A missing side counts as 0. *)
Definition or_zero (s : option Q) : Q :=
  match s with Some x => x | None => 0%Q end.

(** The blend of the two sides of a chunk id. *)
Definition blended (a : Q) (lex sem : option Q) : Q :=
  ((1 - a) * or_zero lex + a * or_zero sem)%Q.

(** The ranked ids that resolve in the store, with their scores. *)
Fixpoint resolve (docs : PyDict.t string Document) (l : list (string * Q))
  : list (Document * Q) :=
  match l with
  | [] => []
  | (i, s) :: rest =>
      match PyDict.get docs i with
      | Some doc => (doc, s) :: resolve docs rest
      | None => resolve docs rest
      end
  end.

(** The ranked and truncated candidate list of [HybridSearch.search]. *)
Definition ranked (combined_scores : PyDict.t string Q) (top_k : Z)
  : list (string * Q) :=
  slice_to (sorted_by_score_desc (PyDict.items combined_scores)) top_k.

(** The slots [0 .. n-1] of an index holding [n] vectors. *)
Definition slots (n : nat) : list Z := map Z.of_nat (seq 0 n).

(** A chunk is stored under its own id. *)
Definition keyed (docs : list (string * Document)) : Prop :=
  forall i doc, In (i, doc) docs -> id doc = i.

(** The store's two dicts describe the same chunks. *)
Record consistent (vs : VectorStore.t) : Prop := mkConsistent
  { cons_keys :
      PyDict.keys (VectorStore.id_to_idx vs)
      = PyDict.keys (VectorStore.documents vs);
    cons_nodup : NoDup (PyDict.keys (VectorStore.documents vs));
    cons_keyed : keyed (VectorStore.documents vs) }.


(** The lexical index, when built, is non-empty, aligned with [doc_ids],
    and names stored chunks only; before it is built the store is empty. *)
Definition lexical_ok (hs : HybridSearch.t) : Prop :=
  match HybridSearch.bm25 hs with
  | Some b =>
      BM25Okapi.corpus b <> []
      /\ List.length (BM25Okapi.corpus b)
         = List.length (HybridSearch.doc_ids hs)
      /\ incl (HybridSearch.doc_ids hs)
              (PyDict.keys
                 (VectorStore.documents (HybridSearch.vector_store hs)))
  | None =>
      VectorStore.documents (HybridSearch.vector_store hs) = []
      /\ HybridSearch.doc_ids hs = []
  end.



(** The labels of a FAISS answer that name a slot (not the [-1] padding). *)
Definition valid_labels (hits : list (Q * Z)) : list Z :=
  filter (fun z => negb (z =? -1)) (map snd hits).

(** The ids of a result list. *)
Definition ids_of (results : list (Document * Q)) : list string :=
  map (fun r => id (fst r)) results.

(** The two sizes [get_stats] reports: [total_documents] and
    [index_size]. *)
Definition corpus_size (vs : VectorStore.t) : Z :=
  PyDict.len (VectorStore.documents vs).

Definition index_size (vs : VectorStore.t) : Z :=
  Faiss.ntotal (VectorStore.index vs).

(** The contract of the embedding collaborator: one vector per text. *)
Definition one_vector_per_text (embed : embedder) : Prop :=
  forall texts model kind vectors,
    embed texts model kind = Returns vectors ->
    List.length vectors = List.length texts.

(** The states of a retriever built over a fresh store and filled by
    successful [index_documents] calls, each with chunk ids that are
    pairwise distinct and new to the store. *)
Inductive indexed (embed : embedder) : HybridSearch.t -> Prop :=
| indexed_new cfg model dim gpu vs a :
    VectorStore.__init__ cfg model dim gpu = Returns vs ->
    indexed embed (HybridSearch.__init__ cfg vs a)
| indexed_more hs docs hs' :
    indexed embed hs ->
    NoDup (map id docs) ->
    (forall doc, In doc docs ->
       PyDict.get (VectorStore.documents (HybridSearch.vector_store hs))
                  (id doc) = None) ->
    HybridSearch.index_documents embed docs hs = (Returns tt, hs') ->
    indexed embed hs'.

(** The stores the code can hold under the configuration [cfg]: one that
    [VectorStore.__init__] returned, after any calls of its methods.
    ([get_document], [get_stats] and [save] leave the store as it is;
    [load] puts what the files hold in place of the index and the two
    dicts.) *)
Inductive constructed (cfg : Config) (embed : embedder)
  : VectorStore.t -> Prop :=
| constructed_new model dim gpu vs :
    VectorStore.__init__ cfg model dim gpu = Returns vs ->
    constructed cfg embed vs
| constructed_add docs vs :
    constructed cfg embed vs ->
    constructed cfg embed (snd (VectorStore.add_documents embed docs vs))
| constructed_search q top_k vs :
    constructed cfg embed vs ->
    constructed cfg embed (snd (VectorStore.search embed q top_k vs))
| constructed_clear vs :
    constructed cfg embed vs ->
    constructed cfg embed (snd (VectorStore.clear vs))
| constructed_load idx docs slot_of vs :
    constructed cfg embed vs ->
    constructed cfg embed
      (VectorStore.set_id_to_idx slot_of
         (VectorStore.set_documents docs (VectorStore.set_index idx vs))).

(** [VectorStore(...).add_documents(documents)]: a put from scratch, the
    way [main] and the tests come to call [add_documents]. *)
Definition put (cfg : Config) (embed : embedder) (model : option string)
    (dim : option Z) (gpu : bool) (docs : list Document)
  : outcome VectorStore.t :=
  match VectorStore.__init__ cfg model dim gpu with
  | Raises e => Raises e
  | Returns vs =>
      match VectorStore.add_documents embed docs vs with
      | (Returns _, vs') => Returns vs'
      | (Raises e, _) => Raises e
      end
  end.

(** [l] occurs inside [s]. *)
Definition contains (s l : string) : Prop :=
  exists pre post, s = (pre ++ l ++ post)%string.

(** [vector_store.clear()] called on the store a retriever holds. *)
Definition clear_store : M HybridSearch.t unit :=
  on_field HybridSearch.vector_store HybridSearch.set_vector_store
           VectorStore.clear.

(** The [top_k] that [QABot.query] passes to the retriever. *)
Definition effective_top_k (cfg : Config) (top_k_arg : option Z) : Z :=
  match top_k_arg with
  | None => TOP_K_RETRIEVAL cfg
  | Some k => k
  end.

(** The request [QABot.query] sends for a question and its retrieved
    chunks. *)
Definition request_of (bot : QABot.t) (question : string)
    (results : list (Document * Q)) : ChatRequest :=
  {| req_model := QABot.model_name bot;
     req_prompt :=
       QABot._build_qa_prompt question (QABot._build_context results);
     req_temperature := QABot.temperature bot;
     req_max_tokens := QABot.max_tokens bot |}.

(** What the retrieval step of [QABot.query] yields. *)
Definition retrieval (cfg : Config) (embed : embedder) (score : scorer)
    (question : string) (top_k : option Z) (bot : QABot.t)
  : outcome (list (Document * Q)) :=
  fst (HybridSearch.search embed score question
         (effective_top_k cfg top_k) (QABot.hybrid_search bot)).

(** The reading of max-normalisation that divides whenever some raw score
    is not 0: all-zero scores are kept, any other score list is divided by
    its maximum. *)
Definition divides_unless_all_zero (bm25_scores : list Q) : Prop :=
  (Forall (fun s => s == 0)%Q bm25_scores ->
     HybridSearch.normalize bm25_scores = Returns bm25_scores)
  /\ (~ Forall (fun s => s == 0)%Q bm25_scores ->
        exists m norm,
          np_max bm25_scores = Returns m
          /\ HybridSearch.normalize bm25_scores = Returns norm
          /\ Forall2 (fun n s => n == s / m)%Q norm bm25_scores).

(** *** A small concrete deployment, used to exercise the theorems *)
Module Demo.
Definition cfg : Config :=
  {| OPENAI_API_KEY := "sk-demo"; VOYAGE_API_KEY := "pa-demo";
     EMBEDDING_MODEL := "voyage-3"; EMBEDDING_DIMENSION := 2;
     LLM_MODEL := "gpt-4o"; LLM_TEMPERATURE := 1 # 10;
     LLM_MAX_TOKENS := 8192; TOP_K_RETRIEVAL := 5;
     HYBRID_SEARCH_ALPHA := 1 # 2 |}.

(** The same deployment with no embedding credential. *)
Definition cfg_no_key : Config :=
  {| OPENAI_API_KEY := "sk-demo"; VOYAGE_API_KEY := "";
     EMBEDDING_MODEL := "voyage-3"; EMBEDDING_DIMENSION := 2;
     LLM_MODEL := "gpt-4o"; LLM_TEMPERATURE := 1 # 10;
     LLM_MAX_TOKENS := 8192; TOP_K_RETRIEVAL := 5;
     HYBRID_SEARCH_ALPHA := 1 # 2 |}.

(** An embedding fake: (number of characters, number of tokens). *)
Definition embed : embedder :=
  fun texts _ _ =>
    Returns (map (fun t => [inject_Z (Z.of_nat (String.length t));
                            inject_Z (Z.of_nat (List.length (split t)))])
                 texts).

(** A scoring fake: the number of query tokens that occur in the
    document. *)
Definition overlap : scorer :=
  fun _ doc q =>
    inject_Z (Z.of_nat
                (List.length (filter (fun w => existsb (String.eqb w) doc) q))).

(** A generation fake that answers, and one that fails. *)
Definition answers : generator := fun _ => Returns "It sums two numbers.".

(** The embedding client of a deployment without a usable credential. *)
Definition unauthorized : embedder :=
  fun _ _ _ => Raises (Exn CollaboratorError "invalid api key").

Definition quota_exceeded : generator :=
  fun _ => Raises (Exn CollaboratorError "quota exceeded").

Definition cat : Document :=
  {| id := "1"; content := "the cat sat on the mat";
     metadata := [("file_path", "cat.txt")]; embedding := None |}.

Definition dogs : Document :=
  {| id := "2"; content := "dogs bark loudly at night";
     metadata := []; embedding := None |}.

Definition cat' : Document :=
  {| id := "3"; content := "the cat sat on the mat";
     metadata := [("file_path", "cat.txt")]; embedding := None |}.

Definition dogs' : Document :=
  {| id := "4"; content := "dogs bark loudly at night";
     metadata := []; embedding := None |}.

Definition empty_store : VectorStore.t :=
  {| VectorStore.embedding_model_name := "voyage-3";
     VectorStore.dimension := 2; VectorStore.use_gpu := false;
     VectorStore.voyage_client := "pa-demo";
     VectorStore.index := Faiss.mkIndex 2 [];
     VectorStore.documents := PyDict.empty;
     VectorStore.id_to_idx := PyDict.empty |}.

Definition fresh : HybridSearch.t := HybridSearch.__init__ cfg empty_store None.

(** The retriever after [index_documents([cat, dogs])]. *)
Definition pets : HybridSearch.t :=
  snd (HybridSearch.index_documents embed [cat; dogs] fresh).

(** A scoring fake with the sign [rank_bm25] gives a one-document corpus:
    there every term has a negative idf, so a document that shares a term
    with the query scores below 0. *)
Definition okapi_one_document : scorer :=
  fun _ doc q =>
    if existsb (fun w => existsb (String.eqb w) doc) q then -1 # 4 else 0 # 1.

(** A pure lexical retriever ([alpha = 0]) over the single chunk [cat]. *)
Definition lonely : HybridSearch.t :=
  snd (HybridSearch.index_documents embed [cat]
         (HybridSearch.__init__ cfg empty_store (Some 0%Q))).

(** An embedding fake that delivers one vector, however many texts it is
    given. *)
Definition embed_first_only : embedder :=
  fun texts model kind =>
    match embed texts model kind with
    | Returns (v :: _) => Returns [v]
    | other => other
    end.




(** An embedding fake that serves document batches and fails on
    queries. *)
Definition down_for_queries : embedder :=
  fun texts model kind =>
    match kind with
    | document => embed texts model kind
    | query => Raises (Exn CollaboratorError "service unavailable")
    end.

(** A chunk whose content holds no token. *)
Definition blank : Document :=
  {| id := "5"; content := "   "; metadata := []; embedding := None |}.

(** The lexical index of [pets]. *)
Definition pets_bm25 : BM25Okapi.t :=
  BM25Okapi.mk (map (fun doc => split (content doc)) [cat; dogs]).

(** The retriever after a second [index_documents([cat', dogs'])]: the
    same chunk set under new ids. *)
Definition pets_twice : HybridSearch.t :=
  snd (HybridSearch.index_documents embed [cat'; dogs'] pets).

Definition bot (hs : HybridSearch.t) : QABot.t :=
  QABot.__init__ cfg hs None None.

(** A JSON encoder that takes every answer, and one that refuses the
    scores it is given. *)
Definition encodes : QABot.Answer -> outcome unit := fun _ => Returns tt.

Definition refuses_float32 : QABot.Answer -> outcome unit :=
  fun _ =>
    Raises (Exn CollaboratorError
              "Object of type float32 is not JSON serializable").
End Demo.

(** ** Checking the configuration ([Config.validate])

    [validate] returns the list of configuration errors.  [VECTOR_DB_TYPE]
    is the one class attribute it reads that [Config] above does not
    carry; the cache directory it creates on the way is outside the
    model. *)
Definition validate (cfg : Config) (VECTOR_DB_TYPE : string) : list string :=
  let errors := [] in
  let errors :=
    if (String.length (OPENAI_API_KEY cfg) =? 0)%nat
    then errors ++ ["OPENAI_API_KEY not set in environment"]
    else errors in
  let errors :=
    if (String.length (VOYAGE_API_KEY cfg) =? 0)%nat
    then errors ++ ["VOYAGE_API_KEY not set in environment"]
    else errors in
  let errors :=
    if negb (existsb (String.eqb VECTOR_DB_TYPE) ["faiss"; "qdrant"])
    then errors ++ [("Invalid VECTOR_DB_TYPE: " ++ VECTOR_DB_TYPE)%string]
    else errors in
  errors.

(** ** Building the chunks to index ([main.py], step 4)

    The parser's and the summarizer's records, and the loop of [main] that
    turns them into [Document]s: one per file summary and one per parsed
    code element. *)
Module CodeElement.
Record t : Type := mk
  { type : string;
    name : string;
    start_line : Z;
    end_line : Z;
    docstring : option string;
    signature : option string;
    body : option string;
    parent : option string }.
End CodeElement.

Module FileAnalysis.
Record t : Type := mk
  { file_path : string;
    language : string;
    elements : list CodeElement.t;
    imports : list string;
    dependencies : list string;
    raw_content : string;
    line_count : Z }.
End FileAnalysis.

Module FileSummary.
Record t : Type := mk
  { file_path : string;
    language : string;
    high_level_summary : string;
    main_functionalities : list string;
    key_elements : list (PyDict.t string string);
    dependencies : list string }.
End FileSummary.

(** [str(i)] for any integer. *)
Definition str_int (i : Z) : string :=
  if i <? 0 then ("-" ++ str_of_Z (- i))%string else str_of_Z i.

(** [s.upper()], on ASCII letters. *)
Definition upper_char (c : ascii) : ascii :=
  let n := nat_of_ascii c in
  if ((97 <=? n) && (n <=? 122))%nat then ascii_of_nat (n - 32) else c.

Fixpoint upper (s : string) : string :=
  match s with
  | EmptyString => EmptyString
  | String c s' => String (upper_char c) (upper s')
  end.

(** The truth value of an optional string: [None] and [""] are false. *)
Definition truthy (s : option string) : bool :=
  match s with
  | Some x => negb (String.length x =? 0)%nat
  | None => false
  end.

Definition text_of (s : option string) : string :=
  match s with Some x => x | None => "" end.

Module Main.
(** Level 1: the file-level summary document. *)
Definition file_doc (i : Z) (summary : FileSummary.t) : Document :=
  {| id := ("file_" ++ str_of_Z i)%string;
     content :=
       (FileSummary.high_level_summary summary
          ++ nl ++ nl ++ "Functionalities:" ++ nl
          ++ join nl (map (fun f => "- " ++ f)
                          (FileSummary.main_functionalities summary)))%string;
     metadata :=
       [("file_path", FileSummary.file_path summary);
        ("language", FileSummary.language summary);
        ("element_type", "file_summary")];
     embedding := None |}.

(** [content_parts] of a code element. *)
Definition content_parts (summary : FileSummary.t) (element : CodeElement.t)
  : list string :=
  let header :=
    (upper (CodeElement.type element) ++ ": " ++ CodeElement.name element)%string in
  let header :=
    if truthy (CodeElement.parent element)
    then (header ++ " (in class " ++ text_of (CodeElement.parent element)
            ++ ")")%string
    else header in
  let parts :=
    [header;
     ("File: " ++ FileSummary.file_path summary)%string;
     ("Lines: " ++ str_int (CodeElement.start_line element) ++ "-"
        ++ str_int (CodeElement.end_line element))%string] in
  let parts :=
    if truthy (CodeElement.signature element)
    then parts ++ [("Signature: " ++ text_of (CodeElement.signature element))%string]
    else parts in
  let parts :=
    if truthy (CodeElement.docstring element)
    then parts
           ++ [("Documentation: " ++ text_of (CodeElement.docstring element))%string]
    else parts in
  if truthy (CodeElement.body element)
  then
    let code := text_of (CodeElement.body element) in
    let code :=
      if (1500 <? String.length code)%nat
      then (substring 0 1500 code ++ nl ++ "... (truncated)")%string
      else code in
    parts ++ [(nl ++ "Code:" ++ nl ++ code)%string]
  else parts.

(** Level 2: the document of a code element.  Metadata values are strings
    here: a missing [parent] ([None]) is kept as the empty string. *)
Definition code_doc (i j : Z) (summary : FileSummary.t)
    (element : CodeElement.t) : Document :=
  {| id := ("file_" ++ str_of_Z i ++ "_code_" ++ str_of_Z j)%string;
     content := join nl (content_parts summary element);
     metadata :=
       [("file_path", FileSummary.file_path summary);
        ("language", FileSummary.language summary);
        ("element_type", CodeElement.type element);
        ("element_name", CodeElement.name element);
        ("line_range",
         (str_int (CodeElement.start_line element) ++ "-"
            ++ str_int (CodeElement.end_line element))%string);
        ("parent", text_of (CodeElement.parent element))];
     embedding := None |}.

(** The loop over [enumerate(zip(file_analyses, file_summaries))]. *)
Definition documents (file_analyses : list FileAnalysis.t)
    (file_summaries : list FileSummary.t) : list Document :=
  flat_map
    (fun ias =>
       let i := fst ias in
       let analysis := fst (snd ias) in
       let summary := snd (snd ias) in
       file_doc i summary
         :: map (fun je => code_doc i (fst je) summary (snd je))
                (enumerate (FileAnalysis.elements analysis)))
    (enumerate (combine file_analyses file_summaries)).
End Main.

(** The place a generated chunk id names: a file, or a code element of a
    file. *)
Definition chunk_key : Type := (Z * option Z)%type.

Definition render (k : chunk_key) : string :=
  match snd k with
  | None => ("file_" ++ str_of_Z (fst k))%string
  | Some j => ("file_" ++ str_of_Z (fst k) ++ "_code_" ++ str_of_Z j)%string
  end.

Definition is_digit (c : ascii) : bool :=
  let n := nat_of_ascii c in ((48 <=? n) && (n <=? 57))%nat.

Fixpoint all_digits (s : string) : bool :=
  match s with
  | EmptyString => true
  | String c s' => is_digit c && all_digits s'
  end.

(** ** The query route of the web application ([src/web/app.py])

    The handler of [POST /api/query].  The request body is a JSON object
    with string values; the response is the body handed to [jsonify] and
    the status code (200 when the handler names none).  The application
    holds the bot under [app.config["QA_BOT"]]. *)
Module WebApp.
Inductive body : Type :=
| error (msg : string)
| result (a : QABot.Answer).

Section Routes.
Variable cfg : Config.
Variable embed : embedder.
Variable score : scorer.
Variable generate : generator.

(** [jsonify(result)] on an answer of the bot.  Flask's JSON provider
    raises on a value it cannot encode, a numpy float32 score for one;
    how a number is represented is outside this development, so whether
    an answer encodes is a parameter.  The error bodies, dicts of one
    string, always encode. *)
Variable jsonify : QABot.Answer -> outcome unit.

Local Open Scope py_scope.

(** [qa_bot.query(question)] on the bot the application holds. *)
Definition ask (question : string) (bot : QABot.t)
  : M (option QABot.t) QABot.Answer :=
  fun _ =>
    let (out, bot') :=
      QABot.query cfg embed score generate question None bot in
    (out, Some bot').

(** [query], the handler of [/api/query]. *)
Definition query (data : PyDict.t string string)
  : M (option QABot.t) (body * Z) :=
  let question :=
    match PyDict.get data "question" with
    | Some q => q
    | None => ""
    end in
  if (String.length question =? 0)%nat
  then ret (error "No question provided", 400)
  else
    qa_bot <- get_self ;;
    match qa_bot with
    | None => ret (error "QA bot not initialized", 500)
    | Some bot =>
        try_except
          (answer <- ask question bot ;;
           lift (jsonify answer) ;;;
           ret (result answer, 200))
          (fun e => ret (error (exn_str e), 500))
    end.
End Routes.
End WebApp.

(** *** A small repository, used to exercise the theorems on [main] *)
Module DemoRepo.
(** One parsed file with one function, and its summary. *)
Definition parsed : FileAnalysis.t :=
  {| FileAnalysis.file_path := "calc.py";
     FileAnalysis.language := "python";
     FileAnalysis.elements :=
       [{| CodeElement.type := "function"; CodeElement.name := "add";
           CodeElement.start_line := 1; CodeElement.end_line := 2;
           CodeElement.docstring := Some "Add two numbers";
           CodeElement.signature := Some "def add(a, b)";
           CodeElement.body := Some "return a + b";
           CodeElement.parent := None |}];
     FileAnalysis.imports := [];
     FileAnalysis.dependencies := [];
     FileAnalysis.raw_content := "def add(a, b): return a + b";
     FileAnalysis.line_count := 2 |}.

Definition summarised : FileSummary.t :=
  {| FileSummary.file_path := "calc.py";
     FileSummary.language := "python";
     FileSummary.high_level_summary := "A calculator";
     FileSummary.main_functionalities := ["adds numbers"];
     FileSummary.key_elements := [];
     FileSummary.dependencies := [] |}.

(** The retriever [main] builds over that file. *)
Definition deployed : HybridSearch.t :=
  snd (HybridSearch.index_documents Demo.embed
         (Main.documents [parsed] [summarised])
         (HybridSearch.__init__ Demo.cfg Demo.empty_store None)).

End DemoRepo.

(** ** Vocabulary of the further properties *)

(** A result list ranked by non-increasing score. *)
Definition descending (results : list (Document * Q)) : Prop :=
  StronglySorted (fun r r' => snd r' <= snd r)%Q results.

(** The candidates of [l] that tie at score [s], in the order of [l]. *)
Definition tied {A} (s : Q) (l : list (A * Q)) : list (A * Q) :=
  filter (fun p => Qeq_bool (snd p) s) l.

(** [l1] opens [l2]. *)
Definition opens {A} (l1 l2 : list A) : Prop := exists rest, l2 = l1 ++ rest.

(** The ranking breaks ties by position in the candidate pool: of the
    candidates of one score, the ranked ones are the first of the pool, in
    the order of the pool. *)
Definition ties_in_pool_order {A} (pool ranking : list (A * Q)) : Prop :=
  forall s, opens (tied s ranking) (tied s pool).

(** A FAISS answer in increasing distance. *)
Definition ascending (hits : list (Q * Z)) : Prop :=
  StronglySorted (fun h h' => fst h <= fst h')%Q hits.

(** The chunk is held by the store (under some key). *)
Definition stored (vs : VectorStore.t) (doc : Document) : Prop :=
  exists i, PyDict.get (VectorStore.documents vs) i = Some doc.

(** * Properties *)

(** ** Running methods *)

Ltac run :=
  unfold bind, get_self, put_self, lift, ret, raise, on_field, try_except;
  simpl.

Lemma set_vector_store_same (hs : HybridSearch.t) :
  HybridSearch.set_vector_store (HybridSearch.vector_store hs) hs = hs.
Proof. destruct hs; reflexivity. Qed.

Lemma set_hybrid_search_same (bot : QABot.t) :
  QABot.set_hybrid_search (QABot.hybrid_search bot) bot = bot.
Proof. destruct bot; reflexivity. Qed.

(** Reading methods leave their receiver as it was. *)
Lemma store_search_frame embed q k (vs : VectorStore.t) :
  snd (VectorStore.search embed q k vs) = vs.
Proof.
  unfold VectorStore.search. run.
  destruct (Faiss.ntotal (VectorStore.index vs) =? 0); [reflexivity|].
  destruct (embed [q] (VectorStore.embedding_model_name vs) query)
    as [[|e es]|err]; try reflexivity.
  simpl. destruct (Faiss.search (VectorStore.index vs) e k); reflexivity.
Qed.

Lemma retrieve_frame (l : list (string * Q)) (hs : HybridSearch.t) :
  snd (HybridSearch.retrieve l hs) = hs.
Proof.
  revert hs. induction l as [|[i s] l IH]; intros hs; [reflexivity|].
  simpl. run. rewrite set_vector_store_same.
  specialize (IH hs).
  destruct (HybridSearch.retrieve l hs) as [[rs|e] hs1]; simpl in IH; subst.
  - destruct (PyDict.get _ i); reflexivity.
  - reflexivity.
Qed.

Lemma retrieve_returns (l : list (string * Q)) (hs : HybridSearch.t) :
  exists rs, HybridSearch.retrieve l hs = (Returns rs, hs).
Proof.
  revert hs. induction l as [|[i s] l IH]; intros hs.
  - exists []. reflexivity.
  - simpl. run. rewrite set_vector_store_same.
    destruct (IH hs) as [rs Hrs]. rewrite Hrs.
    destruct (PyDict.get _ i); eauto.
Qed.

Lemma hybrid_search_frame embed score q k (hs : HybridSearch.t) :
  snd (HybridSearch.search embed score q k hs) = hs.
Proof.
  unfold HybridSearch.search. run.
  destruct (HybridSearch.bm25 hs) as [b|].
  - destruct (HybridSearch.normalize _) as [norm|e]; [|reflexivity].
    pose proof (store_search_frame embed q (k * 2) (HybridSearch.vector_store hs)) as F.
    destruct (VectorStore.search embed q (k * 2) _) as [[sem|e] vs'];
      simpl in F; subst vs'; rewrite set_vector_store_same.
    + apply retrieve_frame.
    + reflexivity.
  - pose proof (store_search_frame embed q k (HybridSearch.vector_store hs)) as F.
    destruct (VectorStore.search embed q k _) as [o vs']; simpl in F; subst vs'.
    simpl. apply set_vector_store_same.
Qed.

(** ** The blend weight *)

(** C4. [set_alpha] rejects a weight outside [0,1] with the [ValueError]
    that plays the role of the validation error, leaving the retriever
    (and so its stored weight) as it was; a weight inside [0,1] is accepted
    and becomes the stored weight, nothing else changing. *)
Theorem set_alpha_validates (a : Q) (hs : HybridSearch.t) :
  (~ (0 <= a /\ a <= 1)%Q ->
     HybridSearch.set_alpha a hs
     = (Raises (Exn ValueError "alpha must be between 0 and 1"), hs)
     /\ HybridSearch.alpha (snd (HybridSearch.set_alpha a hs))
        = HybridSearch.alpha hs)
  /\ ((0 <= a /\ a <= 1)%Q ->
        HybridSearch.set_alpha a hs
        = (Returns tt, HybridSearch.set_alpha_field a hs)
        /\ HybridSearch.alpha (snd (HybridSearch.set_alpha a hs)) = a).
Proof.
  unfold HybridSearch.set_alpha.
  destruct (Qle_bool 0 a) eqn:E0; destruct (Qle_bool a 1) eqn:E1; simpl;
    split; intros Hr; run;
    try (exfalso; apply Hr; split; apply Qle_bool_iff; assumption);
    try (split; reflexivity);
    destruct Hr as [H0 H1];
    apply Qle_bool_iff in H0; apply Qle_bool_iff in H1; congruence.
Qed.

Lemma set_alpha_validates_witness :
  (HybridSearch.set_alpha (3 # 2) Demo.pets
   = (Raises (Exn ValueError "alpha must be between 0 and 1"), Demo.pets)
   /\ HybridSearch.alpha (snd (HybridSearch.set_alpha (3 # 2) Demo.pets))
      = HybridSearch.alpha Demo.pets)
  /\ (HybridSearch.set_alpha (1 # 4) Demo.pets
      = (Returns tt, HybridSearch.set_alpha_field (1 # 4) Demo.pets)
      /\ HybridSearch.alpha (snd (HybridSearch.set_alpha (1 # 4) Demo.pets))
         = 1 # 4).
Proof.
  split.
  - apply (proj1 (set_alpha_validates (3 # 2) Demo.pets)).
    intros [_ H]. revert H. unfold Qle. simpl. lia.
  - apply (proj2 (set_alpha_validates (1 # 4) Demo.pets)).
    split; unfold Qle; simpl; lia.
Defined.

(** ** The QA orchestrator *)

Lemma append_empty_r (s : string) : (s ++ "")%string = s.
Proof. induction s as [|c s IH]; simpl; [reflexivity | now rewrite IH]. Qed.

Section QA.
Variable cfg : Config.
Variable embed : embedder.
Variable score : scorer.
Variable generate : generator.

(** [query] up to the retrieval step. *)
Lemma query_unfold question top_k bot :
  QABot.query cfg embed score generate question top_k bot
  = match retrieval cfg embed score question top_k bot with
    | Returns [] => (Returns QABot.insufficient, bot)
    | Returns (r :: rs) =>
        try_except
          (QABot.generate_answer generate question (r :: rs)
             (QABot._build_qa_prompt question (QABot._build_context (r :: rs))))
          (fun e =>
             ret {| QABot.answer := ("Error: " ++ exn_str e)%string;
                    QABot.sources := [];
                    QABot.confidence := 0 |})
          bot
    | Raises e => (Raises e, bot)
    end.
Proof.
  unfold QABot.query, retrieval, effective_top_k. run.
  pose proof (hybrid_search_frame embed score question
                match top_k with
                | Some k => k
                | None => TOP_K_RETRIEVAL cfg
                end (QABot.hybrid_search bot)) as F.
  destruct (HybridSearch.search embed score question _ _) as [o hs'].
  simpl in F. subst hs'. rewrite set_hybrid_search_same. simpl.
  destruct o as [[|r rs]|e]; reflexivity.
Qed.

(** C5. When retrieval yields no chunk, [query] returns the canned
    insufficient-information answer with no sources and confidence 0,
    and nothing is sent to the text-generation collaborator: the bot,
    with its client's request log, is as it was. *)
Theorem query_without_results question top_k bot :
  retrieval cfg embed score question top_k bot = Returns [] ->
  let (out, bot') := QABot.query cfg embed score generate question top_k bot in
  out = Returns
          {| QABot.answer :=
               "I don't have enough information to answer this question.";
             QABot.sources := [];
             QABot.confidence := 0 |}
  /\ OpenAI.requests (QABot.client bot') = OpenAI.requests (QABot.client bot)
  /\ bot' = bot.
Proof.
  intros H. rewrite query_unfold, H. repeat split.
Qed.

(** C6. When retrieval yields at least one chunk and the text-generation
    collaborator raises, whatever the exception, [query] returns
    normally: the answer is ["Error: "] followed by the description of
    the exception, so it contains it; sources are empty and confidence
    is 0.  The failed request was the only one sent. *)
Theorem query_survives_generation_failure question top_k bot r rs e :
  retrieval cfg embed score question top_k bot = Returns (r :: rs) ->
  generate (request_of bot question (r :: rs)) = Raises e ->
  let (out, bot') := QABot.query cfg embed score generate question top_k bot in
  exists ans,
    out = Returns ans
    /\ QABot.answer ans = ("Error: " ++ exn_str e)%string
    /\ contains (QABot.answer ans) (exn_str e)
    /\ QABot.sources ans = []
    /\ QABot.confidence ans = 0%Q
    /\ OpenAI.requests (QABot.client bot')
       = OpenAI.requests (QABot.client bot)
           ++ [request_of bot question (r :: rs)].
Proof.
  intros Hr Hg. rewrite query_unfold, Hr.
  unfold QABot.generate_answer, OpenAI.create. run.
  unfold request_of in Hg. rewrite Hg. simpl.
  eexists. split; [reflexivity|]. simpl. repeat split.
  exists "Error: ", "". now rewrite append_empty_r.
Qed.
End QA.

(** C10. [query] appends one [{question, answer}] entry to the history
    exactly when retrieval yielded a chunk and the generation call
    returned; on the canned-answer path, on the generation-failure path
    (and when retrieval itself raises) the history is left as it was. *)
Theorem query_history cfg embed score generate question top_k bot :
  let bot' :=
    snd (QABot.query cfg embed score generate question top_k bot) in
  match retrieval cfg embed score question top_k bot with
  | Returns (r :: rs) =>
      match generate (request_of bot question (r :: rs)) with
      | Returns a =>
          QABot.history bot'
          = QABot.history bot ++ [QABot.mkExchange question a]
      | Raises _ => QABot.history bot' = QABot.history bot
      end
  | Returns [] => QABot.history bot' = QABot.history bot
  | Raises _ => QABot.history bot' = QABot.history bot
  end.
Proof.
  intros bot'. subst bot'. rewrite query_unfold.
  destruct (retrieval cfg embed score question top_k bot) as [[|r rs]|e];
    try reflexivity.
  unfold QABot.generate_answer, OpenAI.create, request_of. run.
  destruct (generate _); reflexivity.
Qed.

Lemma query_without_results_witness :
  let (out, bot') :=
    QABot.query Demo.cfg Demo.embed Demo.overlap Demo.answers
                "what does the cat do" None (Demo.bot Demo.fresh) in
  out = Returns
          {| QABot.answer :=
               "I don't have enough information to answer this question.";
             QABot.sources := [];
             QABot.confidence := 0 |}
  /\ OpenAI.requests (QABot.client bot')
     = OpenAI.requests (QABot.client (Demo.bot Demo.fresh))
  /\ bot' = Demo.bot Demo.fresh.
Proof.
  apply (query_without_results Demo.cfg Demo.embed Demo.overlap Demo.answers
           "what does the cat do" None (Demo.bot Demo.fresh)).
  reflexivity.
Defined.

Lemma query_survives_generation_failure_witness :
  exists r rs,
    retrieval Demo.cfg Demo.embed Demo.overlap "cat mat" None
              (Demo.bot Demo.pets) = Returns (r :: rs)
    /\ let (out, bot') :=
         QABot.query Demo.cfg Demo.embed Demo.overlap Demo.quota_exceeded
                     "cat mat" None (Demo.bot Demo.pets) in
       exists ans,
         out = Returns ans
         /\ QABot.answer ans = "Error: quota exceeded"
         /\ contains (QABot.answer ans) "quota exceeded"
         /\ QABot.sources ans = []
         /\ QABot.confidence ans = 0%Q
         /\ OpenAI.requests (QABot.client bot')
            = OpenAI.requests (QABot.client (Demo.bot Demo.pets))
                ++ [request_of (Demo.bot Demo.pets) "cat mat" (r :: rs)].
Proof.
  destruct (retrieval Demo.cfg Demo.embed Demo.overlap "cat mat" None
              (Demo.bot Demo.pets)) as [[|r rs]|e] eqn:E;
    try (vm_compute in E; discriminate).
  exists r, rs. split; [reflexivity|].
  apply (query_survives_generation_failure Demo.cfg Demo.embed Demo.overlap
           Demo.quota_exceeded "cat mat" None (Demo.bot Demo.pets) r rs
           (Exn CollaboratorError "quota exceeded")).
  - exact E.
  - reflexivity.
Defined.

(** ** Configuration errors *)

Lemma store_documents_client embs start l (vs : VectorStore.t) :
  VectorStore.voyage_client
    (snd (VectorStore.store_documents embs start l vs))
  = VectorStore.voyage_client vs.
Proof.
  revert vs.
  induction l as [|[i doc] l IH]; intros vs; simpl; [reflexivity|].
  destruct (nth_error embs (Z.to_nat i)); [|reflexivity].
  run. rewrite IH. reflexivity.
Qed.

Lemma add_documents_client embed docs (vs : VectorStore.t) :
  VectorStore.voyage_client (snd (VectorStore.add_documents embed docs vs))
  = VectorStore.voyage_client vs.
Proof.
  unfold VectorStore.add_documents. destruct docs as [|doc docs]; [reflexivity|].
  unfold bind, get_self, lift, put_self.
  destruct (embed _ _ _) as [embs|e]; [|reflexivity].
  destruct (np_array embs) as [arr|e]; [|reflexivity].
  destruct (Faiss.add _ arr) as [idx'|e]; [|reflexivity].
  now rewrite store_documents_client.
Qed.

(** Every store the code can hold carries the credential of its
    configuration, and that credential is not empty. *)
Lemma constructed_has_credential cfg embed vs :
  constructed cfg embed vs ->
  VOYAGE_API_KEY cfg <> ""
  /\ VectorStore.voyage_client vs = VOYAGE_API_KEY cfg.
Proof.
  induction 1 as [model dim gpu vs Hinit
                 | docs vs _ IH | q k vs _ IH | vs _ IH
                 | idx docs slot_of vs _ IH].
  - unfold VectorStore.__init__ in Hinit.
    destruct (VOYAGE_API_KEY cfg) as [|c key] eqn:Hk; [discriminate|].
    simpl in Hinit. injection Hinit as <-. split; [discriminate|].
    reflexivity.
  - now rewrite add_documents_client.
  - now rewrite store_search_frame.
  - exact IH.
  - exact IH.
Qed.

(** C9. When no embedding credential is configured, a put fails with the
    configuration error of the code, the [ValueError] of the guard in
    [VectorStore.__init__], whatever the batch and before the embedding
    client is asked anything: the store the call would be made on cannot
    be constructed, and no store the code can hold is without the
    credential. *)
Theorem put_without_credential_fails
    (cfg : Config) (embed : embedder) (model : option string)
    (dim : option Z) (gpu : bool) (docs : list Document) :
  VOYAGE_API_KEY cfg = "" ->
  put cfg embed model dim gpu docs
  = Raises (Exn ValueError "VOYAGE_API_KEY not set in environment")
  /\ VectorStore.__init__ cfg model dim gpu
     = Raises (Exn ValueError "VOYAGE_API_KEY not set in environment")
  /\ forall vs, ~ constructed cfg embed vs.
Proof.
  intros Hk.
  assert (Hinit : VectorStore.__init__ cfg model dim gpu
                  = Raises (Exn ValueError
                              "VOYAGE_API_KEY not set in environment")).
  { unfold VectorStore.__init__. now rewrite Hk. }
  split; [|split].
  - unfold put. now rewrite Hinit.
  - exact Hinit.
  - intros vs Hvs. apply constructed_has_credential in Hvs. tauto.
Qed.

Lemma put_without_credential_fails_witness :
  put Demo.cfg_no_key Demo.embed None None false [Demo.cat; Demo.dogs]
  = Raises (Exn ValueError "VOYAGE_API_KEY not set in environment")
  /\ VectorStore.__init__ Demo.cfg_no_key None None false
     = Raises (Exn ValueError "VOYAGE_API_KEY not set in environment")
  /\ forall vs, ~ constructed Demo.cfg_no_key Demo.embed vs.
Proof.
  apply (put_without_credential_fails Demo.cfg_no_key Demo.embed None None
           false [Demo.cat; Demo.dogs]).
  reflexivity.
Defined.

(** With a credential the same put goes through to the embedding client:
    on the demo deployment it stores both chunks. *)
Example put_with_credential :
  match put Demo.cfg Demo.embed None None false [Demo.cat; Demo.dogs] with
  | Returns vs => PyDict.keys (VectorStore.documents vs) = ["1"; "2"]
  | Raises _ => False
  end.
Proof. vm_compute. reflexivity. Qed.

(** ** Max-normalisation of the lexical scores *)

Lemma Qmax_cases (x y : Q) :
  (Qmax x y = x /\ (y <= x)%Q) \/ (Qmax x y = y /\ (x <= y)%Q).
Proof.
  unfold Qmax, GenericMinMax.gmax.
  destruct (Qcompare x y) eqn:E.
  - left. split; [reflexivity|]. apply Qeq_alt in E. rewrite E. apply Qle_refl.
  - right. split; [reflexivity|]. apply Qlt_alt in E. now apply Qlt_le_weak.
  - left. split; [reflexivity|]. apply Qgt_alt in E. now apply Qlt_le_weak.
Qed.

Lemma fold_max_start (l : list Q) (x : Q) : (x <= fold_left Qmax l x)%Q.
Proof.
  revert x. induction l as [|y l IH]; intros x; simpl; [apply Qle_refl|].
  eapply Qle_trans; [|apply IH].
  destruct (Qmax_cases x y) as [[-> _]|[-> H]]; [apply Qle_refl | exact H].
Qed.

Lemma fold_max_upper (l : list Q) (x s : Q) :
  In s l -> (s <= fold_left Qmax l x)%Q.
Proof.
  revert x. induction l as [|y l IH]; intros x; simpl; [tauto|].
  intros [<-|Hin]; [|now apply IH].
  eapply Qle_trans; [|apply fold_max_start].
  destruct (Qmax_cases x y) as [[-> H]|[-> _]]; [exact H | apply Qle_refl].
Qed.

Lemma fold_max_member (l : list Q) (x : Q) : In (fold_left Qmax l x) (x :: l).
Proof.
  revert x. induction l as [|y l IH]; intros x; simpl; [now left|].
  destruct (IH (Qmax x y)) as [H|H].
  - rewrite <- H.
    destruct (Qmax_cases x y) as [[-> _]|[-> _]]; [now left | right; now left].
  - right. now right.
Qed.

Lemma Qlt_bool_iff (x y : Q) : Qlt_bool x y = true <-> (x < y)%Q.
Proof.
  unfold Qlt_bool. rewrite negb_true_iff. split.
  - intros H. apply Qnot_le_lt. intros Hle.
    apply Qle_bool_iff in Hle. congruence.
  - intros H. destruct (Qle_bool y x) eqn:E; [|reflexivity].
    apply Qle_bool_iff in E. exfalso. eapply Qlt_not_le; eassumption.
Qed.

(** The maximum of a non-empty score array. *)
Lemma np_max_spec (s : Q) (rest : list Q) :
  exists m, np_max (s :: rest) = Returns m
            /\ In m (s :: rest)
            /\ (forall x, In x (s :: rest) -> (x <= m)%Q).
Proof.
  exists (fold_left Qmax rest s). split; [reflexivity|]. split.
  - apply fold_max_member.
  - intros x [<-|Hin]; [apply fold_max_start | now apply fold_max_upper].
Qed.

(** Lines 63-67 on a non-empty raw score array with maximum [m]: when
    [m > 0] every raw score is divided by [m]; when [m <= 0] the division
    is skipped and the raw scores are used as they are.  In particular,
    when every raw score is 0 the scores stay all 0. *)
Lemma normalize_divides_by_positive_max (s : Q) (rest : list Q) :
  exists m,
    np_max (s :: rest) = Returns m
    /\ In m (s :: rest)
    /\ (forall x, In x (s :: rest) -> (x <= m)%Q)
    /\ ((0 < m)%Q ->
        HybridSearch.normalize (s :: rest)
        = Returns (map (fun x => x / m)%Q (s :: rest)))
    /\ ((m <= 0)%Q -> HybridSearch.normalize (s :: rest) = Returns (s :: rest))
    /\ (Forall (fun x => x == 0)%Q (s :: rest) ->
        HybridSearch.normalize (s :: rest) = Returns (s :: rest)).
Proof.
  destruct (np_max_spec s rest) as (m & Hm & Hin & Hub).
  exists m. repeat (split; [assumption|]).
  unfold HybridSearch.normalize. rewrite Hm.
  assert (Hskip : (m <= 0)%Q ->
                  (if Qlt_bool 0 m
                   then Returns (map (fun x => x / m)%Q (s :: rest))
                   else Returns (s :: rest)) = Returns (s :: rest)).
  { intros Hle. destruct (Qlt_bool 0 m) eqn:E; [|reflexivity].
    apply Qlt_bool_iff in E. exfalso. eapply Qlt_not_le; eassumption. }
  split; [|split].
  - intros Hpos. apply Qlt_bool_iff in Hpos. now rewrite Hpos.
  - exact Hskip.
  - intros Hz. apply Hskip.
    rewrite Forall_forall in Hz. rewrite (Hz m Hin). apply Qle_refl.
Qed.

Example normalize_at_work :
  HybridSearch.normalize [3 # 1; 0 # 1; 6 # 1]
  = Returns (map (fun x => x / (6 # 1))%Q [3 # 1; 0 # 1; 6 # 1])
  /\ HybridSearch.normalize [0 # 1; 0 # 1] = Returns [0 # 1; 0 # 1].
Proof. split; reflexivity. Qed.

(** C7.  The failing input: a retriever over the single chunk [cat] with
    [alpha = 0], asked for [cat].  rank_bm25 scores a matching chunk of a
    one-document corpus below 0, so the maximum of the raw scores is
    negative: the scores are not all 0, and yet the guard [max() > 0]
    skips the division.  The raw negative score is blended and returned:
    [search] hands out a score below 0, against the comment of line 63,
    [Normalize BM25 scores to [0, 1]]. *)
Theorem search_returns_negative_lexical_score :
  BM25Okapi.get_scores Demo.okapi_one_document
    (BM25Okapi.mk [split (content Demo.cat)]) (split "cat")
  = [-1 # 4]
  /\ np_max [-1 # 4] = Returns (-1 # 4)
  /\ HybridSearch.normalize [-1 # 4] = Returns [-1 # 4]
  /\ ~ divides_unless_all_zero [-1 # 4]
  /\ match HybridSearch.search Demo.embed Demo.okapi_one_document
             "cat" 1 Demo.lonely with
     | (Returns [(doc, s)], hs) =>
         id doc = "1" /\ (s == -1 # 4)%Q /\ (s < 0)%Q /\ hs = Demo.lonely
     | _ => False
     end.
Proof.
  split; [reflexivity|]. split; [reflexivity|]. split; [reflexivity|]. split.
  - intros [_ H].
    destruct H as (m & norm & Hm & Hn & HF).
    + intros Hz. inversion Hz as [|x l Hx _]. discriminate Hx.
    + injection Hm as <-. injection Hn as <-.
      inversion HF as [|n x l1 l2 Hnx _]. discriminate Hnx.
  - vm_compute. repeat split; reflexivity.
Qed.

(** ** Dict lemmas *)

Section DictFacts.
Context {K V : Type} `{Hashable K}.
Implicit Types (d : PyDict.t K V) (k : K) (v : V).

Lemma key_eqb_refl k : key_eqb k k = true.
Proof. destruct (key_eqb_spec k k); congruence. Qed.

Lemma key_eqb_neq k k' : k <> k' -> key_eqb k k' = false.
Proof. destruct (key_eqb_spec k k'); congruence. Qed.

Lemma get_set_same d k v : PyDict.get (PyDict.set d k v) k = Some v.
Proof.
  induction d as [|[k' v'] d IH]; simpl.
  - now rewrite key_eqb_refl.
  - destruct (key_eqb_spec k k') as [->|Hne]; simpl.
    + now rewrite key_eqb_refl.
    + now rewrite (key_eqb_neq _ _ Hne).
Qed.

Lemma get_set_other d k k' v :
  k <> k' -> PyDict.get (PyDict.set d k v) k' = PyDict.get d k'.
Proof.
  intros Hne. induction d as [|[k0 v0] d IH]; simpl.
  - rewrite key_eqb_neq; [reflexivity | congruence].
  - destruct (key_eqb_spec k k0) as [->|Hk]; simpl.
    + rewrite key_eqb_neq; [reflexivity | congruence].
    + now rewrite IH.
Qed.

Lemma get_None_iff d k : PyDict.get d k = None <-> ~ In k (PyDict.keys d).
Proof.
  induction d as [|[k' v'] d IH]; simpl; [tauto|].
  destruct (key_eqb_spec k k') as [->|Hne].
  - split; [discriminate | tauto].
  - rewrite IH. split; [intros Hn [Heq|Hin]; [congruence | tauto] | tauto].
Qed.

Lemma get_Some_In d k v : PyDict.get d k = Some v -> In (k, v) d.
Proof.
  induction d as [|[k' v'] d IH]; simpl; [discriminate|].
  destruct (key_eqb_spec k k') as [->|Hne].
  - intros [= ->]. now left.
  - intros Hg. right. now apply IH.
Qed.

Lemma In_get_Some d k v :
  NoDup (PyDict.keys d) -> In (k, v) d -> PyDict.get d k = Some v.
Proof.
  induction d as [|[k' v'] d IH]; simpl; [tauto|].
  intros Hnd [Heq|Hin]; inversion Hnd as [|? ? Hnot Hnd']; subst.
  - injection Heq as -> ->. now rewrite key_eqb_refl.
  - destruct (key_eqb_spec k k') as [->|Hne]; [|now apply IH].
    exfalso. apply Hnot. change k' with (fst (k', v)). now apply in_map.
Qed.

Lemma mem_true_iff d k : PyDict.mem d k = true <-> In k (PyDict.keys d).
Proof.
  unfold PyDict.mem. pose proof (get_None_iff d k) as Hn.
  destruct (PyDict.get d k).
  - split; [intros _|reflexivity].
    destruct (in_dec (fun x y => reflect_dec _ _ (key_eqb_spec x y))
                     k (PyDict.keys d)) as [Hin|Hout]; [exact Hin|].
    apply Hn in Hout. discriminate.
  - split; [discriminate|]. intros Hin. exfalso. now apply (proj1 Hn).
Qed.

Lemma set_fresh d k v :
  ~ In k (PyDict.keys d) -> PyDict.set d k v = d ++ [(k, v)].
Proof.
  induction d as [|[k' v'] d IH]; simpl; [reflexivity|].
  intros Hn. rewrite key_eqb_neq; [|intros ->; tauto].
  rewrite IH; [reflexivity | tauto].
Qed.

Lemma keys_set d k v k' :
  In k' (PyDict.keys (PyDict.set d k v)) <-> k' = k \/ In k' (PyDict.keys d).
Proof.
  induction d as [|[k0 v0] d IH]; simpl.
  - intuition congruence.
  - destruct (key_eqb_spec k k0) as [->|Hne]; simpl.
    + intuition congruence.
    + rewrite IH. intuition congruence.
Qed.

Lemma NoDup_keys_set d k v :
  NoDup (PyDict.keys d) -> NoDup (PyDict.keys (PyDict.set d k v)).
Proof.
  induction d as [|[k0 v0] d IH]; simpl; intros Hnd.
  - constructor; [tauto | constructor].
  - inversion Hnd as [|? ? Hnot Hnd']; subst.
    destruct (key_eqb_spec k k0) as [->|Hne]; simpl.
    + now constructor.
    + constructor; [|now apply IH].
      fold (PyDict.keys (PyDict.set d k v)). rewrite keys_set.
      intros [Heq|Hin]; [congruence | tauto].
Qed.

Lemma get_app d1 d2 k :
  PyDict.get (d1 ++ d2) k
  = match PyDict.get d1 k with
    | Some v => Some v
    | None => PyDict.get d2 k
    end.
Proof.
  induction d1 as [|[k' v'] d1 IH]; simpl; [reflexivity|].
  destruct (key_eqb k k'); [reflexivity | exact IH].
Qed.
End DictFacts.

(** ** Sorting and slicing *)

Section SortFacts.
Context {A : Type} (better : A -> A -> bool).

Lemma insert_by_perm (x : A) (l : list A) :
  Permutation (insert_by better x l) (x :: l).
Proof.
  induction l as [|y l IH]; simpl; [reflexivity|].
  destruct (better y x); [|reflexivity].
  rewrite IH. apply perm_swap.
Qed.

Lemma stable_sort_perm (l : list A) : Permutation (stable_sort better l) l.
Proof.
  induction l as [|x l IH]; simpl; [reflexivity|].
  rewrite insert_by_perm. now constructor.
Qed.
End SortFacts.


Lemma slice_to_incl {A} (l : list A) (k : Z) (x : A) :
  In x (slice_to l k) -> In x l.
Proof.
  unfold slice_to.
  destruct (k <? 0); intros Hin;
    match type of Hin with
    | In _ (firstn ?n _) => rewrite <- (firstn_skipn n l)
    end; apply in_or_app; now left.
Qed.

Lemma enumerate_from_fst {A} (i : Z) (l : list A) :
  map fst (enumerate_from i l)
  = map (fun n => i + Z.of_nat n) (seq 0 (List.length l)).
Proof.
  revert i. induction l as [|x l IH]; intros i; simpl; [reflexivity|].
  f_equal; [lia|]. rewrite IH, <- seq_shift, map_map.
  apply map_ext. intros n. lia.
Qed.

Lemma enumerate_from_snd {A} (i : Z) (l : list A) :
  map snd (enumerate_from i l) = l.
Proof.
  revert i. induction l as [|x l IH]; intros i; simpl; [reflexivity|].
  now rewrite IH.
Qed.

(** ** Blending *)

Lemma lexical_score_acc (pairs : list (string * Q)) (i : string)
    (acc : option Q) :
  fold_left (fun acc p => if String.eqb i (fst p) then Some (snd p) else acc)
            pairs acc
  = match lexical_score pairs i with
    | Some s => Some s
    | None => acc
    end.
Proof.
  unfold lexical_score. revert acc.
  induction pairs as [|p pairs IH]; intros acc; simpl; [reflexivity|].
  rewrite (IH (if String.eqb i (fst p) then Some (snd p) else acc)).
  rewrite (IH (if String.eqb i (fst p) then Some (snd p) else None)).
  destruct (fold_left _ pairs None); [reflexivity|].
  destruct (String.eqb i (fst p)); reflexivity.
Qed.

Lemma add_bm25_get (a : Q) (pairs : list (string * Q))
    (d : PyDict.t string Q) (i : string) :
  PyDict.get (HybridSearch.add_bm25 a pairs d) i
  = match lexical_score pairs i with
    | Some s => Some ((1 - a) * s)%Q
    | None => PyDict.get d i
    end.
Proof.
  unfold HybridSearch.add_bm25. revert d.
  induction pairs as [|p pairs IH]; intros d; simpl; [reflexivity|].
  rewrite IH. unfold lexical_score at 2. simpl.
  rewrite lexical_score_acc.
  destruct (lexical_score pairs i); [reflexivity|].
  destruct (String.eqb_spec i (fst p)) as [->|Hne].
  - apply (get_set_same (V:=Q)).
  - apply (get_set_other (V:=Q)). congruence.
Qed.


Lemma add_bm25_nodup (a : Q) (pairs : list (string * Q))
    (d : PyDict.t string Q) :
  NoDup (PyDict.keys d) -> NoDup (PyDict.keys (HybridSearch.add_bm25 a pairs d)).
Proof.
  unfold HybridSearch.add_bm25. revert d.
  induction pairs as [|p pairs IH]; intros d Hnd; simpl; [exact Hnd|].
  apply IH. now apply NoDup_keys_set.
Qed.

Lemma semantic_score_None (sem : list (Document * Q)) (i : string) :
  ~ In i (map (fun r => id (fst r)) sem) -> semantic_score sem i = None.
Proof.
  induction sem as [|[doc s] sem IH]; simpl; [reflexivity|].
  intros Hn. destruct (String.eqb_spec i (id doc)) as [->|Hne]; [tauto|].
  apply IH. tauto.
Qed.

Lemma semantic_score_Some (sem : list (Document * Q)) (i : string) (s : Q) :
  semantic_score sem i = Some s -> exists doc, In (doc, s) sem /\ id doc = i.
Proof.
  induction sem as [|[doc s'] sem IH]; simpl; [discriminate|].
  destruct (String.eqb_spec i (id doc)) as [->|Hne].
  - intros [= ->]. exists doc. split; [now left | reflexivity].
  - intros Hs. destruct (IH Hs) as (doc' & Hin & Hid).
    exists doc'. split; [now right | exact Hid].
Qed.

Lemma add_semantic_get (a : Q) (sem : list (Document * Q))
    (d : PyDict.t string Q) (i : string) :
  NoDup (map (fun r => id (fst r)) sem) ->
  PyDict.get (HybridSearch.add_semantic a sem d) i
  = match semantic_score sem i with
    | Some s =>
        Some (match PyDict.get d i with
              | Some c => c + a * s
              | None => a * s
              end)%Q
    | None => PyDict.get d i
    end.
Proof.
  unfold HybridSearch.add_semantic. revert d.
  induction sem as [|[doc s] sem IH]; intros d Hnd; simpl; [reflexivity|].
  inversion Hnd as [|? ? Hnot Hnd']; subst. simpl in Hnot.
  rewrite (IH _ Hnd').
  destruct (String.eqb_spec i (id doc)) as [->|Hne].
  - rewrite (semantic_score_None sem (id doc) Hnot).
    destruct (PyDict.get d (id doc)); apply (get_set_same (V:=Q)).
  - destruct (semantic_score sem i);
      destruct (PyDict.get d (id doc));
      rewrite (get_set_other (V:=Q)) by congruence; reflexivity.
Qed.


Lemma add_semantic_nodup (a : Q) (sem : list (Document * Q))
    (d : PyDict.t string Q) :
  NoDup (PyDict.keys d) ->
  NoDup (PyDict.keys (HybridSearch.add_semantic a sem d)).
Proof.
  unfold HybridSearch.add_semantic. revert d.
  induction sem as [|[doc s] sem IH]; intros d Hnd; simpl; [exact Hnd|].
  apply IH. destruct (PyDict.get d (id doc)); now apply NoDup_keys_set.
Qed.

Lemma combine_scores_nodup a ids norm sem :
  NoDup (PyDict.keys (HybridSearch.combine_scores a ids norm sem)).
Proof.
  unfold HybridSearch.combine_scores.
  apply add_semantic_nodup, add_bm25_nodup. constructor.
Qed.

(** The combined score of a chunk id, side by side. *)
Lemma combine_scores_get a ids norm sem i :
  NoDup (map (fun r => id (fst r)) sem) ->
  PyDict.get (HybridSearch.combine_scores a ids norm sem) i
  = match lexical_score (combine ids norm) i, semantic_score sem i with
    | Some l, Some s => Some ((1 - a) * l + a * s)%Q
    | Some l, None => Some ((1 - a) * l)%Q
    | None, Some s => Some (a * s)%Q
    | None, None => None
    end.
Proof.
  intros Hnd. unfold HybridSearch.combine_scores.
  rewrite (add_semantic_get _ _ _ _ Hnd), add_bm25_get.
  destruct (lexical_score (combine ids norm) i);
    destruct (semantic_score sem i); reflexivity.
Qed.

(** Every candidate carries the blend of its two sides, a missing side
    counting as 0, and only an id missing on both sides is no candidate. *)
Lemma combine_scores_blended a ids norm sem i :
  NoDup (map (fun r => id (fst r)) sem) ->
  match PyDict.get (HybridSearch.combine_scores a ids norm sem) i with
  | Some c =>
      (c == blended a (lexical_score (combine ids norm) i)
                      (semantic_score sem i))%Q
      /\ (lexical_score (combine ids norm) i <> None
          \/ semantic_score sem i <> None)
  | None =>
      lexical_score (combine ids norm) i = None
      /\ semantic_score sem i = None
  end.
Proof.
  intros Hnd. rewrite (combine_scores_get _ _ _ _ _ Hnd). unfold blended.
  destruct (lexical_score (combine ids norm) i) as [l|];
    destruct (semantic_score sem i) as [s|]; simpl;
    try (split; [ring | (left + right); discriminate]).
  split; reflexivity.
Qed.

(** ** Filling the store *)

Lemma np_array_returns (rows m : list (list Q)) :
  np_array rows = Returns m -> m = rows.
Proof.
  unfold np_array. destruct rows as [|row rest]; [now intros [= <-]|].
  destruct (forallb _ rest); [now intros [= <-] | discriminate].
Qed.

Lemma faiss_add_returns (idx idx' : Faiss.IndexFlatL2) (x : list (list Q)) :
  Faiss.add idx x = Returns idx' ->
  idx' = {| Faiss.d := Faiss.d idx; Faiss.xb := Faiss.xb idx ++ x |}.
Proof.
  unfold Faiss.add. destruct x as [|row rest]; [discriminate|].
  destruct (_ =? _); [now intros [= <-] | discriminate].
Qed.

Lemma store_documents_fresh embs start (l : list (Z * Document)) :
  forall s s',
    NoDup (map (fun p => id (snd p)) l) ->
    (forall p, In p l ->
       ~ In (id (snd p)) (PyDict.keys (VectorStore.documents s))) ->
    PyDict.keys (VectorStore.id_to_idx s)
    = PyDict.keys (VectorStore.documents s) ->
    VectorStore.store_documents embs start l s = (Returns tt, s') ->
    exists added,
      VectorStore.documents s' = VectorStore.documents s ++ added
      /\ map fst added = map (fun p => id (snd p)) l
      /\ keyed added
      /\ VectorStore.id_to_idx s'
         = VectorStore.id_to_idx s
             ++ map (fun p => (id (snd p), start + fst p)) l
      /\ VectorStore.index s' = VectorStore.index s.
Proof.
  induction l as [|[i doc] l IH]; intros s s' Hnd Hfresh Hkeys; simpl.
  - run. intros [= <-]. exists []. rewrite !app_nil_r.
    repeat split. intros ? ? [].
  - inversion Hnd as [|? ? Hnot Hnd']; subst. simpl in Hnot.
    destruct (nth_error embs (Z.to_nat i)) as [e|]; [|discriminate].
    run. intros Hrun.
    assert (Hdoc : ~ In (id doc) (PyDict.keys (VectorStore.documents s))).
    { apply (Hfresh (i, doc)). now left. }
    assert (Hidx : ~ In (id doc) (PyDict.keys (VectorStore.id_to_idx s))).
    { now rewrite Hkeys. }
    rewrite (set_fresh _ _ _ Hdoc), (set_fresh _ _ _ Hidx) in Hrun.
    apply IH in Hrun; simpl; trivial.
    + destruct Hrun as (added & Hd & Hf & Hk & Hi & Hx). simpl in *.
      exists ((id doc, with_embedding doc e) :: added).
      rewrite Hd, Hi, <- !app_assoc. simpl.
      repeat split; trivial.
      * now rewrite Hf.
      * intros j dj [[= <- <-]|Hin]; [reflexivity | now apply Hk].
    + intros p Hp. unfold PyDict.keys. rewrite map_app, in_app_iff. simpl.
      intros [Hin|[Heq|[]]].
      * apply (Hfresh p); [now right | exact Hin].
      * apply Hnot. rewrite Heq. now apply (in_map (fun p => id (snd p))).
    + unfold PyDict.keys in *. rewrite !map_app, Hkeys. reflexivity.
Qed.

(** What a successful [add_documents] of new chunks does to the store. *)
Lemma add_documents_fresh embed (docs : list Document) (vs vs' : VectorStore.t) :
  docs <> [] ->
  NoDup (map id docs) ->
  (forall doc, In doc docs ->
     ~ In (id doc) (PyDict.keys (VectorStore.documents vs))) ->
  PyDict.keys (VectorStore.id_to_idx vs)
  = PyDict.keys (VectorStore.documents vs) ->
  VectorStore.add_documents embed docs vs = (Returns tt, vs') ->
  exists embs added,
    embed (map content docs) (VectorStore.embedding_model_name vs) document
    = Returns embs
    /\ VectorStore.index vs'
       = {| Faiss.d := Faiss.d (VectorStore.index vs);
            Faiss.xb := Faiss.xb (VectorStore.index vs) ++ embs |}
    /\ VectorStore.documents vs' = VectorStore.documents vs ++ added
    /\ map fst added = map id docs
    /\ keyed added
    /\ VectorStore.id_to_idx vs'
       = VectorStore.id_to_idx vs
           ++ map (fun p => (id (snd p),
                             Faiss.ntotal (VectorStore.index vs) + fst p))
                  (enumerate docs).
Proof.
  intros Hne Hnd Hfresh Hkeys.
  unfold VectorStore.add_documents.
  destruct docs as [|doc0 docs0]; [congruence|].
  remember (doc0 :: docs0) as docs eqn:Hdocs.
  unfold bind, get_self, put_self, lift, ret.
  destruct (embed (map content docs) (VectorStore.embedding_model_name vs)
                  document) as [embs|e] eqn:Hemb; [|discriminate].
  destruct (np_array embs) as [m|e] eqn:Hnp; [|discriminate].
  apply np_array_returns in Hnp. subst m.
  destruct (Faiss.add (VectorStore.index vs) embs) as [idx'|e] eqn:Hadd;
    [|discriminate].
  apply faiss_add_returns in Hadd.
  intros Hrun. apply store_documents_fresh in Hrun; simpl; trivial.
  - destruct Hrun as (added & Hd & Hf & Hk & Hi & Hx). simpl in *.
    exists embs, added. rewrite Hx, Hadd.
    repeat split; trivial.
    rewrite Hf. unfold enumerate.
    rewrite <- (enumerate_from_snd 0 docs) at 2. now rewrite map_map.
  - unfold enumerate.
    rewrite <- (map_map snd id), enumerate_from_snd. exact Hnd.
  - intros p Hp. apply Hfresh.
    rewrite <- (enumerate_from_snd 0 docs). now apply in_map.
Qed.

(** ** Indexed states *)

Lemma index_documents_returns embed docs hs hs' :
  HybridSearch.index_documents embed docs hs = (Returns tt, hs') ->
  docs <> []
  /\ exists vs',
       VectorStore.add_documents embed docs (HybridSearch.vector_store hs)
       = (Returns tt, vs')
       /\ hs' = {| HybridSearch.vector_store := vs';
                   HybridSearch.alpha := HybridSearch.alpha hs;
                   HybridSearch.bm25 :=
                     Some (BM25Okapi.mk
                             (map (fun doc => split (content doc)) docs));
                   HybridSearch.doc_ids := map id docs |}.
Proof.
  unfold HybridSearch.index_documents.
  unfold bind, on_field, lift, get_self, put_self.
  destruct (VectorStore.add_documents embed docs (HybridSearch.vector_store hs))
    as [[[]|e] vs']; [|discriminate].
  unfold BM25Okapi.__init__.
  destruct (forallb BM25Okapi.no_token _) eqn:Htok; [discriminate|].
  simpl. intros [= <-]. split.
  - intros ->. discriminate Htok.
  - exists vs'. split; reflexivity.
Qed.



Lemma indexed_consistent embed hs :
  indexed embed hs ->
  consistent (HybridSearch.vector_store hs) /\ lexical_ok hs.
Proof.
  induction 1 as [cfg model dim gpu vs a Hinit
                 |hs docs hs' Hix [Hc Hl] Hnd Hfresh Hrun].
  - unfold VectorStore.__init__ in Hinit.
    destruct (_ =? _)%nat in Hinit; [discriminate|].
    injection Hinit as <-. split.
    + constructor; simpl; [reflexivity | constructor | intros ? ? []].
    + unfold lexical_ok. simpl. split; reflexivity.
  - apply index_documents_returns in Hrun.
    destruct Hrun as (Hne & vs' & Hadd & ->).
    destruct Hc as [Hkeys Hnodup Hkeyed].
    assert (Hfresh' : forall doc, In doc docs ->
              ~ In (id doc)
                  (PyDict.keys
                     (VectorStore.documents (HybridSearch.vector_store hs)))).
    { intros doc Hin. apply get_None_iff. now apply Hfresh. }
    apply add_documents_fresh in Hadd; trivial.
    destruct Hadd as (embs & added & _ & _ & Hd & Hf & Hk & Hi).
    assert (Hkd : PyDict.keys (VectorStore.documents vs')
                  = PyDict.keys
                      (VectorStore.documents (HybridSearch.vector_store hs))
                      ++ map id docs).
    { unfold PyDict.keys. now rewrite Hd, map_app, Hf. }
    split.
    + constructor; simpl.
      * rewrite Hkd. unfold PyDict.keys at 1. rewrite Hi, map_app.
        fold (PyDict.keys
                (VectorStore.id_to_idx (HybridSearch.vector_store hs))).
        rewrite Hkeys, map_map. simpl. f_equal.
        unfold enumerate.
        rewrite <- (enumerate_from_snd 0 docs) at 2. now rewrite map_map.
      * rewrite Hkd. apply NoDup_app; trivial.
        intros i Hin Hin'. apply in_map_iff in Hin'.
        destruct Hin' as (doc & <- & Hdoc). now apply (Hfresh' doc).
      * intros i doc Hin. rewrite Hd in Hin.
        apply in_app_or in Hin. destruct Hin as [Hin|Hin];
          [now apply Hkeyed | now apply Hk].
    + unfold lexical_ok. simpl. repeat split.
      * destruct docs; [congruence | discriminate].
      * now rewrite !length_map.
      * intros i Hin. rewrite Hkd. apply in_or_app. now right.
Qed.


(** ** The semantic side *)

Lemma invert_acc_get (m : list (string * Z)) :
  forall (acc : PyDict.t Z string) v k,
    PyDict.get
      (fold_left (fun acc kv => PyDict.set acc (snd kv) (fst kv)) m acc) v
    = Some k ->
    In (k, v) m \/ PyDict.get acc v = Some k.
Proof.
  induction m as [|[k0 v0] m IH]; intros acc v k; simpl; [now right|].
  intros Hg. apply IH in Hg. destruct Hg as [Hin|Hg]; [left; now right|].
  destruct (Z.eq_dec v0 v) as [->|Hne].
  - rewrite (get_set_same (K:=Z)) in Hg. injection Hg as ->. left. now left.
  - rewrite (get_set_other (K:=Z)) in Hg by exact Hne. now right.
Qed.

(** A slot the inverted mapping knows belongs to the id it yields. *)
Lemma invert_get_In (m : PyDict.t string Z) v k :
  PyDict.get (VectorStore.invert m) v = Some k -> In (k, v) m.
Proof.
  unfold VectorStore.invert, PyDict.items. intros Hg.
  apply invert_acc_get in Hg. destruct Hg as [Hin|Hg]; [exact Hin|].
  discriminate Hg.
Qed.

Lemma invert_injective (m : PyDict.t string Z) v1 v2 k :
  NoDup (PyDict.keys m) ->
  PyDict.get (VectorStore.invert m) v1 = Some k ->
  PyDict.get (VectorStore.invert m) v2 = Some k ->
  v1 = v2.
Proof.
  intros Hnd H1 H2.
  apply invert_get_In, (In_get_Some _ _ _ Hnd) in H1.
  apply invert_get_In, (In_get_Some _ _ _ Hnd) in H2.
  congruence.
Qed.



Lemma slots_NoDup (n : nat) : NoDup (slots n).
Proof.
  unfold slots. apply Finite.Injective_map_NoDup; [|apply seq_NoDup].
  intros x y. apply Nat2Z.inj.
Qed.

Lemma slots_In (n : nat) (z : Z) : In z (slots n) <-> 0 <= z < Z.of_nat n.
Proof.
  unfold slots. rewrite in_map_iff. split.
  - intros (k & <- & Hin). apply in_seq in Hin. lia.
  - intros Hz. exists (Z.to_nat z). split; [lia|]. apply in_seq. lia.
Qed.

Lemma slots_length (n : nat) : List.length (slots n) = n.
Proof. unfold slots. now rewrite length_map, length_seq. Qed.

(** The labels FAISS ranks are distinct slots of the index: the slots of
    the vectors that enter the heap. *)
Lemma nearest_labels (idx : Faiss.IndexFlatL2) (q : list Q) :
  Permutation
    (map snd (Faiss.nearest idx q))
    (map fst (filter (fun iv => Faiss.admitted q (snd iv))
                     (enumerate (Faiss.xb idx)))).
Proof.
  unfold Faiss.nearest.
  rewrite (Permutation_map snd (stable_sort_perm _ _)).
  rewrite map_map. simpl. reflexivity.
Qed.

Lemma filter_fst_NoDup {A B} (p : A * B -> bool) (l : list (A * B)) :
  NoDup (map fst l) -> NoDup (map fst (filter p l)).
Proof.
  induction l as [|x l IH]; simpl; intros Hnd; [constructor|].
  inversion Hnd as [|? ? Hnot Hnd']; subst.
  destruct (p x); simpl; [|now apply IH].
  constructor; [|now apply IH].
  intros Hin. apply Hnot. apply in_map_iff in Hin.
  destruct Hin as (y & Hy & Hin). apply filter_In in Hin.
  apply in_map_iff. exists y. tauto.
Qed.



Lemma enumerate_slots {A} (l : list A) :
  map fst (enumerate l) = slots (List.length l).
Proof.
  unfold enumerate, slots. rewrite enumerate_from_fst. reflexivity.
Qed.

Lemma nearest_slots (idx : Faiss.IndexFlatL2) (q : list Q) :
  NoDup (map snd (Faiss.nearest idx q))
  /\ incl (map snd (Faiss.nearest idx q))
          (slots (List.length (Faiss.xb idx))).
Proof.
  pose proof (nearest_labels idx q) as Hperm. split.
  - apply (Permutation_NoDup (Permutation_sym Hperm)).
    apply filter_fst_NoDup. rewrite enumerate_slots. apply slots_NoDup.
  - intros z Hz. apply (Permutation_in _ Hperm) in Hz.
    rewrite <- enumerate_slots. apply in_map_iff in Hz.
    destruct Hz as (iv & Hiv & Hin). apply filter_In in Hin.
    apply in_map_iff. exists iv. tauto.
Qed.

Lemma nearest_length_le (idx : Faiss.IndexFlatL2) (q : list Q) :
  (List.length (Faiss.nearest idx q) <= List.length (Faiss.xb idx))%nat.
Proof.
  rewrite <- (length_map snd), (Permutation_length (nearest_labels idx q)).
  rewrite length_map.
  eapply Nat.le_trans; [apply filter_length_le|].
  rewrite <- (length_map fst), enumerate_slots, slots_length. lia.
Qed.



Lemma faiss_search_returns idx q k hits :
  Faiss.search idx q k = Returns hits ->
  hits = firstn (Z.to_nat k) (Faiss.nearest idx q)
           ++ repeat (Faiss.FLT_MAX, -1)
                (Z.to_nat k
                 - List.length (firstn (Z.to_nat k) (Faiss.nearest idx q))).
Proof.
  unfold Faiss.search.
  destruct (negb _); [discriminate|].
  destruct (negb _); [discriminate|].
  now intros [= <-].
Qed.


Lemma valid_labels_app (h1 h2 : list (Q * Z)) :
  valid_labels (h1 ++ h2) = valid_labels h1 ++ valid_labels h2.
Proof. unfold valid_labels. now rewrite map_app, filter_app. Qed.

Lemma valid_labels_padding (n : nat) :
  valid_labels (repeat (Faiss.FLT_MAX, -1) n) = [].
Proof. induction n as [|n IH]; [reflexivity | exact IH]. Qed.

Lemma valid_labels_slots (hits : list (Q * Z)) (n : nat) :
  incl (map snd hits) (slots n) -> valid_labels hits = map snd hits.
Proof.
  unfold valid_labels. induction hits as [|[dist z] hits IH]; simpl;
    [reflexivity|].
  intros Hincl.
  assert (Hz : In z (slots n)) by (apply Hincl; now left).
  apply slots_In in Hz.
  destruct (z =? -1) eqn:E; [apply Z.eqb_eq in E; lia|]. simpl.
  rewrite IH; [reflexivity|]. intros x Hx. apply Hincl. now right.
Qed.

Lemma firstn_incl {A} (n : nat) (l : list A) : incl (firstn n l) l.
Proof.
  intros x Hin. rewrite <- (firstn_skipn n l). apply in_or_app. now left.
Qed.

Lemma firstn_NoDup {A} (n : nat) (l : list A) : NoDup l -> NoDup (firstn n l).
Proof.
  intros Hnd. rewrite <- (firstn_skipn n l) in Hnd.
  now apply NoDup_app_remove_r in Hnd.
Qed.

(** The labels of a FAISS answer: distinct slots of the index, then
    padding. *)
Lemma faiss_search_labels idx q k hits :
  Faiss.search idx q k = Returns hits ->
  valid_labels hits
  = firstn (Z.to_nat k) (map snd (Faiss.nearest idx q))
  /\ NoDup (valid_labels hits)
  /\ incl (valid_labels hits) (slots (List.length (Faiss.xb idx))).
Proof.
  intros Hs. apply faiss_search_returns in Hs. subst hits.
  rewrite valid_labels_app, valid_labels_padding, app_nil_r.
  destruct (nearest_slots idx q) as [Hnd Hsub].
  assert (Hincl : incl (map snd (firstn (Z.to_nat k) (Faiss.nearest idx q)))
                       (slots (List.length (Faiss.xb idx)))).
  { intros z Hz. apply Hsub.
    rewrite <- firstn_map in Hz. now apply firstn_incl in Hz. }
  rewrite (valid_labels_slots _ _ Hincl).
  rewrite <- firstn_map. repeat split; trivial.
  - now apply firstn_NoDup.
  - now rewrite firstn_map.
Qed.

Section Collect.
Variable vs : VectorStore.t.
Variable m : PyDict.t Z string.

Lemma collect_sound hits rs :
  keyed (VectorStore.documents vs) ->
  VectorStore.collect vs m hits = Returns rs ->
  Forall (fun r =>
            PyDict.get (VectorStore.documents vs) (id (fst r)) = Some (fst r)
            /\ exists z, In z (valid_labels hits)
                         /\ PyDict.get m z = Some (id (fst r)))
         rs.
Proof.
  intros Hkeyed. revert rs.
  induction hits as [|[dist z] hits IH]; intros rs; simpl.
  - intros [= <-]. constructor.
  - unfold valid_labels. simpl. fold (valid_labels hits).
    destruct (negb (z =? -1)) eqn:Ez; simpl.
    + unfold PyDict.mem.
      destruct (PyDict.get m z) as [k|] eqn:Hk.
      * destruct (PyDict.get (VectorStore.documents vs) k) as [doc|] eqn:Hd;
          [|discriminate].
        destruct (VectorStore.collect vs m hits) as [rs'|e]; [|discriminate].
        intros [= <-].
        assert (Hid : id doc = k).
        { apply Hkeyed. now apply get_Some_In. }
        constructor.
        -- simpl. rewrite Hid. split; [exact Hd|].
           exists z. split; [now left | exact Hk].
        -- eapply Forall_impl; [|apply IH; reflexivity].
           intros r (Hr & z' & Hz' & Hm). split; [exact Hr|].
           exists z'. split; [now right | exact Hm].
      * intros Hc. eapply Forall_impl; [|apply IH; exact Hc].
        intros r (Hr & z' & Hz' & Hm). split; [exact Hr|].
        exists z'. split; [now right | exact Hm].
    + intros Hc. apply IH. exact Hc.
Qed.

Lemma collect_nodup hits rs :
  keyed (VectorStore.documents vs) ->
  (forall z1 z2 k,
     PyDict.get m z1 = Some k -> PyDict.get m z2 = Some k -> z1 = z2) ->
  NoDup (valid_labels hits) ->
  VectorStore.collect vs m hits = Returns rs ->
  NoDup (ids_of rs).
Proof.
  intros Hkeyed Hinj. revert rs.
  induction hits as [|[dist z] hits IH]; intros rs; simpl.
  - intros _ [= <-]. constructor.
  - unfold valid_labels. simpl. fold (valid_labels hits).
    destruct (negb (z =? -1)) eqn:Ez; simpl.
    + intros Hnd. inversion Hnd as [|? ? Hnot Hnd']; subst.
      unfold PyDict.mem.
      destruct (PyDict.get m z) as [k|] eqn:Hk; [|now apply IH].
      destruct (PyDict.get (VectorStore.documents vs) k) as [doc|] eqn:Hd;
        [|discriminate].
      destruct (VectorStore.collect vs m hits) as [rs'|e] eqn:Hc;
        [|discriminate].
      intros [= <-]. simpl. constructor; [|now apply IH].
      intros Hin. apply in_map_iff in Hin. destruct Hin as (r & Hr & Hin).
      pose proof (collect_sound _ _ Hkeyed Hc) as Hs.
      rewrite Forall_forall in Hs.
      destruct (Hs r Hin) as (_ & z' & Hz' & Hm).
      assert (Hid : id doc = k).
      { apply Hkeyed. now apply get_Some_In. }
      rewrite Hr, Hid in Hm.
      rewrite (Hinj _ _ _ Hk Hm) in Hnot. contradiction.
    + apply IH.
Qed.

End Collect.

Lemma consistent_idx_nodup vs :
  consistent vs -> NoDup (PyDict.keys (VectorStore.id_to_idx vs)).
Proof. intros [Hk Hn _]. now rewrite Hk. Qed.

(** What [VectorStore.search] returns, when it returns: chunks of the
    store, each at most once. *)
Lemma store_search_sound embed q k vs sem :
  consistent vs ->
  fst (VectorStore.search embed q k vs) = Returns sem ->
  NoDup (ids_of sem)
  /\ Forall (fun r => PyDict.get (VectorStore.documents vs) (id (fst r))
                      = Some (fst r)) sem.
Proof.
  intros Hc. unfold VectorStore.search.
  unfold bind, get_self, lift, ret, raise.
  destruct (Faiss.ntotal (VectorStore.index vs) =? 0).
  { simpl. intros [= <-]. split; constructor. }
  destruct (embed [q] (VectorStore.embedding_model_name vs) query)
    as [[|e es]|err]; simpl; try discriminate.
  destruct (Faiss.search (VectorStore.index vs) e k) as [hits|err] eqn:Hs;
    simpl; [|discriminate].
  intros Hcol. destruct (faiss_search_labels _ _ _ _ Hs) as (_ & Hnd & _).
  split.
  - eapply collect_nodup; [apply Hc | | exact Hnd | exact Hcol].
    intros z1 z2 i. apply invert_injective, consistent_idx_nodup, Hc.
  - eapply Forall_impl; [|eapply collect_sound; [apply Hc | exact Hcol]].
    intros r [Hr _]. exact Hr.
Qed.






(** ** Ranking and resolving *)

Lemma retrieve_spec (l : list (string * Q)) (hs : HybridSearch.t) :
  HybridSearch.retrieve l hs
  = (Returns (resolve (VectorStore.documents (HybridSearch.vector_store hs)) l),
     hs).
Proof.
  induction l as [|[i s] l IH]; simpl; [reflexivity|].
  run. rewrite set_vector_store_same, IH.
  destruct (PyDict.get _ i); reflexivity.
Qed.

Lemma resolve_In docs (l : list (string * Q)) doc s :
  In (doc, s) (resolve docs l) ->
  exists i, In (i, s) l /\ PyDict.get docs i = Some doc.
Proof.
  induction l as [|[i s'] l IH]; simpl; [tauto|].
  destruct (PyDict.get docs i) as [doc'|] eqn:Hd.
  - intros [[= -> ->]|Hin].
    + exists i. split; [now left | exact Hd].
    + destruct (IH Hin) as (j & Hj & Hg). exists j. split; [now right|exact Hg].
  - intros Hin. destruct (IH Hin) as (j & Hj & Hg).
    exists j. split; [now right | exact Hg].
Qed.


Lemma ranked_In combined top_k i s :
  In (i, s) (ranked combined top_k) -> In (i, s) combined.
Proof.
  unfold ranked, sorted_by_score_desc, PyDict.items. intros Hin.
  apply slice_to_incl in Hin.
  eapply Permutation_in; [apply stable_sort_perm | exact Hin].
Qed.

Lemma normalize_total (s : Q) (rest : list Q) :
  exists norm, HybridSearch.normalize (s :: rest) = Returns norm.
Proof.
  unfold HybridSearch.normalize, np_max.
  destruct (Qlt_bool 0 (fold_left Qmax rest s)); eexists; reflexivity.
Qed.

Lemma nonempty_corpus_normalizes score b q :
  BM25Okapi.corpus b <> [] ->
  exists norm,
    HybridSearch.normalize (BM25Okapi.get_scores score b (split q))
    = Returns norm.
Proof.
  intros Hne.
  unfold BM25Okapi.get_scores.
  destruct (BM25Okapi.corpus b) as [|doc corpus]; [congruence|]. simpl.
  destruct (normalize_total
              (score (doc :: corpus) doc (split q))
              (map (fun d => score (doc :: corpus) d (split q)) corpus))
    as [norm Hn].
  exists norm. exact Hn.
Qed.

Lemma lexical_ok_normalizes score hs b q :
  lexical_ok hs ->
  HybridSearch.bm25 hs = Some b ->
  exists norm,
    HybridSearch.normalize (BM25Okapi.get_scores score b (split q))
    = Returns norm.
Proof.
  unfold lexical_ok. intros Hl Hb. rewrite Hb in Hl.
  apply nonempty_corpus_normalizes, Hl.
Qed.

(** [HybridSearch.search] with a built lexical index, step by step. *)
Lemma hybrid_search_built embed score hs b q top_k norm sem :
  HybridSearch.bm25 hs = Some b ->
  HybridSearch.normalize (BM25Okapi.get_scores score b (split q))
  = Returns norm ->
  fst (VectorStore.search embed q (top_k * 2) (HybridSearch.vector_store hs))
  = Returns sem ->
  HybridSearch.search embed score q top_k hs
  = (Returns
       (resolve (VectorStore.documents (HybridSearch.vector_store hs))
          (ranked (HybridSearch.combine_scores (HybridSearch.alpha hs)
                     (HybridSearch.doc_ids hs) norm sem) top_k)),
     hs).
Proof.
  intros Hb Hn Hsem. unfold HybridSearch.search.
  unfold bind, get_self, lift, on_field. rewrite Hb, Hn.
  pose proof (store_search_frame embed q (top_k * 2)
                (HybridSearch.vector_store hs)) as Hf.
  destruct (VectorStore.search embed q (top_k * 2) _) as [o vs'].
  simpl in Hsem, Hf. subst o vs'.
  rewrite set_vector_store_same. apply retrieve_spec.
Qed.

(** ** The blended score of every chunk id *)

(** C1. On a retriever filled through [index_documents], for a query whose
    semantic candidates [sem] were retrieved, [search] returns the ranked
    candidates that resolve in the store, and the combined score of every
    chunk id is [(1 - alpha) * lexical + alpha * semantic], where
    [lexical] is its normalised lexical score and [semantic] its
    similarity, a side on which the id is missing counting as 0.  An id
    present on one side only is still a candidate: only ids missing on
    both sides have no combined score.  Every returned pair carries the
    blend of its chunk's id. *)
Theorem search_blends_both_sides embed score hs b q top_k sem :
  indexed embed hs ->
  HybridSearch.bm25 hs = Some b ->
  fst (VectorStore.search embed q (top_k * 2) (HybridSearch.vector_store hs))
  = Returns sem ->
  exists norm,
    HybridSearch.normalize (BM25Okapi.get_scores score b (split q))
    = Returns norm
    /\ HybridSearch.search embed score q top_k hs
       = (Returns
            (resolve (VectorStore.documents (HybridSearch.vector_store hs))
               (ranked (HybridSearch.combine_scores (HybridSearch.alpha hs)
                          (HybridSearch.doc_ids hs) norm sem) top_k)),
          hs)
    /\ (forall i,
          match PyDict.get
                  (HybridSearch.combine_scores (HybridSearch.alpha hs)
                     (HybridSearch.doc_ids hs) norm sem) i
          with
          | Some c =>
              (c == blended (HybridSearch.alpha hs)
                      (lexical_score (combine (HybridSearch.doc_ids hs) norm) i)
                      (semantic_score sem i))%Q
              /\ (lexical_score (combine (HybridSearch.doc_ids hs) norm) i
                  <> None
                  \/ semantic_score sem i <> None)
          | None =>
              lexical_score (combine (HybridSearch.doc_ids hs) norm) i = None
              /\ semantic_score sem i = None
          end)
    /\ (forall results doc s,
          fst (HybridSearch.search embed score q top_k hs) = Returns results ->
          In (doc, s) results ->
          (s == blended (HybridSearch.alpha hs)
                  (lexical_score (combine (HybridSearch.doc_ids hs) norm)
                                 (id doc))
                  (semantic_score sem (id doc)))%Q).
Proof.
  intros Hix Hb Hsem.
  destruct (indexed_consistent _ _ Hix) as [Hc Hl].
  destruct (lexical_ok_normalizes score hs b q Hl Hb) as [norm Hn].
  destruct (store_search_sound _ _ _ _ _ Hc Hsem) as [Hnd _].
  pose proof (hybrid_search_built _ _ _ _ _ _ _ _ Hb Hn Hsem) as Hrun.
  exists norm. split; [exact Hn|]. split; [exact Hrun|]. split.
  - intros i. now apply combine_scores_blended.
  - intros results doc s Hres Hin. rewrite Hrun in Hres. simpl in Hres.
    injection Hres as <-.
    apply resolve_In in Hin. destruct Hin as (i & Hi & Hd).
    assert (Hid : id doc = i).
    { apply (cons_keyed _ Hc). now apply get_Some_In. }
    apply ranked_In in Hi.
    apply (In_get_Some _ _ _ (combine_scores_nodup _ _ _ _)) in Hi.
    pose proof (combine_scores_blended (HybridSearch.alpha hs)
                  (HybridSearch.doc_ids hs) norm sem i Hnd) as Hbl.
    rewrite Hi in Hbl. rewrite Hid. apply Hbl.
Qed.

(** ** More results asked for than chunks stored *)

Lemma combine_fst_incl {A B} (l : list A) (l' : list B) :
  incl (map fst (combine l l')) l.
Proof.
  intros x Hx. apply in_map_iff in Hx. destruct Hx as ([a b] & <- & Hin).
  simpl. eapply in_combine_l. exact Hin.
Qed.



(** ** Indexing a second batch *)

Lemma NoDup_app_excl {A} (l1 l2 : list A) (x : A) :
  NoDup (l1 ++ l2) -> In x l1 -> In x l2 -> False.
Proof.
  induction l1 as [|y l1 IH]; simpl; [tauto|].
  intros Hnd [->|Hin] Hin2; inversion Hnd as [|? ? Hnot Hnd']; subst.
  - apply Hnot, in_or_app. now right.
  - now apply IH.
Qed.

(** A successful [index_documents] of new chunks grows both sizes of the
    store by the size of the batch. *)
Lemma index_documents_sizes embed hs docs hs' :
  one_vector_per_text embed ->
  indexed embed hs ->
  NoDup (map id docs) ->
  (forall doc, In doc docs ->
     PyDict.get (VectorStore.documents (HybridSearch.vector_store hs))
                (id doc) = None) ->
  HybridSearch.index_documents embed docs hs = (Returns tt, hs') ->
  corpus_size (HybridSearch.vector_store hs')
  = corpus_size (HybridSearch.vector_store hs) + Z.of_nat (List.length docs)
  /\ index_size (HybridSearch.vector_store hs')
     = index_size (HybridSearch.vector_store hs) + Z.of_nat (List.length docs).
Proof.
  intros Hone Hix Hnd Hfresh Hrun.
  destruct (indexed_consistent _ _ Hix) as [[Hkeys _ _] _].
  apply index_documents_returns in Hrun.
  destruct Hrun as (Hne & vs' & Hadd & ->). simpl.
  apply add_documents_fresh in Hadd; trivial.
  - destruct Hadd as (embs & added & Hemb & Hx & Hd & Hf & _ & _).
    apply Hone in Hemb. rewrite length_map in Hemb.
    apply (f_equal (@List.length string)) in Hf. rewrite !length_map in Hf.
    unfold corpus_size, index_size, PyDict.len, Faiss.ntotal.
    rewrite Hd, Hx. simpl. rewrite !length_app. lia.
  - intros doc Hin. apply get_None_iff. now apply Hfresh.
Qed.

(** A chunk set indexed into a fresh retriever and then once more under
    new ids: both calls leave an indexed retriever, and the store holds
    twice as many chunks and vectors as after the first call. *)
Lemma reindexing_sizes embed cfg model dim gpu vs a docs1 docs2 hs1 hs2 :
  one_vector_per_text embed ->
  VectorStore.__init__ cfg model dim gpu = Returns vs ->
  map content docs2 = map content docs1 ->
  NoDup (map id docs1 ++ map id docs2) ->
  HybridSearch.index_documents embed docs1 (HybridSearch.__init__ cfg vs a)
  = (Returns tt, hs1) ->
  HybridSearch.index_documents embed docs2 hs1 = (Returns tt, hs2) ->
  indexed embed hs1
  /\ indexed embed hs2
  /\ corpus_size (HybridSearch.vector_store hs2)
     = 2 * corpus_size (HybridSearch.vector_store hs1)
  /\ index_size (HybridSearch.vector_store hs2)
     = 2 * index_size (HybridSearch.vector_store hs1)
  /\ corpus_size (HybridSearch.vector_store hs1) = Z.of_nat (List.length docs1).
Proof.
  intros Hone Hinit Hsame Hnd Hrun1 Hrun2.
  pose proof (indexed_new embed cfg model dim gpu vs a Hinit) as Hix0.
  assert (Hempty : VectorStore.documents vs = []
                   /\ Faiss.xb (VectorStore.index vs) = []).
  { unfold VectorStore.__init__ in Hinit.
    destruct (_ =? _)%nat in Hinit; [discriminate|].
    injection Hinit as <-. split; reflexivity. }
  destruct Hempty as [Hd0 Hx0].
  assert (Hnd1 : NoDup (map id docs1)) by now apply NoDup_app_remove_r in Hnd.
  assert (Hnd2 : NoDup (map id docs2)) by now apply NoDup_app_remove_l in Hnd.
  assert (Hfresh1 : forall doc, In doc docs1 ->
            PyDict.get (VectorStore.documents
                          (HybridSearch.vector_store (HybridSearch.__init__ cfg vs a)))
                       (id doc) = None).
  { intros doc _. simpl. now rewrite Hd0. }
  pose proof (indexed_more embed _ _ _ Hix0 Hnd1 Hfresh1 Hrun1) as Hix1.
  destruct (index_documents_sizes _ _ _ _ Hone Hix0 Hnd1 Hfresh1 Hrun1)
    as [Hc1 Hi1].
  assert (Hfresh2 : forall doc, In doc docs2 ->
            PyDict.get (VectorStore.documents (HybridSearch.vector_store hs1))
                       (id doc) = None).
  { intros doc Hin. apply get_None_iff. intros Hk.
    pose proof Hrun1 as Hr. apply index_documents_returns in Hr.
    destruct Hr as (Hne & vs1 & Hadd & ->). simpl in Hk.
    apply add_documents_fresh in Hadd; trivial.
    - destruct Hadd as (embs & added & _ & _ & Hd & Hf & _ & _).
      simpl in Hd. rewrite Hd, Hd0 in Hk. simpl in Hk.
      unfold PyDict.keys in Hk. rewrite Hf in Hk.
      apply (NoDup_app_excl _ _ (id doc) Hnd); [exact Hk | now apply in_map].
    - intros doc' _. simpl. now rewrite Hd0.
    - simpl. destruct (indexed_consistent _ _ Hix0) as [[Hkeys _ _] _].
      exact Hkeys. }
  destruct (index_documents_sizes _ _ _ _ Hone Hix1 Hnd2 Hfresh2 Hrun2)
    as [Hc2 Hi2].
  assert (Hlen : List.length docs2 = List.length docs1).
  { apply (f_equal (@List.length string)) in Hsame.
    now rewrite !length_map in Hsame. }
  pose proof (indexed_more embed _ _ _ Hix1 Hnd2 Hfresh2 Hrun2) as Hix2.
  split; [exact Hix1|]. split; [exact Hix2|].
  unfold corpus_size, index_size, PyDict.len, Faiss.ntotal in *.
  simpl in Hc1, Hi1. rewrite Hd0 in Hc1. rewrite Hx0 in Hi1. simpl in Hc1, Hi1.
  repeat split; lia.
Qed.

(** ** Clearing the store *)

Lemma resolve_empty (l : list (string * Q)) : resolve PyDict.empty l = [].
Proof. induction l as [|[i s] l IH]; [reflexivity | exact IH]. Qed.

(** C3, as the code has it.  [VectorStore.clear] empties the chunk dict,
    the id-to-slot mapping and the embedding index in one call, so no
    stale id-to-slot entry survives.  The retriever's lexical index is not
    part of the store and is left as it was: [bm25] and [doc_ids] survive
    the clear.  A later [search] still returns normally and yields no
    result, because no ranked id resolves in the emptied store. *)
Theorem clear_empties_store_only embed score hs :
  indexed embed hs ->
  let (out, hs') := clear_store hs in
  out = Returns tt
  /\ VectorStore.documents (HybridSearch.vector_store hs') = PyDict.empty
  /\ VectorStore.id_to_idx (HybridSearch.vector_store hs') = PyDict.empty
  /\ index_size (HybridSearch.vector_store hs') = 0
  /\ HybridSearch.bm25 hs' = HybridSearch.bm25 hs
  /\ HybridSearch.doc_ids hs' = HybridSearch.doc_ids hs
  /\ forall q top_k,
       HybridSearch.search embed score q top_k hs' = (Returns [], hs').
Proof.
  intros Hix. destruct (indexed_consistent _ _ Hix) as [_ Hl].
  unfold clear_store, VectorStore.clear. run.
  repeat (split; [reflexivity|]).
  intros q top_k.
  set (hs' := HybridSearch.set_vector_store _ hs).
  assert (Hsem : forall k,
            VectorStore.search embed q k (HybridSearch.vector_store hs')
            = (Returns [], HybridSearch.vector_store hs')) by reflexivity.
  destruct (HybridSearch.bm25 hs) as [b|] eqn:Hb.
  - assert (Hb' : HybridSearch.bm25 hs' = Some b) by exact Hb.
    unfold lexical_ok in Hl. rewrite Hb in Hl. destruct Hl as (Hne & _ & _).
    destruct (nonempty_corpus_normalizes score b q Hne) as [norm Hn].
    rewrite (hybrid_search_built embed score hs' b q top_k norm []
               Hb' Hn (f_equal fst (Hsem (top_k * 2)))).
    simpl. now rewrite resolve_empty.
  - unfold HybridSearch.search. run. rewrite Hb. simpl. reflexivity.
Qed.

(** C3, as stated, fails: after [index_documents([cat, dogs])] and a clear
    of the store, the lexical index is still built and still carries the
    chunk-id ordering of the chunks that are gone. *)
Lemma clear_leaves_lexical_index_behind :
  let (_, hs') := clear_store Demo.pets in
  VectorStore.documents (HybridSearch.vector_store hs') = PyDict.empty
  /\ HybridSearch.doc_ids hs' = ["1"; "2"]
  /\ HybridSearch.bm25 hs'
     = Some (BM25Okapi.mk [["the"; "cat"; "sat"; "on"; "the"; "mat"];
                           ["dogs"; "bark"; "loudly"; "at"; "night"]]).
Proof. repeat split. Qed.

(** ** The theorems at work on the demo deployment *)

Lemma demo_embed_one_vector_per_text : one_vector_per_text Demo.embed.
Proof.
  intros texts model kind vectors [= <-]. now rewrite length_map.
Qed.

Lemma demo_fresh_indexed : indexed Demo.embed Demo.fresh.
Proof. now apply (indexed_new Demo.embed Demo.cfg None None false). Qed.

Lemma demo_pets_indexed : indexed Demo.embed Demo.pets.
Proof.
  apply (indexed_more Demo.embed Demo.fresh [Demo.cat; Demo.dogs]).
  - exact demo_fresh_indexed.
  - repeat constructor; simpl; intuition discriminate.
  - intros doc _. reflexivity.
  - vm_compute. reflexivity.
Qed.

Lemma clear_empties_store_only_witness :
  let (out, hs') := clear_store Demo.pets in
  out = Returns tt
  /\ VectorStore.documents (HybridSearch.vector_store hs') = PyDict.empty
  /\ VectorStore.id_to_idx (HybridSearch.vector_store hs') = PyDict.empty
  /\ index_size (HybridSearch.vector_store hs') = 0
  /\ HybridSearch.bm25 hs' = HybridSearch.bm25 Demo.pets
  /\ HybridSearch.doc_ids hs' = HybridSearch.doc_ids Demo.pets
  /\ forall q top_k,
       HybridSearch.search Demo.embed Demo.overlap q top_k hs'
       = (Returns [], hs').
Proof.
  exact (clear_empties_store_only Demo.embed Demo.overlap Demo.pets
           demo_pets_indexed).
Defined.



Lemma search_blends_both_sides_witness :
  exists sem norm,
    fst (VectorStore.search Demo.embed "cat mat" (5 * 2)
           (HybridSearch.vector_store Demo.pets)) = Returns sem
    /\ HybridSearch.normalize
         (BM25Okapi.get_scores Demo.overlap Demo.pets_bm25 (split "cat mat"))
       = Returns norm
    /\ HybridSearch.search Demo.embed Demo.overlap "cat mat" 5 Demo.pets
       = (Returns
            (resolve (VectorStore.documents (HybridSearch.vector_store Demo.pets))
               (ranked (HybridSearch.combine_scores
                          (HybridSearch.alpha Demo.pets)
                          (HybridSearch.doc_ids Demo.pets) norm sem) 5)),
          Demo.pets)
    /\ (forall i,
          match PyDict.get
                  (HybridSearch.combine_scores (HybridSearch.alpha Demo.pets)
                     (HybridSearch.doc_ids Demo.pets) norm sem) i
          with
          | Some c =>
              (c == blended (HybridSearch.alpha Demo.pets)
                      (lexical_score
                         (combine (HybridSearch.doc_ids Demo.pets) norm) i)
                      (semantic_score sem i))%Q
              /\ (lexical_score
                    (combine (HybridSearch.doc_ids Demo.pets) norm) i <> None
                  \/ semantic_score sem i <> None)
          | None =>
              lexical_score (combine (HybridSearch.doc_ids Demo.pets) norm) i
              = None
              /\ semantic_score sem i = None
          end)
    /\ (forall results doc s,
          fst (HybridSearch.search Demo.embed Demo.overlap "cat mat" 5 Demo.pets)
          = Returns results ->
          In (doc, s) results ->
          (s == blended (HybridSearch.alpha Demo.pets)
                  (lexical_score
                     (combine (HybridSearch.doc_ids Demo.pets) norm) (id doc))
                  (semantic_score sem (id doc)))%Q).
Proof.
  destruct (fst (VectorStore.search Demo.embed "cat mat" (5 * 2)
                   (HybridSearch.vector_store Demo.pets)))
    as [sem|e] eqn:E; [|vm_compute in E; discriminate].
  exists sem.
  assert (Hb : HybridSearch.bm25 Demo.pets = Some Demo.pets_bm25)
    by (vm_compute; reflexivity).
  destruct (search_blends_both_sides Demo.embed Demo.overlap Demo.pets
              Demo.pets_bm25 "cat mat" 5 sem demo_pets_indexed Hb E)
    as (norm & H).
  exists norm. split; [reflexivity | exact H].
Defined.

(** ** Concrete runs *)

(** [get_stats] reports the two sizes used above. *)
Lemma get_stats_sizes (vs : VectorStore.t) :
  VectorStore.get_stats vs
  = (Returns (corpus_size vs, index_size vs, VectorStore.dimension vs,
              VectorStore.embedding_model_name vs), vs).
Proof. reflexivity. Qed.

(** The lexical side alone ([alpha = 0]) ranks the chunk that shares the
    query's terms first. *)
Example pets_lexical_ranking :
  match fst (HybridSearch.search Demo.embed Demo.overlap "cat mat" 5
               (HybridSearch.set_alpha_field 0 Demo.pets)) with
  | Returns results => ids_of results = ["1"; "2"]
  | Raises _ => False
  end.
Proof. vm_compute. reflexivity. Qed.

(** Asking for a single result truncates the ranking. *)
Example pets_top_one :
  match fst (HybridSearch.search Demo.embed Demo.overlap "cat mat" 1
               Demo.pets) with
  | Returns results => ids_of results = ["1"]
  | Raises _ => False
  end.
Proof. vm_compute. reflexivity. Qed.

(** FAISS refuses [k = 0], so [top_k = 0] on a populated store raises. *)
Example pets_top_zero :
  fst (HybridSearch.search Demo.embed Demo.overlap "cat mat" 0 Demo.pets)
  = Raises (Exn AssertionError "").
Proof. vm_compute. reflexivity. Qed.

(** An empty batch leaves the store alone and makes the lexical index
    constructor fail. *)
Example index_empty_batch :
  HybridSearch.index_documents Demo.embed [] Demo.pets
  = (Raises (Exn ZeroDivisionError "division by zero"), Demo.pets).
Proof. vm_compute. reflexivity. Qed.

(** A successful [query] records the exchange and reports the top score. *)
Example bot_answers :
  let (out, bot') :=
    QABot.query Demo.cfg Demo.embed Demo.overlap Demo.answers
                "cat mat" None (Demo.bot Demo.pets) in
  match out with
  | Returns ans =>
      QABot.answer ans = "It sums two numbers."
      /\ List.length (QABot.sources ans) = 2%nat
      /\ QABot.history bot'
         = [QABot.mkExchange "cat mat" "It sums two numbers."]
  | Raises _ => False
  end.
Proof. vm_compute. repeat split. Qed.

(** * Further properties of the retrieval code *)

(** ** Sortedness of the stable sort *)

Section SortedFacts.
Context {A : Type} (better : A -> A -> bool) (le : A -> A -> Prop).
Hypothesis le_trans : forall x y z, le x y -> le y z -> le x z.
Hypothesis better_le : forall y x, better y x = true -> le y x.
Hypothesis not_better_le : forall y x, better y x = false -> le x y.

Lemma insert_by_sorted (x : A) (l : list A) :
  StronglySorted le l -> StronglySorted le (insert_by better x l).
Proof.
  induction l as [|y l IH]; simpl; intros Hs.
  - constructor; [constructor | constructor].
  - apply StronglySorted_inv in Hs. destruct Hs as [Hs Hy].
    destruct (better y x) eqn:E.
    + constructor; [now apply IH|].
      apply (Permutation_Forall (Permutation_sym (insert_by_perm better x l))).
      constructor; [now apply better_le | exact Hy].
    + apply not_better_le in E. constructor.
      * now constructor.
      * constructor; [exact E|].
        eapply Forall_impl; [|exact Hy]. intros z Hz. now apply (le_trans x y z).
Qed.

Lemma stable_sort_sorted (l : list A) : StronglySorted le (stable_sort better l).
Proof.
  induction l as [|x l IH]; simpl; [constructor | now apply insert_by_sorted].
Qed.
End SortedFacts.

Lemma firstn_sorted {A} (R : A -> A -> Prop) (n : nat) (l : list A) :
  StronglySorted R l -> StronglySorted R (firstn n l).
Proof.
  revert n. induction l as [|x l IH]; intros [|n] Hs; simpl; try constructor.
  - apply IH. now apply StronglySorted_inv in Hs.
  - apply StronglySorted_inv in Hs. destruct Hs as [_ Hx].
    rewrite Forall_forall in *. intros y Hy. apply Hx.
    now apply (firstn_incl n l).
Qed.

Lemma Qlt_bool_false (x y : Q) : Qlt_bool x y = false -> (y <= x)%Q.
Proof.
  unfold Qlt_bool. rewrite negb_false_iff. apply Qle_bool_iff.
Qed.

(** FAISS answers come in increasing distance. *)
Lemma nearest_ascending (idx : Faiss.IndexFlatL2) (q : list Q) :
  ascending (Faiss.nearest idx q).
Proof.
  unfold ascending, Faiss.nearest. apply stable_sort_sorted.
  - intros x y z. apply Qle_trans.
  - intros y x H. apply Qlt_bool_iff in H. now apply Qlt_le_weak.
  - intros y x H. now apply Qlt_bool_false.
Qed.

(** The ranking of the combined scores is in non-increasing score. *)
Lemma sorted_by_score_desc_sorted {A} (l : list (A * Q)) :
  StronglySorted (fun x y => snd y <= snd x)%Q (sorted_by_score_desc l).
Proof.
  unfold sorted_by_score_desc. apply stable_sort_sorted.
  - intros x y z Hxy Hyz. eapply Qle_trans; eassumption.
  - intros y x H. apply Qlt_bool_iff in H. now apply Qlt_le_weak.
  - intros y x H. now apply Qlt_bool_false.
Qed.

(** ** Distances and similarities *)

Lemma Qsquare_nonneg (x : Q) : (0 <= x * x)%Q.
Proof. unfold Qle, Qmult. simpl. nia. Qed.

Lemma l2_sqr_nonneg (u v : list Q) : (0 <= Faiss.l2_sqr u v)%Q.
Proof.
  unfold Faiss.l2_sqr.
  assert (H : forall (l : list (Q * Q)) (acc : Q),
             (0 <= acc)%Q ->
             (0 <= fold_left
                     (fun acc p => acc + (fst p - snd p) * (fst p - snd p))%Q
                     l acc)%Q).
  { induction l as [|p l IH]; intros acc Hacc; simpl; [exact Hacc|].
    apply IH. rewrite <- (Qplus_0_r 0).
    apply Qplus_le_compat; [exact Hacc | apply Qsquare_nonneg]. }
  apply H, Qle_refl.
Qed.

Lemma nearest_nonneg (idx : Faiss.IndexFlatL2) (q : list Q) :
  Forall (fun h => 0 <= fst h)%Q (Faiss.nearest idx q).
Proof.
  unfold Faiss.nearest.
  apply (Permutation_Forall (Permutation_sym (stable_sort_perm _ _))).
  apply Forall_forall. intros h Hh. apply in_map_iff in Hh.
  destruct Hh as (iv & <- & _). simpl. apply l2_sqr_nonneg.
Qed.

Lemma similarity_range (dist : Q) :
  (0 <= dist)%Q -> (0 < 1 / (1 + dist) /\ 1 / (1 + dist) <= 1)%Q.
Proof.
  intros Hd.
  assert (Hpos : (0 < 1 + dist)%Q).
  { apply Qlt_le_trans with (y := 1%Q); [reflexivity|].
    rewrite <- (Qplus_0_r 1) at 1. apply Qplus_le_compat; [apply Qle_refl|exact Hd]. }
  split.
  - unfold Qdiv. rewrite Qmult_1_l. now apply Qinv_lt_0_compat.
  - apply Qle_shift_div_r; [exact Hpos|]. rewrite Qmult_1_l.
    rewrite <- (Qplus_0_r 1) at 1. apply Qplus_le_compat; [apply Qle_refl|exact Hd].
Qed.

Lemma similarity_antitone (d1 d2 : Q) :
  (0 <= d1)%Q -> (d1 <= d2)%Q -> (1 / (1 + d2) <= 1 / (1 + d1))%Q.
Proof.
  intros H0 H12.
  assert (Hp1 : (0 < 1 + d1)%Q).
  { apply Qlt_le_trans with (y := 1%Q); [reflexivity|].
    rewrite <- (Qplus_0_r 1) at 1. apply Qplus_le_compat; [apply Qle_refl|exact H0]. }
  assert (Hp2 : (0 < 1 + d2)%Q).
  { eapply Qlt_le_trans; [exact Hp1|].
    apply Qplus_le_compat; [apply Qle_refl | exact H12]. }
  unfold Qdiv. rewrite !Qmult_1_l.
  apply Qle_lteq in H12. destruct H12 as [Hlt|Heq].
  - apply Qlt_le_weak. apply -> (Qinv_lt_contravar (1 + d1) (1 + d2)); trivial.
    apply Qplus_lt_r. exact Hlt.
  - rewrite Heq. apply Qle_refl.
Qed.

(** ** Semantic search results *)

Section CollectOrder.
Variable vs : VectorStore.t.
Variable m : PyDict.t Z string.

Lemma collect_skips_padding hits n :
  VectorStore.collect vs m (hits ++ repeat (Faiss.FLT_MAX, -1) n)
  = VectorStore.collect vs m hits.
Proof.
  induction hits as [|[dist z] hits IH]; simpl.
  - induction n as [|n IHn]; [reflexivity | exact IHn].
  - now rewrite IH.
Qed.

Lemma collect_length hits rs :
  VectorStore.collect vs m hits = Returns rs ->
  (List.length rs <= List.length hits)%nat.
Proof.
  revert rs. induction hits as [|[dist z] hits IH]; intros rs; simpl.
  - intros [= <-]. simpl. lia.
  - destruct (negb (z =? -1) && PyDict.mem m z).
    + destruct (PyDict.get m z) as [k|]; [|discriminate].
      destruct (PyDict.get (VectorStore.documents vs) k); [|discriminate].
      destruct (VectorStore.collect vs m hits) as [rs'|e]; [|discriminate].
      intros [= <-]. simpl. specialize (IH rs' eq_refl). lia.
    + intros H. specialize (IH rs H). lia.
Qed.

(** Each result is a stored chunk, with the similarity of one of the
    hits. *)
Lemma collect_from_hits hits rs :
  VectorStore.collect vs m hits = Returns rs ->
  Forall (fun r => stored vs (fst r)
                   /\ exists h, In h hits /\ snd r = (1 / (1 + fst h))%Q) rs.
Proof.
  revert rs. induction hits as [|[dist z] hits IH]; intros rs; simpl.
  - intros [= <-]. constructor.
  - assert (Hrest : forall rs',
              VectorStore.collect vs m hits = Returns rs' ->
              Forall (fun r => stored vs (fst r)
                               /\ exists h, In h ((dist, z) :: hits)
                                            /\ snd r = (1 / (1 + fst h))%Q) rs').
    { intros rs' H. eapply Forall_impl; [|apply IH; exact H].
      intros r (Hst & h & Hh & Hs). split; [exact Hst|].
      exists h. split; [now right | exact Hs]. }
    destruct (negb (z =? -1) && PyDict.mem m z); [|exact (Hrest rs)].
    destruct (PyDict.get m z) as [k|]; [|discriminate].
    destruct (PyDict.get (VectorStore.documents vs) k) as [doc|] eqn:Hd;
      [|discriminate].
    destruct (VectorStore.collect vs m hits) as [rs'|e]; [|discriminate].
    intros [= <-]. constructor; [|now apply Hrest].
    simpl. split; [now exists k|].
    exists (dist, z). split; [now left | reflexivity].
Qed.

Lemma collect_descending hits rs :
  ascending hits ->
  Forall (fun h => 0 <= fst h)%Q hits ->
  VectorStore.collect vs m hits = Returns rs ->
  descending rs.
Proof.
  unfold ascending, descending. revert rs.
  induction hits as [|[dist z] hits IH]; intros rs Hs Hpos; simpl.
  - intros [= <-]. constructor.
  - apply StronglySorted_inv in Hs. destruct Hs as [Hs Hfirst].
    inversion Hpos as [|? ? Hd Hpos']; subst. simpl in Hd.
    destruct (negb (z =? -1) && PyDict.mem m z); [|now apply IH].
    destruct (PyDict.get m z) as [k|]; [|discriminate].
    destruct (PyDict.get (VectorStore.documents vs) k) as [doc|];
      [|discriminate].
    destruct (VectorStore.collect vs m hits) as [rs'|e] eqn:Hc;
      [|discriminate].
    intros [= <-]. constructor; [now apply IH|].
    pose proof (collect_from_hits _ _ Hc) as Hfrom.
    rewrite Forall_forall in *. intros r Hr.
    destruct (Hfrom r Hr) as (_ & h & Hh & ->). simpl.
    apply similarity_antitone; [exact Hd | now apply Hfirst].
Qed.
End CollectOrder.

Lemma store_search_shape embed q top_k vs rs :
  fst (VectorStore.search embed q top_k vs) = Returns rs ->
  (List.length rs <= Z.to_nat top_k)%nat
  /\ Forall (fun r => stored vs (fst r) /\ (0 < snd r /\ snd r <= 1)%Q) rs
  /\ descending rs.
Proof.
  unfold VectorStore.search. unfold bind, get_self, lift, ret, raise.
  destruct (Faiss.ntotal (VectorStore.index vs) =? 0).
  { simpl. intros [= <-]. repeat split; [simpl; lia | constructor | constructor]. }
  destruct (embed [q] (VectorStore.embedding_model_name vs) query)
    as [[|e es]|err]; simpl; try discriminate.
  destruct (Faiss.search (VectorStore.index vs) e top_k) as [hits|err] eqn:Hs;
    simpl; [|discriminate].
  apply faiss_search_returns in Hs. subst hits.
  rewrite collect_skips_padding. intros Hc.
  set (best := firstn (Z.to_nat top_k) (Faiss.nearest (VectorStore.index vs) e))
    in *.
  assert (Hpos : Forall (fun h => 0 <= fst h)%Q best).
  { apply Forall_forall. intros h Hh. apply firstn_incl in Hh.
    pose proof (nearest_nonneg (VectorStore.index vs) e) as Hn.
    rewrite Forall_forall in Hn. now apply Hn. }
  split; [|split].
  - apply collect_length in Hc. unfold best in Hc.
    rewrite length_firstn in Hc. lia.
  - pose proof (collect_from_hits _ _ _ _ Hc) as Hfrom.
    eapply Forall_impl; [|exact Hfrom].
    intros r (Hst & h & Hh & ->). split; [exact Hst|].
    apply similarity_range. rewrite Forall_forall in Hpos. now apply Hpos.
  - eapply collect_descending; [| exact Hpos | exact Hc].
    apply firstn_sorted, nearest_ascending.
Qed.


(** ** Hybrid search results *)

(** The two ways [HybridSearch.search] returns. *)
Lemma hybrid_search_returns embed score q top_k hs rs :
  fst (HybridSearch.search embed score q top_k hs) = Returns rs ->
  (HybridSearch.bm25 hs = None
   /\ fst (VectorStore.search embed q top_k (HybridSearch.vector_store hs))
      = Returns rs)
  \/ (exists b norm sem,
        HybridSearch.bm25 hs = Some b
        /\ HybridSearch.normalize (BM25Okapi.get_scores score b (split q))
           = Returns norm
        /\ fst (VectorStore.search embed q (top_k * 2)
                  (HybridSearch.vector_store hs)) = Returns sem
        /\ rs = resolve (VectorStore.documents (HybridSearch.vector_store hs))
                  (ranked (HybridSearch.combine_scores (HybridSearch.alpha hs)
                             (HybridSearch.doc_ids hs) norm sem) top_k)).
Proof.
  destruct (HybridSearch.bm25 hs) as [b|] eqn:Hb.
  - intros Hrun. right.
    destruct (HybridSearch.normalize (BM25Okapi.get_scores score b (split q)))
      as [norm|e] eqn:Hn.
    + destruct (fst (VectorStore.search embed q (top_k * 2)
                       (HybridSearch.vector_store hs))) as [sem|e] eqn:Hsem.
      * rewrite (hybrid_search_built _ _ _ _ _ _ _ _ Hb Hn Hsem) in Hrun.
        simpl in Hrun. injection Hrun as <-.
        exists b, norm, sem. repeat split; trivial.
      * exfalso. revert Hrun. unfold HybridSearch.search.
        unfold bind, get_self, lift, on_field. rewrite Hb, Hn.
        destruct (VectorStore.search embed q (top_k * 2) _) as [o vs'].
        simpl in Hsem. subst o. discriminate.
    + exfalso. revert Hrun. unfold HybridSearch.search.
      unfold bind, get_self, lift. rewrite Hb, Hn. discriminate.
  - intros Hrun. left. split; [reflexivity|].
    revert Hrun. unfold HybridSearch.search.
    unfold bind, get_self, on_field. rewrite Hb.
    destruct (VectorStore.search embed q top_k _) as [o vs']. simpl. tauto.
Qed.

Lemma resolve_length docs (l : list (string * Q)) :
  (List.length (resolve docs l) <= List.length l)%nat.
Proof.
  induction l as [|[i s] l IH]; simpl; [lia|].
  destruct (PyDict.get docs i); simpl; lia.
Qed.

Lemma resolve_descending docs (l : list (string * Q)) :
  StronglySorted (fun x y => snd y <= snd x)%Q l ->
  descending (resolve docs l).
Proof.
  unfold descending. induction l as [|[i s] l IH]; simpl; intros Hs.
  - constructor.
  - apply StronglySorted_inv in Hs. destruct Hs as [Hs Hi].
    destruct (PyDict.get docs i) as [doc|]; [|now apply IH].
    constructor; [now apply IH|].
    apply Forall_forall. intros [doc' s'] Hin.
    apply resolve_In in Hin. destruct Hin as (j & Hj & _).
    rewrite Forall_forall in Hi. apply (Hi (j, s') Hj).
Qed.

Lemma slice_to_length {A} (l : list A) (k : Z) :
  0 <= k -> (List.length (slice_to l k) <= Z.to_nat k)%nat.
Proof.
  intros Hk. unfold slice_to.
  destruct (k <? 0) eqn:E; [apply Z.ltb_lt in E; lia|].
  rewrite length_firstn. lia.
Qed.

Lemma slice_to_sorted {A} (R : A -> A -> Prop) (l : list A) (k : Z) :
  StronglySorted R l -> StronglySorted R (slice_to l k).
Proof.
  intros Hs. unfold slice_to. destruct (k <? 0); now apply firstn_sorted.
Qed.

(** X2. Whenever [HybridSearch.search] returns for a [top_k] that is not
    negative, it returns at most [top_k] results, each a chunk held by the
    store, in non-increasing score - with or without a lexical index. *)
Theorem hybrid_search_ranked embed score q top_k hs rs :
  0 <= top_k ->
  fst (HybridSearch.search embed score q top_k hs) = Returns rs ->
  Z.of_nat (List.length rs) <= top_k
  /\ Forall (fun r => stored (HybridSearch.vector_store hs) (fst r)) rs
  /\ descending rs.
Proof.
  intros Hk Hrun. apply hybrid_search_returns in Hrun.
  destruct Hrun as [[_ Hsem]|(b & norm & sem & _ & _ & _ & ->)].
  - apply store_search_shape in Hsem. destruct Hsem as (Hlen & Hall & Hd).
    split; [lia | split; [|exact Hd]].
    eapply Forall_impl; [|exact Hall]. now intros r [Hst _].
  - set (combined := HybridSearch.combine_scores _ _ _ _).
    split; [|split].
    + pose proof (resolve_length
                    (VectorStore.documents (HybridSearch.vector_store hs))
                    (ranked combined top_k)) as H1.
      pose proof (slice_to_length
                    (sorted_by_score_desc (PyDict.items combined)) top_k Hk)
        as H2.
      unfold ranked in *. lia.
    + apply Forall_forall. intros [doc s] Hin.
      apply resolve_In in Hin. destruct Hin as (i & _ & Hget).
      now exists i.
    + apply resolve_descending. unfold ranked.
      apply slice_to_sorted, sorted_by_score_desc_sorted.
Qed.

Lemma firstn_map_NoDup {A B} (f : A -> B) (n : nat) (l : list A) :
  NoDup (map f l) -> NoDup (map f (firstn n l)).
Proof. intros H. rewrite <- firstn_map. now apply firstn_NoDup. Qed.

Lemma resolve_ids_NoDup docs (l : list (string * Q)) :
  keyed docs -> NoDup (map fst l) -> NoDup (ids_of (resolve docs l)).
Proof.
  intros Hkeyed. induction l as [|[i s] l IH]; simpl; intros Hnd.
  - constructor.
  - inversion Hnd as [|? ? Hnot Hnd']; subst.
    destruct (PyDict.get docs i) as [doc|] eqn:Hd; [|now apply IH].
    simpl. constructor; [|now apply IH].
    assert (Hid : id doc = i) by (apply Hkeyed; now apply get_Some_In).
    rewrite Hid. intros Hin. apply Hnot.
    apply in_map_iff in Hin. destruct Hin as ([doc' s'] & Hid' & Hin).
    simpl in Hid'. apply resolve_In in Hin. destruct Hin as (j & Hj & Hg).
    assert (id doc' = j) by (apply Hkeyed; now apply get_Some_In).
    apply in_map_iff. exists (j, s'). split; [simpl; congruence | exact Hj].
Qed.

(** X3. On a retriever filled through [index_documents], no chunk is
    returned twice by a search: the ids of the results are pairwise
    distinct, and each result is the chunk stored under its id. *)
Theorem hybrid_search_no_duplicates embed score q top_k hs rs :
  indexed embed hs ->
  fst (HybridSearch.search embed score q top_k hs) = Returns rs ->
  NoDup (ids_of rs)
  /\ Forall (fun r =>
               PyDict.get (VectorStore.documents (HybridSearch.vector_store hs))
                          (id (fst r)) = Some (fst r)) rs.
Proof.
  intros Hix Hrun. destruct (indexed_consistent _ _ Hix) as [Hc _].
  apply hybrid_search_returns in Hrun.
  destruct Hrun as [[_ Hsem]|(b & norm & sem & _ & _ & _ & ->)].
  - now apply (store_search_sound embed q top_k).
  - set (combined := HybridSearch.combine_scores _ _ _ _). split.
    + apply resolve_ids_NoDup; [apply Hc|].
      unfold ranked, slice_to.
      assert (Hnd : NoDup (map fst (sorted_by_score_desc (PyDict.items combined)))).
      { eapply Permutation_NoDup.
        - apply Permutation_map, Permutation_sym, stable_sort_perm.
        - apply combine_scores_nodup. }
      destruct (top_k <? 0); now apply firstn_map_NoDup.
    + apply Forall_forall. intros [doc s] Hin. simpl.
      apply resolve_In in Hin. destruct Hin as (i & _ & Hget).
      assert (Hid : id doc = i).
      { apply (cons_keyed _ Hc). now apply get_Some_In. }
      now rewrite Hid.
Qed.

(** ** The degenerate blend weights *)

(** X4. With a built lexical index on a retriever filled through
    [index_documents]: at [alpha = 0] every returned score is the
    normalised lexical score of its chunk (0 for a chunk the lexical index
    does not cover), and at [alpha = 1] it is the chunk's semantic
    similarity (0 for a chunk outside the semantic candidates). *)
Theorem search_degenerate_weights embed score hs b q top_k norm sem rs :
  indexed embed hs ->
  HybridSearch.bm25 hs = Some b ->
  HybridSearch.normalize (BM25Okapi.get_scores score b (split q))
  = Returns norm ->
  fst (VectorStore.search embed q (top_k * 2) (HybridSearch.vector_store hs))
  = Returns sem ->
  fst (HybridSearch.search embed score q top_k hs) = Returns rs ->
  forall doc s,
    In (doc, s) rs ->
    ((HybridSearch.alpha hs == 0)%Q ->
     (s == or_zero (lexical_score (combine (HybridSearch.doc_ids hs) norm)
                                  (id doc)))%Q)
    /\ ((HybridSearch.alpha hs == 1)%Q ->
        (s == or_zero (semantic_score sem (id doc)))%Q).
Proof.
  intros Hix Hb Hn Hsem Hrun doc s Hin.
  destruct (indexed_consistent _ _ Hix) as [Hc _].
  destruct (store_search_sound _ _ _ _ _ Hc Hsem) as [Hnd _].
  rewrite (hybrid_search_built _ _ _ _ _ _ _ _ Hb Hn Hsem) in Hrun.
  simpl in Hrun. injection Hrun as <-.
  apply resolve_In in Hin. destruct Hin as (i & Hi & Hd).
  assert (Hid : id doc = i).
  { apply (cons_keyed _ Hc). now apply get_Some_In. }
  apply ranked_In in Hi.
  apply (In_get_Some _ _ _ (combine_scores_nodup _ _ _ _)) in Hi.
  pose proof (combine_scores_blended (HybridSearch.alpha hs)
                (HybridSearch.doc_ids hs) norm sem i Hnd) as Hbl.
  rewrite Hi in Hbl. destruct Hbl as [Hbl _]. rewrite Hid.
  unfold blended in Hbl. split; intros Ha; rewrite Hbl, Ha; ring.
Qed.

(** ** What [index_documents] does to the lexical index *)

Lemma lexical_score_absent (pairs : list (string * Q)) (i : string) :
  ~ In i (map fst pairs) -> lexical_score pairs i = None.
Proof.
  unfold lexical_score.
  assert (H : forall acc,
             ~ In i (map fst pairs) ->
             fold_left
               (fun acc p => if String.eqb i (fst p) then Some (snd p) else acc)
               pairs acc = acc).
  { induction pairs as [|p pairs IH]; intros acc Hn; simpl; [reflexivity|].
    simpl in Hn. rewrite IH by tauto.
    destruct (String.eqb_spec i (fst p)) as [->|_]; [tauto | reflexivity]. }
  apply H.
Qed.

(** X5. A successful [index_documents] rebuilds the lexical index over the
    given batch alone: [doc_ids] becomes the ids of the batch, in order.
    Chunks indexed before stay in the store, but the lexical index no
    longer covers them: whatever the scores, they have no lexical
    score. *)
Theorem index_documents_replaces_lexical_index embed hs docs hs' :
  indexed embed hs ->
  NoDup (map id docs) ->
  (forall doc, In doc docs ->
     PyDict.get (VectorStore.documents (HybridSearch.vector_store hs))
                (id doc) = None) ->
  HybridSearch.index_documents embed docs hs = (Returns tt, hs') ->
  HybridSearch.doc_ids hs' = map id docs
  /\ HybridSearch.bm25 hs'
     = Some (BM25Okapi.mk (map (fun doc => split (content doc)) docs))
  /\ forall i old,
       PyDict.get (VectorStore.documents (HybridSearch.vector_store hs)) i
       = Some old ->
       PyDict.get (VectorStore.documents (HybridSearch.vector_store hs')) i
       = Some old
       /\ forall scores,
            lexical_score (combine (HybridSearch.doc_ids hs') scores) i = None.
Proof.
  intros Hix Hnd Hfresh Hrun.
  destruct (indexed_consistent _ _ Hix) as [[Hkeys _ _] _].
  apply index_documents_returns in Hrun.
  destruct Hrun as (Hne & vs' & Hadd & ->). simpl.
  split; [reflexivity|]. split; [reflexivity|].
  intros i old Hold. split.
  - apply add_documents_fresh in Hadd; trivial.
    + destruct Hadd as (embs & added & _ & _ & Hd & _).
      rewrite Hd, get_app, Hold. reflexivity.
    + intros doc Hin. apply get_None_iff. now apply Hfresh.
  - intros scores. apply lexical_score_absent. intros Hin.
    apply combine_fst_incl in Hin. apply in_map_iff in Hin.
    destruct Hin as (doc & <- & Hdoc). rewrite (Hfresh doc Hdoc) in Hold.
    discriminate.
Qed.

(** ** Failing batches *)

Lemma store_documents_raises embs start (l : list (Z * Document)) :
  forall s e s',
    VectorStore.store_documents embs start l s = (Raises e, s') ->
    e = Exn IndexError "" /\ VectorStore.index s' = VectorStore.index s.
Proof.
  induction l as [|[i doc] l IH]; intros s e s'; simpl.
  - discriminate.
  - destruct (nth_error embs (Z.to_nat i)) as [v|].
    + run. intros H. apply IH in H. exact H.
    + run. intros [= <- <-]. split; reflexivity.
Qed.

Lemma add_documents_raise_frame embed docs vs e vs' :
  VectorStore.add_documents embed docs vs = (Raises e, vs') ->
  exn_cls e <> IndexError ->
  vs' = vs.
Proof.
  unfold VectorStore.add_documents.
  destruct docs as [|doc0 docs0]; [discriminate|].
  remember (doc0 :: docs0) as docs eqn:Hdocs.
  unfold bind, get_self, put_self, lift, ret.
  destruct (embed (map content docs) (VectorStore.embedding_model_name vs)
                  document) as [embs|err]; [|now intros [= <- <-]].
  destruct (np_array embs) as [m|err]; [|now intros [= <- <-]].
  destruct (Faiss.add (VectorStore.index vs) m) as [idx'|err];
    [|now intros [= <- <-]].
  intros Hrun Hcls. apply store_documents_raises in Hrun.
  destruct Hrun as [-> _]. simpl in Hcls. congruence.
Qed.

(** X6. [add_documents] adds nothing when the embeddings cannot be had:
    if it raises anything but the [IndexError] of its storing loop - the
    embedding client failing, a ragged or wrongly sized embedding matrix -
    the store is exactly as before. *)
Theorem add_documents_failure_is_atomic embed docs vs e vs' :
  VectorStore.add_documents embed docs vs = (Raises e, vs') ->
  exn_cls e <> IndexError ->
  vs' = vs.
Proof. apply add_documents_raise_frame. Qed.

Lemma store_documents_short embs start (l : list Document) :
  forall i s,
    0 <= i ->
    (Z.to_nat i <= List.length embs)%nat ->
    (List.length embs < Z.to_nat i + List.length l)%nat ->
    exists s',
      VectorStore.store_documents embs start (enumerate_from i l) s
      = (Raises (Exn IndexError ""), s')
      /\ VectorStore.index s' = VectorStore.index s.
Proof.
  induction l as [|doc l IH]; intros i s Hi Hin Hlen; simpl.
  - simpl in Hlen.
    exfalso. lia.
  - destruct (nth_error embs (Z.to_nat i)) as [v|] eqn:Hv.
    + run.
      assert (Hlt : (Z.to_nat i < List.length embs)%nat).
      { apply nth_error_Some. congruence. }
      destruct (IH (i + 1)
                  (VectorStore.set_id_to_idx
                     (PyDict.set (VectorStore.id_to_idx s) (id doc) (start + i))
                     (VectorStore.set_documents
                        (PyDict.set (VectorStore.documents s) (id doc)
                                    (with_embedding doc v)) s)))
        as (s' & Hrun & Hidx); [lia | lia | simpl in Hlen |- *; lia |].
      exists s'. split; [exact Hrun | exact Hidx].
    + run. exists s. split; reflexivity.
Qed.

(** X7. When the embedding client delivers fewer vectors than texts, the
    vectors are added to the index before the shortfall is met: the call
    raises [IndexError] and leaves the index larger by the vectors
    delivered, so the store is left out of step. *)
Theorem add_documents_short_embeddings embed docs vs embs idx' :
  embed (map content docs) (VectorStore.embedding_model_name vs) document
  = Returns embs ->
  np_array embs = Returns embs ->
  Faiss.add (VectorStore.index vs) embs = Returns idx' ->
  (List.length embs < List.length docs)%nat ->
  exists vs',
    VectorStore.add_documents embed docs vs = (Raises (Exn IndexError ""), vs')
    /\ index_size vs' = index_size vs + Z.of_nat (List.length embs)
    /\ 0 < Z.of_nat (List.length embs).
Proof.
  intros Hemb Hnp Hadd Hlen.
  unfold VectorStore.add_documents.
  destruct docs as [|doc0 docs0]; [simpl in Hlen; lia|].
  remember (doc0 :: docs0) as docs eqn:Hdocs.
  unfold bind, get_self, put_self, lift, ret.
  rewrite Hemb, Hnp, Hadd.
  destruct (store_documents_short embs
              (Faiss.ntotal (VectorStore.index vs)) docs 0
              (VectorStore.set_index idx' vs))
    as (vs' & Hrun & Hidx); [lia | simpl; lia | simpl; lia |].
  exists vs'. split; [exact Hrun|].
  assert (Hnonempty : embs <> []).
  { intros ->. discriminate Hadd. }
  apply faiss_add_returns in Hadd.
  unfold index_size, Faiss.ntotal. rewrite Hidx. simpl. rewrite Hadd. simpl.
  rewrite length_app. split; [lia|].
  destruct embs as [|row embs]; [congruence | simpl; lia].
Qed.

Lemma no_token_batch (docs : list Document) :
  (forall doc, In doc docs -> split (content doc) = []) ->
  forallb BM25Okapi.no_token (map (fun doc => split (content doc)) docs) = true.
Proof.
  induction docs as [|doc docs IH]; simpl; intros H; [reflexivity|].
  rewrite (H doc (or_introl eq_refl)). simpl. apply IH.
  intros d Hd. apply H. now right.
Qed.

(** X8. A batch whose chunks hold no token (blank contents, or no chunk at
    all) cannot be indexed lexically: once the store has taken the chunks,
    building the lexical index raises [ZeroDivisionError], so
    [index_documents] raises with the chunks stored but the lexical index
    and [doc_ids] as they were.  For the empty batch nothing changes. *)
Theorem index_documents_without_tokens embed docs hs vs' :
  (forall doc, In doc docs -> split (content doc) = []) ->
  VectorStore.add_documents embed docs (HybridSearch.vector_store hs)
  = (Returns tt, vs') ->
  HybridSearch.index_documents embed docs hs
  = (Raises (Exn ZeroDivisionError "division by zero"),
     HybridSearch.set_vector_store vs' hs)
  /\ HybridSearch.bm25 (HybridSearch.set_vector_store vs' hs)
     = HybridSearch.bm25 hs
  /\ HybridSearch.doc_ids (HybridSearch.set_vector_store vs' hs)
     = HybridSearch.doc_ids hs
  /\ (docs = [] -> HybridSearch.set_vector_store vs' hs = hs).
Proof.
  intros Hblank Hadd. unfold HybridSearch.index_documents.
  unfold bind, on_field, lift. rewrite Hadd.
  unfold BM25Okapi.__init__. rewrite (no_token_batch docs Hblank).
  repeat split.
  intros ->. simpl in Hadd. injection Hadd as <-.
  apply set_vector_store_same.
Qed.

(** X9. When [add_documents] raises inside [index_documents], the
    exception propagates and the lexical index and [doc_ids] are not
    touched; unless it is the [IndexError] of the storing loop, the whole
    retriever is as before (a failed embedding call ingests nothing). *)
Theorem index_documents_propagates_store_failure embed docs hs e vs' :
  VectorStore.add_documents embed docs (HybridSearch.vector_store hs)
  = (Raises e, vs') ->
  HybridSearch.index_documents embed docs hs
  = (Raises e, HybridSearch.set_vector_store vs' hs)
  /\ HybridSearch.bm25 (HybridSearch.set_vector_store vs' hs)
     = HybridSearch.bm25 hs
  /\ HybridSearch.doc_ids (HybridSearch.set_vector_store vs' hs)
     = HybridSearch.doc_ids hs
  /\ (exn_cls e <> IndexError -> HybridSearch.set_vector_store vs' hs = hs).
Proof.
  intros Hadd. unfold HybridSearch.index_documents.
  unfold bind, on_field. rewrite Hadd. repeat split.
  intros Hcls.
  rewrite (add_documents_raise_frame _ _ _ _ _ Hadd Hcls).
  apply set_vector_store_same.
Qed.

(** ** Storing and looking up *)

Lemma enumerate_from_In {A} (l : list A) :
  forall (i : Z) (k : nat) (x : A),
    nth_error l k = Some x -> In (i + Z.of_nat k, x) (enumerate_from i l).
Proof.
  induction l as [|y l IH]; intros i [|k] x; simpl; try discriminate.
  - intros [= ->]. left. f_equal. lia.
  - intros H. right. apply (IH (i + 1)) in H.
    replace (i + Z.pos (Pos.of_succ_nat k)) with (i + 1 + Z.of_nat k) by lia.
    exact H.
Qed.

Lemma store_documents_lookup embs start (l : list (Z * Document)) :
  forall s s',
    NoDup (map (fun p => id (snd p)) l) ->
    VectorStore.store_documents embs start l s = (Returns tt, s') ->
    (forall p, In p l ->
       exists e,
         nth_error embs (Z.to_nat (fst p)) = Some e
         /\ PyDict.get (VectorStore.documents s') (id (snd p))
            = Some (with_embedding (snd p) e)
         /\ PyDict.get (VectorStore.id_to_idx s') (id (snd p))
            = Some (start + fst p))
    /\ (forall i, ~ In i (map (fun p => id (snd p)) l) ->
          PyDict.get (VectorStore.documents s') i
          = PyDict.get (VectorStore.documents s) i
          /\ PyDict.get (VectorStore.id_to_idx s') i
             = PyDict.get (VectorStore.id_to_idx s) i).
Proof.
  induction l as [|[k doc] l IH]; intros s s' Hnd; simpl.
  - run. intros [= <-]. split; [intros p [] | intros i _; split; reflexivity].
  - inversion Hnd as [|? ? Hnot Hnd']; subst. simpl in Hnot.
    destruct (nth_error embs (Z.to_nat k)) as [e|] eqn:He; [|discriminate].
    run. intros Hrun. apply IH in Hrun; trivial.
    destruct Hrun as [Hin Hout]. simpl in Hout. split.
    + intros p [<-|Hp]; [|now apply Hin].
      simpl. exists e. split; [exact He|].
      destruct (Hout (id doc) Hnot) as [Hd Hi].
      rewrite Hd, Hi, !get_set_same. split; reflexivity.
    + intros i Hi.
      destruct (Hout i) as [Hd Hx]; [tauto|].
      rewrite Hd, Hx.
      rewrite !get_set_other by (intros Heq; apply Hi; now left).
      split; reflexivity.
Qed.

(** X10. After a successful [add_documents] of a batch with pairwise
    distinct ids, [get_document] finds every chunk of the batch under its
    id, carrying the vector the embedding client returned at the chunk's
    position; every other id resolves as it did before (an unknown id
    still gives [None]). *)
Theorem add_documents_then_get_document embed docs vs vs' :
  docs <> [] ->
  NoDup (map id docs) ->
  VectorStore.add_documents embed docs vs = (Returns tt, vs') ->
  exists embs,
    embed (map content docs) (VectorStore.embedding_model_name vs) document
    = Returns embs
    /\ (forall k doc,
          nth_error docs k = Some doc ->
          exists e,
            nth_error embs k = Some e
            /\ VectorStore.get_document (id doc) vs'
               = (Returns (Some (with_embedding doc e)), vs'))
    /\ (forall i,
          ~ In i (map id docs) ->
          fst (VectorStore.get_document i vs')
          = fst (VectorStore.get_document i vs)).
Proof.
  intros Hne Hnd. unfold VectorStore.add_documents.
  destruct docs as [|doc0 docs0]; [congruence|].
  remember (doc0 :: docs0) as docs eqn:Hdocs.
  unfold bind, get_self, put_self, lift, ret.
  destruct (embed (map content docs) (VectorStore.embedding_model_name vs)
                  document) as [embs|e] eqn:Hemb; [|discriminate].
  destruct (np_array embs) as [m|e] eqn:Hnp; [|discriminate].
  apply np_array_returns in Hnp. subst m.
  destruct (Faiss.add (VectorStore.index vs) embs) as [idx'|e]; [|discriminate].
  intros Hrun. apply store_documents_lookup in Hrun.
  2:{ unfold enumerate.
      rewrite <- (map_map snd id), enumerate_from_snd. exact Hnd. }
  destruct Hrun as [Hin Hout]. exists embs. split; [reflexivity|]. split.
  - intros k doc Hk.
    destruct (Hin (0 + Z.of_nat k, doc)) as (e & He & Hd & _).
    { apply enumerate_from_In. exact Hk. }
    simpl in He, Hd. rewrite Nat2Z.id in He.
    exists e. split; [exact He|].
    unfold VectorStore.get_document, bind, get_self, ret. now rewrite Hd.
  - intros i Hi. unfold VectorStore.get_document, bind, get_self, ret. simpl.
    destruct (Hout i) as [Hd _]; [|now rewrite Hd].
    unfold enumerate.
    rewrite <- (map_map snd id), enumerate_from_snd. exact Hi.
Qed.

(** X11. [clear] starts the store over: every earlier chunk is gone, and
    the chunks added next take the slots from 0 on, in batch order. *)
Theorem clear_restarts_slots embed vs docs vs' :
  NoDup (map id docs) ->
  VectorStore.add_documents embed docs (snd (VectorStore.clear vs))
  = (Returns tt, vs') ->
  map fst (VectorStore.id_to_idx vs') = map id docs
  /\ map snd (VectorStore.id_to_idx vs') = slots (List.length docs)
  /\ PyDict.keys (VectorStore.documents vs') = map id docs
  /\ forall i, ~ In i (map id docs) ->
               VectorStore.get_document i vs' = (Returns None, vs').
Proof.
  intros Hnd Hadd.
  set (vs0 := snd (VectorStore.clear vs)) in *.
  assert (Hd0 : VectorStore.documents vs0 = []) by reflexivity.
  assert (Hi0 : VectorStore.id_to_idx vs0 = []) by reflexivity.
  assert (Hx0 : Faiss.ntotal (VectorStore.index vs0) = 0) by reflexivity.
  destruct docs as [|doc0 docs0].
  { simpl in Hadd. injection Hadd as <-. rewrite Hd0, Hi0.
    repeat split. }
  remember (doc0 :: docs0) as docs eqn:Hdocs.
  apply add_documents_fresh in Hadd;
    [ | subst docs; discriminate | exact Hnd
      | intros doc _; rewrite Hd0; tauto | now rewrite Hd0, Hi0 ].
  - destruct Hadd as (embs & added & _ & _ & Hd & Hf & _ & Hi).
    rewrite Hd0 in Hd. rewrite Hi0, Hx0 in Hi. simpl in Hd, Hi.
    assert (Hkeys : PyDict.keys (VectorStore.documents vs') = map id docs).
    { unfold PyDict.keys. now rewrite Hd. }
    repeat split; trivial.
    + rewrite Hi, map_map. simpl. unfold enumerate.
      rewrite <- (enumerate_from_snd 0 docs) at 2. now rewrite map_map.
    + rewrite Hi, map_map. simpl. unfold enumerate.
      rewrite <- (map_map fst (fun z => z)), map_id, enumerate_from_fst.
      reflexivity.
    + intros i Hout.
      unfold VectorStore.get_document, bind, get_self, ret.
      rewrite <- Hkeys in Hout. apply get_None_iff in Hout. now rewrite Hout.
Qed.

(** ** The QA orchestrator, beyond the failure paths *)

Lemma append_assoc_string (a b c : string) :
  ((a ++ b) ++ c)%string = (a ++ b ++ c)%string.
Proof. induction a as [|ch a IH]; simpl; [reflexivity | now rewrite IH]. Qed.

Lemma contains_refl (s : string) : contains s s.
Proof. exists "", "". simpl. now rewrite append_empty_r. Qed.

Lemma contains_append_l (a b x : string) :
  contains a x -> contains (a ++ b)%string x.
Proof.
  intros (pre & post & ->). exists pre, (post ++ b)%string.
  now rewrite !append_assoc_string.
Qed.

Lemma contains_append_r (a b x : string) :
  contains b x -> contains (a ++ b)%string x.
Proof.
  intros (pre & post & ->). exists (a ++ pre)%string, post.
  now rewrite !append_assoc_string.
Qed.

Lemma contains_join (sep : string) (parts : list string) (p x : string) :
  In p parts -> contains p x -> contains (join sep parts) x.
Proof.
  unfold join. induction parts as [|y parts IH]; simpl; [tauto|].
  intros [->|Hin] Hx.
  - destruct parts; [exact Hx | now apply contains_append_l].
  - destruct parts as [|z parts]; [destruct Hin|].
    apply contains_append_r, contains_append_r. now apply IH.
Qed.

(** Walks a right-nested concatenation until [tac] finds the part. *)
Ltac find_part tac :=
  repeat first [ solve [apply contains_append_l; tac]
               | apply contains_append_r ].

Section QAMore.
Variable cfg : Config.
Variable embed : embedder.
Variable score : scorer.
Variable generate : generator.

(** X12. When retrieval yields chunks and the generation call returns,
    [query] returns the generated text as the answer, one source per
    retrieved chunk in rank order (its relevance the chunk's score, its
    preview the chunk's content), and the score of the top-ranked chunk as
    confidence.  Exactly one request is sent, and the retriever is left
    as it was. *)
Theorem query_success question top_k bot r rs a :
  retrieval cfg embed score question top_k bot = Returns (r :: rs) ->
  generate (request_of bot question (r :: rs)) = Returns a ->
  let (out, bot') := QABot.query cfg embed score generate question top_k bot in
  exists ans,
    out = Returns ans
    /\ QABot.answer ans = a
    /\ QABot.confidence ans = snd r
    /\ map QABot.relevance (QABot.sources ans) = map snd (r :: rs)
    /\ map QABot.preview (QABot.sources ans)
       = map (fun x => content (fst x)) (r :: rs)
    /\ OpenAI.requests (QABot.client bot')
       = OpenAI.requests (QABot.client bot)
           ++ [request_of bot question (r :: rs)]
    /\ QABot.hybrid_search bot' = QABot.hybrid_search bot.
Proof.
  intros Hr Hg. rewrite query_unfold, Hr.
  unfold QABot.generate_answer, OpenAI.create. run.
  unfold request_of in Hg. rewrite Hg. simpl.
  eexists. split; [reflexivity|]. simpl.
  unfold QABot._format_sources. rewrite !map_map. simpl.
  repeat split.
Qed.

(** X13. The retrieval step of [query] is outside its [try] block: an
    exception raised while retrieving (the embedding client failing on
    the question, say) is not turned into an answer but propagates to the
    caller; nothing is sent to the generation client and the bot is left
    as it was. *)
Theorem query_propagates_retrieval_failure question top_k bot e :
  retrieval cfg embed score question top_k bot = Raises e ->
  QABot.query cfg embed score generate question top_k bot = (Raises e, bot).
Proof.
  intros Hr. now rewrite query_unfold, Hr.
Qed.
End QAMore.

Lemma build_context_contains (results : list (Document * Q)) doc s x :
  In (doc, s) results ->
  (contains (content doc) x
   \/ contains ("File: " ++ QABot.get_or (metadata doc) "file_path" "Unknown")
               x) ->
  contains (QABot._build_context results) x.
Proof.
  intros Hin Hx. unfold QABot._build_context.
  destruct (In_nth_error _ _ Hin) as [n Hn].
  apply (enumerate_from_In results 1 n) in Hn.
  eapply contains_join.
  - apply in_map_iff. eexists. split; [reflexivity | exact Hn].
  - cbv beta zeta. cbn [fst snd]. destruct Hx as [Hx|Hx].
    + find_part ltac:(exact Hx).
    + destruct (PyDict.get (metadata doc) "line_range");
        find_part ltac:(first [exact Hx | apply contains_append_l; exact Hx]).
Qed.

(** X14. The prompt sent for a question carries the question and, for
    every retrieved chunk, its content and its file path (or [Unknown]
    when the chunk's metadata has no [file_path]). *)
Theorem prompt_carries_question_and_chunks bot question results :
  contains (req_prompt (request_of bot question results)) question
  /\ forall doc s,
       In (doc, s) results ->
       contains (req_prompt (request_of bot question results)) (content doc)
       /\ contains (req_prompt (request_of bot question results))
                   ("File: " ++ QABot.get_or (metadata doc) "file_path" "Unknown").
Proof.
  unfold request_of. cbn [req_prompt]. unfold QABot._build_qa_prompt. split.
  - find_part ltac:(apply contains_refl).
  - intros doc s Hin. split.
    + assert (Hc : contains (QABot._build_context results) (content doc)).
      { apply (build_context_contains results doc s); [exact Hin|].
        left. apply contains_refl. }
      find_part ltac:(exact Hc).
    + assert (Hc : contains (QABot._build_context results)
                     ("File: " ++ QABot.get_or (metadata doc) "file_path"
                                     "Unknown")).
      { apply (build_context_contains results doc s); [exact Hin|].
        right. apply contains_refl. }
      find_part ltac:(exact Hc).
Qed.

(** ** The configuration check and the store constructor *)

Lemma empty_string_iff (s : string) :
  (String.length s =? 0)%nat = true <-> s = "".
Proof. destruct s; simpl; split; congruence. Qed.

Lemma supported_db_iff (db : string) :
  existsb (String.eqb db) ["faiss"; "qdrant"] = true
  <-> db = "faiss" \/ db = "qdrant".
Proof.
  simpl. rewrite !orb_true_iff, !String.eqb_eq. intuition discriminate.
Qed.

(** The errors [validate] reports, one check after the other. *)
Lemma validate_parts (cfg : Config) (db : string) :
  validate cfg db
  = (if (String.length (OPENAI_API_KEY cfg) =? 0)%nat
     then ["OPENAI_API_KEY not set in environment"] else [])
      ++ (if (String.length (VOYAGE_API_KEY cfg) =? 0)%nat
          then ["VOYAGE_API_KEY not set in environment"] else [])
      ++ (if negb (existsb (String.eqb db) ["faiss"; "qdrant"])
          then [("Invalid VECTOR_DB_TYPE: " ++ db)%string] else []).
Proof.
  unfold validate.
  destruct (_ =? _)%nat; destruct (_ =? _)%nat; destruct (negb _); reflexivity.
Qed.

(** X15. [Config.validate] reports no error exactly when both API keys are
    set and the vector database type is one of the two supported; it
    reports the missing Voyage key exactly when [VectorStore.__init__]
    would raise, with the same message.  So after a clean [validate] the
    store constructor returns a store. *)
Theorem validate_guards_store_construction
    (cfg : Config) (db : string) (model : option string) (dim : option Z)
    (gpu : bool) :
  (validate cfg db = []
   <-> OPENAI_API_KEY cfg <> "" /\ VOYAGE_API_KEY cfg <> ""
       /\ (db = "faiss" \/ db = "qdrant"))
  /\ (In "VOYAGE_API_KEY not set in environment" (validate cfg db)
      <-> VectorStore.__init__ cfg model dim gpu
          = Raises (Exn ValueError "VOYAGE_API_KEY not set in environment"))
  /\ (validate cfg db = [] ->
      exists vs, VectorStore.__init__ cfg model dim gpu = Returns vs).
Proof.
  split; [|split].
  - rewrite validate_parts. split.
    + intros H. apply app_eq_nil in H. destruct H as [H1 H].
      apply app_eq_nil in H. destruct H as [H2 H3]. repeat split.
      * intros E. apply empty_string_iff in E. rewrite E in H1. discriminate.
      * intros E. apply empty_string_iff in E. rewrite E in H2. discriminate.
      * apply supported_db_iff.
        destruct (existsb (String.eqb db) ["faiss"; "qdrant"]);
          [reflexivity | discriminate H3].
    + intros (H1 & H2 & H3).
      destruct (String.length (OPENAI_API_KEY cfg) =? 0)%nat eqn:E1;
        [apply empty_string_iff in E1; contradiction|].
      destruct (String.length (VOYAGE_API_KEY cfg) =? 0)%nat eqn:E2;
        [apply empty_string_iff in E2; contradiction|].
      apply supported_db_iff in H3. now rewrite H3.
  - rewrite validate_parts, !in_app_iff. unfold VectorStore.__init__.
    destruct (String.length (VOYAGE_API_KEY cfg) =? 0)%nat; split.
    + reflexivity.
    + intros _. right. left. now left.
    + intros [H|[H|H]].
      * destruct (String.length (OPENAI_API_KEY cfg) =? 0)%nat;
          simpl in H; [destruct H as [H|H]; [discriminate H | contradiction]
                      | contradiction].
      * contradiction.
      * destruct (negb (existsb (String.eqb db) ["faiss"; "qdrant"]));
          simpl in H; [destruct H as [H|H]; [discriminate H | contradiction]
                      | contradiction].
    + discriminate.
  - rewrite validate_parts. unfold VectorStore.__init__. intros H.
    apply app_eq_nil in H. destruct H as [_ H].
    apply app_eq_nil in H. destruct H as [H _].
    destruct (String.length (VOYAGE_API_KEY cfg) =? 0)%nat;
      [discriminate H | eexists; reflexivity].
Qed.

(** ** The chunk ids [main] generates *)

Lemma string_of_uint_digits (d : Decimal.uint) :
  all_digits (NilEmpty.string_of_uint d) = true.
Proof. induction d; simpl; trivial. Qed.

Lemma str_of_Z_digits (i : Z) : all_digits (str_of_Z i) = true.
Proof. apply string_of_uint_digits. Qed.

Lemma str_of_Z_inj (i j : Z) :
  0 <= i -> 0 <= j -> str_of_Z i = str_of_Z j -> i = j.
Proof.
  unfold str_of_Z. intros Hi Hj H.
  assert (Hu : N.to_uint (Z.to_N i) = N.to_uint (Z.to_N j)).
  { pose proof (NilEmpty.usu (N.to_uint (Z.to_N i))) as H1.
    pose proof (NilEmpty.usu (N.to_uint (Z.to_N j))) as H2.
    rewrite H in H1. congruence. }
  apply DecimalN.Unsigned.to_uint_inj in Hu. lia.
Qed.

Lemma digits_then_underscore (a r : string) :
  all_digits (a ++ String "_" r) = false.
Proof.
  induction a as [|c a IH]; simpl; [reflexivity|].
  rewrite IH. apply andb_false_r.
Qed.

(** Two texts that start with digits and go on with an underscore agree
    on the digits and on the rest. *)
Lemma digits_split (a : string) :
  forall b r r',
    all_digits a = true -> all_digits b = true ->
    (a ++ String "_" r)%string = (b ++ String "_" r')%string ->
    a = b /\ r = r'.
Proof.
  induction a as [|c a IH]; intros [|c' b] r r' Ha Hb; simpl.
  - intros [= ->]. split; reflexivity.
  - intros [= <- _]. simpl in Hb. discriminate Hb.
  - intros [= -> _]. simpl in Ha. discriminate Ha.
  - intros [= <- H]. simpl in Ha, Hb.
    apply andb_true_iff in Ha. apply andb_true_iff in Hb.
    destruct (IH b r r') as [-> ->]; try tauto.
Qed.

(** A chunk id names one place only. *)
Lemma render_inj (k k' : chunk_key) :
  0 <= fst k -> 0 <= fst k' ->
  (forall j, snd k = Some j -> 0 <= j) ->
  (forall j, snd k' = Some j -> 0 <= j) ->
  render k = render k' -> k = k'.
Proof.
  destruct k as [i [j|]], k' as [i' [j'|]]; unfold render; simpl;
    intros Hi Hi' Hj Hj' [= H].
  - apply digits_split in H; try apply str_of_Z_digits.
    destruct H as [H1 [= H2]].
    apply str_of_Z_inj in H1; trivial.
    apply str_of_Z_inj in H2; [congruence | now apply Hj | now apply Hj'].
  - apply (f_equal all_digits) in H.
    rewrite digits_then_underscore, str_of_Z_digits in H. discriminate.
  - apply (f_equal all_digits) in H.
    rewrite digits_then_underscore, str_of_Z_digits in H. discriminate.
  - apply str_of_Z_inj in H; trivial. congruence.
Qed.

Lemma enumerate_indices {A} (l : list A) :
  map fst (enumerate l) = slots (List.length l).
Proof.
  unfold enumerate, slots. rewrite enumerate_from_fst.
  apply map_ext. intros n. lia.
Qed.

(** The ids of the documents of one file: the file's, then one per code
    element. *)
Lemma file_block_ids (i : Z) (analysis : FileAnalysis.t)
    (summary : FileSummary.t) :
  map id (Main.file_doc i summary
            :: map (fun je => Main.code_doc i (fst je) summary (snd je))
                   (enumerate (FileAnalysis.elements analysis)))
  = render (i, None)
      :: map (fun j => render (i, Some j))
             (slots (List.length (FileAnalysis.elements analysis))).
Proof.
  simpl. f_equal. rewrite map_map.
  rewrite <- enumerate_indices, map_map. reflexivity.
Qed.

Lemma file_block_NoDup (i : Z) (n : nat) :
  0 <= i ->
  NoDup (render (i, None) :: map (fun j => render (i, Some j)) (slots n)).
Proof.
  intros Hi. constructor.
  - intros Hin. apply in_map_iff in Hin. destruct Hin as (j & Hj & Hin).
    apply slots_In in Hin.
    apply render_inj in Hj; simpl; try lia; try discriminate.
    intros j' [= <-]. lia.
  - apply Finite.Injective_map_NoDup_in; [|apply slots_NoDup].
    intros x y Hx Hy H. apply slots_In in Hx. apply slots_In in Hy.
    apply render_inj in H; simpl; try lia; try congruence.
    + intros j' [= <-]. lia.
    + intros j' [= <-]. lia.
Qed.

Lemma map_flat_map {A B C} (f : B -> C) (g : A -> list B) (l : list A) :
  map f (flat_map g l) = flat_map (fun x => map f (g x)) l.
Proof.
  induction l as [|x l IH]; simpl; [reflexivity|].
  now rewrite map_app, IH.
Qed.

(** The ids [main] generates, file after file. *)
Lemma documents_ids (file_analyses : list FileAnalysis.t)
    (file_summaries : list FileSummary.t) :
  map id (Main.documents file_analyses file_summaries)
  = flat_map
      (fun ias =>
         render (fst ias, None)
           :: map (fun j => render (fst ias, Some j))
                  (slots (List.length
                            (FileAnalysis.elements (fst (snd ias))))))
      (enumerate (combine file_analyses file_summaries)).
Proof.
  unfold Main.documents. rewrite map_flat_map.
  apply flat_map_ext. intros ias. apply file_block_ids.
Qed.

Lemma rendered_blocks_NoDup (pairs : list (FileAnalysis.t * FileSummary.t)) :
  forall k,
    0 <= k ->
    let ids :=
      flat_map
        (fun ias =>
           render (fst ias, None)
             :: map (fun j => render (fst ias, Some j))
                    (slots (List.length
                              (FileAnalysis.elements (fst (snd ias))))))
        (enumerate_from k pairs) in
    NoDup ids
    /\ forall x, In x ids ->
                 exists key, x = render key /\ k <= fst key
                             /\ forall j, snd key = Some j -> 0 <= j.
Proof.
  induction pairs as [|[analysis summary] pairs IH]; intros k Hk;
    cbn [enumerate_from flat_map fst snd].
  - split; [constructor | intros x []].
  - destruct (IH (k + 1)) as [Hnd Hkeys]; [lia|].
    cbv zeta in Hnd, Hkeys.
    set (rest := flat_map _ (enumerate_from (k + 1) pairs)) in *.
    set (n := List.length (FileAnalysis.elements analysis)).
    assert (Hhead : forall x,
              In x (render (k, None)
                      :: map (fun j => render (k, Some j)) (slots n)) ->
              exists key, x = render key /\ fst key = k
                          /\ forall j, snd key = Some j -> 0 <= j).
    { intros x [<-|Hin].
      - exists (k, None). repeat split. discriminate.
      - apply in_map_iff in Hin. destruct Hin as (j & <- & Hj).
        apply slots_In in Hj. exists (k, Some j). repeat split.
        intros j' [= <-]. lia. }
    split.
    + apply NoDup_app; [apply (file_block_NoDup k n Hk) | exact Hnd |].
      intros x Hx Hx'.
      destruct (Hhead x Hx) as (key & -> & Hfst & Hj).
      destruct (Hkeys _ Hx') as (key' & Heq & Hfst' & Hj').
      apply render_inj in Heq; trivial; try lia. subst key'. lia.
    + intros x Hin. apply in_app_or in Hin. destruct Hin as [Hin|Hin].
      * destruct (Hhead x Hin) as (key & -> & Hfst & Hj).
        exists key. repeat split; [lia | exact Hj].
      * destruct (Hkeys x Hin) as (key & -> & Hfst & Hj).
        exists key. repeat split; [lia | exact Hj].
Qed.

Lemma enumerate_from_length {A} (i : Z) (l : list A) :
  List.length (enumerate_from i l) = List.length l.
Proof.
  revert i. induction l as [|x l IH]; intros i; simpl; [reflexivity|].
  now rewrite IH.
Qed.

Lemma documents_count_from (pairs : list (FileAnalysis.t * FileSummary.t)) :
  forall k,
    List.length
      (flat_map
         (fun ias =>
            Main.file_doc (fst ias) (snd (snd ias))
              :: map (fun je => Main.code_doc (fst ias) (fst je)
                                  (snd (snd ias)) (snd je))
                     (enumerate (FileAnalysis.elements (fst (snd ias)))))
         (enumerate_from k pairs))
    = (List.length pairs
       + list_sum (map (fun p => List.length (FileAnalysis.elements (fst p)))
                       pairs))%nat.
Proof.
  induction pairs as [|[analysis summary] pairs IH]; intros k;
    cbn [enumerate_from flat_map fst snd]; [reflexivity|].
  rewrite length_app, IH. cbn [List.length]. rewrite length_map.
  unfold enumerate. rewrite enumerate_from_length.
  simpl. lia.
Qed.

(** X16. The chunks [main] builds for the index carry pairwise distinct
    ids, whatever the parsed files and summaries; there is one chunk per
    summarised file and one per parsed code element of it. *)
Theorem main_documents_have_distinct_ids
    (file_analyses : list FileAnalysis.t)
    (file_summaries : list FileSummary.t) :
  NoDup (map id (Main.documents file_analyses file_summaries))
  /\ List.length (Main.documents file_analyses file_summaries)
     = (List.length (combine file_analyses file_summaries)
        + list_sum
            (map (fun p => List.length (FileAnalysis.elements (fst p)))
                 (combine file_analyses file_summaries)))%nat.
Proof.
  split.
  - rewrite documents_ids.
    apply (rendered_blocks_NoDup (combine file_analyses file_summaries) 0).
    lia.
  - apply documents_count_from.
Qed.

(** X17. Steps 4 of [main] - a store, a retriever over it, and one
    [index_documents] call with the chunks built from the parsed files -
    leave the retriever in an indexed state whenever the call returns, so
    the properties of indexed retrievers hold for the deployed index. *)
Theorem main_builds_an_indexed_retriever
    embed cfg vs hs (file_analyses : list FileAnalysis.t)
    (file_summaries : list FileSummary.t) :
  VectorStore.__init__ cfg None None false = Returns vs ->
  HybridSearch.index_documents embed
    (Main.documents file_analyses file_summaries)
    (HybridSearch.__init__ cfg vs None)
  = (Returns tt, hs) ->
  indexed embed hs
  /\ HybridSearch.doc_ids hs
     = map id (Main.documents file_analyses file_summaries).
Proof.
  intros Hinit Hrun. split.
  - eapply indexed_more; [| | | exact Hrun].
    + now apply (indexed_new embed cfg None None false).
    + rewrite documents_ids.
      apply (rendered_blocks_NoDup (combine file_analyses file_summaries) 0).
      lia.
    + intros doc _. simpl.
      unfold VectorStore.__init__ in Hinit.
      destruct (_ =? _)%nat in Hinit; [discriminate|].
      injection Hinit as <-. reflexivity.
  - apply index_documents_returns in Hrun.
    destruct Hrun as (_ & vs' & _ & ->). reflexivity.
Qed.

(** ** Indexing the same chunks twice *)

Section Stability.
Context {A : Type} (better : A -> A -> bool) (p : A -> bool).
Hypothesis apart : forall y x, better y x = true -> p y = true -> p x = false.

Lemma insert_by_filter (x : A) (l : list A) :
  filter p (insert_by better x l) = filter p (x :: l).
Proof.
  induction l as [|y l IH]; [reflexivity|].
  simpl insert_by. destruct (better y x) eqn:Hb; [|reflexivity].
  simpl. simpl in IH. rewrite IH.
  destruct (p y) eqn:Hy; [|reflexivity].
  now rewrite (apart y x Hb Hy).
Qed.

(** The sort is stable: the elements that satisfy [p], which none of them
    beats another, come out in the order they went in. *)
Lemma stable_sort_filter (l : list A) :
  filter p (stable_sort better l) = filter p l.
Proof.
  unfold stable_sort. induction l as [|x l IH]; [reflexivity|].
  simpl fold_right. rewrite insert_by_filter. simpl. now rewrite IH.
Qed.
End Stability.

Lemma sorted_by_score_desc_tied {A} (s : Q) (l : list (A * Q)) :
  tied s (sorted_by_score_desc l) = tied s l.
Proof.
  unfold tied, sorted_by_score_desc. apply stable_sort_filter.
  intros y x Hb Hy. apply Qlt_bool_iff in Hb. apply Qeq_bool_iff in Hy.
  destruct (Qeq_bool (snd x) s) eqn:E; [|reflexivity].
  apply Qeq_bool_iff in E. rewrite E, Hy in Hb.
  exfalso. exact (Qlt_irrefl s Hb).
Qed.

Lemma slice_to_firstn {A} (l : list A) (k : Z) :
  exists n, slice_to l k = firstn n l.
Proof. unfold slice_to. destruct (k <? 0); eexists; reflexivity. Qed.

Lemma filter_firstn_opens {A} (p : A -> bool) (n : nat) (l : list A) :
  opens (filter p (firstn n l)) (filter p l).
Proof.
  exists (filter p (skipn n l)). now rewrite <- filter_app, firstn_skipn.
Qed.

(** The ranking of [search] breaks ties by insertion order of
    [combined_scores]. *)
Lemma ranked_ties (combined : PyDict.t string Q) (top_k : Z) :
  ties_in_pool_order (PyDict.items combined) (ranked combined top_k).
Proof.
  intros s. unfold ranked.
  destruct (slice_to_firstn (sorted_by_score_desc (PyDict.items combined))
                            top_k) as [n ->].
  rewrite <- (sorted_by_score_desc_tied s (PyDict.items combined)).
  apply filter_firstn_opens.
Qed.

Section DictOrder.
Context {K V : Type} `{Hashable K}.
Implicit Types (d : PyDict.t K V) (k : K) (v : V).

Lemma keys_set_present d k v :
  In k (PyDict.keys d) -> PyDict.keys (PyDict.set d k v) = PyDict.keys d.
Proof.
  induction d as [|[k0 v0] d IH]; simpl; [tauto|].
  intros Hin. destruct (key_eqb_spec k k0) as [->|Hne]; [reflexivity|].
  simpl. f_equal. apply IH. destruct Hin as [->|Hin]; [congruence | exact Hin].
Qed.

Lemma mem_set d k v k' :
  PyDict.mem (PyDict.set d k v) k'
  = (if key_eqb k' k then true else PyDict.mem d k').
Proof.
  unfold PyDict.mem. destruct (key_eqb_spec k' k) as [->|Hne].
  - now rewrite get_set_same.
  - rewrite get_set_other; [reflexivity | congruence].
Qed.
End DictOrder.

Lemma add_bm25_keys_fresh a pairs (d : PyDict.t string Q) :
  NoDup (PyDict.keys d ++ map fst pairs) ->
  PyDict.keys (HybridSearch.add_bm25 a pairs d) = PyDict.keys d ++ map fst pairs.
Proof.
  unfold HybridSearch.add_bm25. revert d.
  induction pairs as [|[i x] pairs IH]; intros d Hnd; simpl.
  - now rewrite app_nil_r.
  - assert (Hfresh : ~ In i (PyDict.keys d)).
    { apply NoDup_remove_2 in Hnd. intros Hin. apply Hnd, in_or_app. now left. }
    rewrite (set_fresh (V:=Q)) by exact Hfresh.
    rewrite IH.
    + unfold PyDict.keys. rewrite map_app. simpl. now rewrite <- app_assoc.
    + unfold PyDict.keys. rewrite map_app. simpl. now rewrite <- app_assoc.
Qed.

Lemma add_semantic_keys_order a sem (d : PyDict.t string Q) :
  NoDup (ids_of sem) ->
  PyDict.keys (HybridSearch.add_semantic a sem d)
  = PyDict.keys d ++ filter (fun i => negb (PyDict.mem d i)) (ids_of sem).
Proof.
  unfold HybridSearch.add_semantic, ids_of. revert d.
  induction sem as [|[doc s] sem IH]; intros d Hnd; simpl in *.
  - now rewrite app_nil_r.
  - inversion Hnd as [|? ? Hnot Hnd']; subst. rewrite (IH _ Hnd'). clear IH.
    assert (Hrest : forall v,
              filter (fun i => negb (PyDict.mem (PyDict.set d (id doc) v) i))
                     (map (fun r => id (fst r)) sem)
              = filter (fun i => negb (PyDict.mem d i))
                       (map (fun r => id (fst r)) sem)).
    { intros v. apply filter_ext_in. intros i Hi. rewrite (mem_set (V:=Q)).
      destruct (key_eqb_spec i (id doc)) as [->|_]; [contradiction|].
      reflexivity. }
    destruct (PyDict.get d (id doc)) as [c|] eqn:Hg.
    + assert (Hm : PyDict.mem d (id doc) = true)
        by (unfold PyDict.mem; now rewrite Hg).
      rewrite Hm, Hrest. simpl.
      now rewrite (keys_set_present (V:=Q))
        by (now apply (mem_true_iff (V:=Q))).
    + assert (Hm : PyDict.mem d (id doc) = false)
        by (unfold PyDict.mem; now rewrite Hg).
      rewrite Hm, Hrest. simpl.
      rewrite (set_fresh (V:=Q)) by (now apply (get_None_iff (V:=Q))).
      unfold PyDict.keys. rewrite map_app. simpl. now rewrite <- app_assoc.
Qed.

Lemma combine_fst_all {A B} (l : list A) (l' : list B) :
  (List.length l <= List.length l')%nat -> map fst (combine l l') = l.
Proof.
  revert l'. induction l as [|x l IH]; intros [|y l'] Hlen; simpl in *;
    try reflexivity; try lia.
  f_equal. apply IH. lia.
Qed.

(** The candidate pool, in insertion order: the ids of the lexical index,
    then the semantic candidates it does not cover. *)
Lemma combine_scores_keys a ids norm sem :
  NoDup ids ->
  List.length ids = List.length norm ->
  NoDup (ids_of sem) ->
  PyDict.keys (HybridSearch.combine_scores a ids norm sem)
  = ids ++ filter (fun i => negb (existsb (String.eqb i) ids)) (ids_of sem).
Proof.
  intros Hnd Hlen Hsem. unfold HybridSearch.combine_scores.
  assert (Hfst : map fst (combine ids norm) = ids)
    by (apply combine_fst_all; lia).
  assert (Hk : PyDict.keys (HybridSearch.add_bm25 a (combine ids norm)
                                                  PyDict.empty) = ids).
  { rewrite add_bm25_keys_fresh; simpl; now rewrite Hfst. }
  rewrite (add_semantic_keys_order _ _ _ Hsem), Hk. f_equal.
  apply filter_ext. intros i. f_equal.
  destruct (existsb (String.eqb i) ids) eqn:E.
  - apply (mem_true_iff (V:=Q)). rewrite Hk.
    apply existsb_exists in E. destruct E as (j & Hj & Hij).
    apply String.eqb_eq in Hij. now subst.
  - destruct (PyDict.mem _ i) eqn:Hm; [|reflexivity].
    apply (mem_true_iff (V:=Q)) in Hm. rewrite Hk in Hm.
    assert (Ht : existsb (String.eqb i) ids = true).
    { apply existsb_exists. exists i. split; [exact Hm | apply String.eqb_refl]. }
    congruence.
Qed.

Lemma normalize_length (raw norm : list Q) :
  HybridSearch.normalize raw = Returns norm ->
  List.length norm = List.length raw.
Proof.
  unfold HybridSearch.normalize. destruct (np_max raw) as [m|e]; [|discriminate].
  destruct (Qlt_bool 0 m); intros [= <-]; [apply length_map | reflexivity].
Qed.

(** Ranked ids that all resolve come back as they were ranked. *)
Lemma resolve_all_pairs docs (l : list (string * Q)) :
  incl (map fst l) (PyDict.keys docs) ->
  keyed docs ->
  map (fun r => (id (fst r), snd r)) (resolve docs l) = l.
Proof.
  intros Hincl Hkeyed. induction l as [|[i s] l IH]; simpl; [reflexivity|].
  destruct (PyDict.get docs i) as [doc|] eqn:Hd.
  - simpl. rewrite IH.
    + f_equal. f_equal. apply Hkeyed. now apply get_Some_In.
    + intros x Hx. apply Hincl. now right.
  - exfalso. apply get_None_iff in Hd. apply Hd, Hincl. now left.
Qed.

(** C2, as the code has it.  When a chunk set is indexed into a fresh
    retriever and then once more under new ids, the Document Store and
    the embedding index hold twice as many chunks and vectors as after
    the first call.  The lexical index does not grow: the second call
    rebuilds it over the second batch alone, so it keeps the corpus of
    one batch (the very corpus of the first call, the contents being the
    same) and now scores the ids of the second batch only.  Ranking stays
    deterministic: a [search] leaves the retriever untouched, so
    repeating it with the same query and [top_k] yields the very same
    outcome; and what it returns is fixed by the scores and the order of
    insertion, in non-increasing score with ties in the order of the
    candidate pool - the second batch in batch order, then the chunks of
    the first batch among the semantic candidates. *)
Theorem reindexing_doubles_store
    embed score cfg model dim gpu vs a docs1 docs2 hs1 hs2 :
  one_vector_per_text embed ->
  VectorStore.__init__ cfg model dim gpu = Returns vs ->
  map content docs2 = map content docs1 ->
  NoDup (map id docs1 ++ map id docs2) ->
  HybridSearch.index_documents embed docs1 (HybridSearch.__init__ cfg vs a)
  = (Returns tt, hs1) ->
  HybridSearch.index_documents embed docs2 hs1 = (Returns tt, hs2) ->
  (corpus_size (HybridSearch.vector_store hs2)
   = 2 * corpus_size (HybridSearch.vector_store hs1)
   /\ index_size (HybridSearch.vector_store hs2)
      = 2 * index_size (HybridSearch.vector_store hs1)
   /\ corpus_size (HybridSearch.vector_store hs1)
      = Z.of_nat (List.length docs1))
  /\ (HybridSearch.doc_ids hs1 = map id docs1
      /\ HybridSearch.doc_ids hs2 = map id docs2
      /\ HybridSearch.bm25 hs2
         = Some (BM25Okapi.mk (map (fun doc => split (content doc)) docs2))
      /\ HybridSearch.bm25 hs2 = HybridSearch.bm25 hs1)
  /\ forall q top_k,
       snd (HybridSearch.search embed score q top_k hs2) = hs2
       /\ HybridSearch.search embed score q top_k
            (snd (HybridSearch.search embed score q top_k hs2))
          = HybridSearch.search embed score q top_k hs2
       /\ forall results,
            fst (HybridSearch.search embed score q top_k hs2)
            = Returns results ->
            exists norm sem,
              HybridSearch.normalize
                (BM25Okapi.get_scores score
                   (BM25Okapi.mk (map (fun doc => split (content doc)) docs2))
                   (split q))
              = Returns norm
              /\ fst (VectorStore.search embed q (top_k * 2)
                        (HybridSearch.vector_store hs2)) = Returns sem
              /\ results
                 = resolve
                     (VectorStore.documents (HybridSearch.vector_store hs2))
                     (ranked
                        (HybridSearch.combine_scores (HybridSearch.alpha hs2)
                           (map id docs2) norm sem) top_k)
              /\ PyDict.keys
                   (HybridSearch.combine_scores (HybridSearch.alpha hs2)
                      (map id docs2) norm sem)
                 = map id docs2
                     ++ filter
                          (fun i =>
                             negb (existsb (String.eqb i) (map id docs2)))
                          (ids_of sem)
              /\ descending results
              /\ ties_in_pool_order
                   (PyDict.items
                      (HybridSearch.combine_scores (HybridSearch.alpha hs2)
                         (map id docs2) norm sem))
                   (map (fun r => (id (fst r), snd r)) results).
Proof.
  intros Hone Hinit Hsame Hnd Hrun1 Hrun2.
  destruct (reindexing_sizes _ _ _ _ _ _ _ _ _ _ _
              Hone Hinit Hsame Hnd Hrun1 Hrun2)
    as (Hix1 & Hix2 & Hsizes).
  split; [exact Hsizes|].
  pose proof Hrun1 as Hr1. apply index_documents_returns in Hr1.
  destruct Hr1 as (_ & vs1 & _ & Hhs1).
  pose proof Hrun2 as Hr2. apply index_documents_returns in Hr2.
  destruct Hr2 as (_ & vs2 & _ & Hhs2).
  assert (Hlex : HybridSearch.doc_ids hs1 = map id docs1
                 /\ HybridSearch.doc_ids hs2 = map id docs2
                 /\ HybridSearch.bm25 hs2
                    = Some (BM25Okapi.mk
                              (map (fun doc => split (content doc)) docs2))
                 /\ HybridSearch.bm25 hs2 = HybridSearch.bm25 hs1).
  { rewrite Hhs1, Hhs2. simpl. repeat split.
    rewrite <- !(map_map content split), Hsame. reflexivity. }
  split; [exact Hlex|].
  destruct Hlex as (_ & Hids & Hb & _).
  intros q top_k.
  pose proof (hybrid_search_frame embed score q top_k hs2) as Hframe.
  split; [exact Hframe|]. split; [now rewrite Hframe|].
  intros results Hres.
  destruct (indexed_consistent _ _ Hix2) as [Hc Hl].
  apply hybrid_search_returns in Hres.
  destruct Hres as [[Hnone _]|(b & norm & sem & Hb' & Hn & Hsem & ->)];
    [congruence|].
  rewrite Hb in Hb'. injection Hb' as <-.
  rewrite Hids.
  set (combined := HybridSearch.combine_scores (HybridSearch.alpha hs2)
                     (map id docs2) norm sem).
  destruct (store_search_sound _ _ _ _ _ Hc Hsem) as [Hsnd Hsget].
  assert (Hnd2 : NoDup (map id docs2)) by now apply NoDup_app_remove_l in Hnd.
  assert (Hkeys : PyDict.keys combined
                  = map id docs2
                      ++ filter
                           (fun i =>
                              negb (existsb (String.eqb i) (map id docs2)))
                           (ids_of sem)).
  { apply combine_scores_keys; trivial.
    rewrite (normalize_length _ _ Hn). unfold BM25Okapi.get_scores. simpl.
    now rewrite !length_map. }
  assert (Hpool : incl (PyDict.keys combined)
                       (PyDict.keys (VectorStore.documents
                                       (HybridSearch.vector_store hs2)))).
  { rewrite Hkeys. intros i Hi. apply in_app_or in Hi. destruct Hi as [Hi|Hi].
    - unfold lexical_ok in Hl. rewrite Hb in Hl. destruct Hl as (_ & _ & Hl).
      apply Hl. now rewrite Hids.
    - apply filter_In in Hi. destruct Hi as [Hi _].
      apply in_map_iff in Hi. destruct Hi as (r & <- & Hr).
      rewrite Forall_forall in Hsget. specialize (Hsget r Hr).
      apply get_Some_In in Hsget.
      apply in_map_iff. exists (id (fst r), fst r). split; [reflexivity|].
      exact Hsget. }
  assert (Hall : map (fun r => (id (fst r), snd r))
                     (resolve (VectorStore.documents
                                 (HybridSearch.vector_store hs2))
                              (ranked combined top_k))
                 = ranked combined top_k).
  { apply resolve_all_pairs; [|apply Hc].
    intros i Hi. apply Hpool. apply in_map_iff in Hi.
    destruct Hi as ([j s] & <- & Hin). apply ranked_In in Hin.
    apply in_map_iff. exists (j, s). split; [reflexivity | exact Hin]. }
  exists norm, sem. split; [exact Hn|]. split; [exact Hsem|].
  split; [reflexivity|]. split; [exact Hkeys|]. split.
  - apply resolve_descending. unfold ranked.
    apply slice_to_sorted, sorted_by_score_desc_sorted.
  - rewrite Hall. apply ranked_ties.
Qed.

Lemma reindexing_doubles_store_witness :
  (corpus_size (HybridSearch.vector_store Demo.pets_twice)
   = 2 * corpus_size (HybridSearch.vector_store Demo.pets)
   /\ index_size (HybridSearch.vector_store Demo.pets_twice)
      = 2 * index_size (HybridSearch.vector_store Demo.pets)
   /\ corpus_size (HybridSearch.vector_store Demo.pets)
      = Z.of_nat (List.length [Demo.cat; Demo.dogs]))
  /\ (HybridSearch.doc_ids Demo.pets = map id [Demo.cat; Demo.dogs]
      /\ HybridSearch.doc_ids Demo.pets_twice = map id [Demo.cat'; Demo.dogs']
      /\ HybridSearch.bm25 Demo.pets_twice
         = Some (BM25Okapi.mk
                   (map (fun doc => split (content doc))
                        [Demo.cat'; Demo.dogs']))
      /\ HybridSearch.bm25 Demo.pets_twice = HybridSearch.bm25 Demo.pets)
  /\ forall q top_k,
       snd (HybridSearch.search Demo.embed Demo.overlap q top_k Demo.pets_twice)
       = Demo.pets_twice
       /\ HybridSearch.search Demo.embed Demo.overlap q top_k
            (snd (HybridSearch.search Demo.embed Demo.overlap q top_k
                    Demo.pets_twice))
          = HybridSearch.search Demo.embed Demo.overlap q top_k Demo.pets_twice
       /\ forall results,
            fst (HybridSearch.search Demo.embed Demo.overlap q top_k
                   Demo.pets_twice)
            = Returns results ->
            exists norm sem,
              HybridSearch.normalize
                (BM25Okapi.get_scores Demo.overlap
                   (BM25Okapi.mk
                      (map (fun doc => split (content doc))
                           [Demo.cat'; Demo.dogs']))
                   (split q))
              = Returns norm
              /\ fst (VectorStore.search Demo.embed q (top_k * 2)
                        (HybridSearch.vector_store Demo.pets_twice))
                 = Returns sem
              /\ results
                 = resolve
                     (VectorStore.documents
                        (HybridSearch.vector_store Demo.pets_twice))
                     (ranked
                        (HybridSearch.combine_scores
                           (HybridSearch.alpha Demo.pets_twice)
                           (map id [Demo.cat'; Demo.dogs']) norm sem) top_k)
              /\ PyDict.keys
                   (HybridSearch.combine_scores
                      (HybridSearch.alpha Demo.pets_twice)
                      (map id [Demo.cat'; Demo.dogs']) norm sem)
                 = map id [Demo.cat'; Demo.dogs']
                     ++ filter
                          (fun i =>
                             negb (existsb (String.eqb i)
                                           (map id [Demo.cat'; Demo.dogs'])))
                          (ids_of sem)
              /\ descending results
              /\ ties_in_pool_order
                   (PyDict.items
                      (HybridSearch.combine_scores
                         (HybridSearch.alpha Demo.pets_twice)
                         (map id [Demo.cat'; Demo.dogs']) norm sem))
                   (map (fun r => (id (fst r), snd r)) results).
Proof.
  apply (reindexing_doubles_store Demo.embed Demo.overlap Demo.cfg
           None None false Demo.empty_store None
           [Demo.cat; Demo.dogs] [Demo.cat'; Demo.dogs']
           Demo.pets Demo.pets_twice).
  - exact demo_embed_one_vector_per_text.
  - reflexivity.
  - reflexivity.
  - repeat constructor; simpl; intuition discriminate.
  - vm_compute. reflexivity.
  - vm_compute. reflexivity.
Defined.

(** C2, as stated, fails: the corpus of the retriever does not double.
    After [cat] and [dogs] are indexed and then their copies [cat'] and
    [dogs'] under the ids 3 and 4, the store holds 4 chunks, but the
    lexical index still holds a corpus of 2 and scores the ids 3 and 4
    alone.  For the query [cat mat], chunk 1, ranked first before the
    second call, is left with its semantic share only, far below its copy
    of the same content; for a query without lexical overlap the copies
    tie and come in the order of the pool, 3 before 1. *)
Lemma reindexing_keeps_lexical_corpus_of_one_batch :
  corpus_size (HybridSearch.vector_store Demo.pets_twice) = 4
  /\ HybridSearch.doc_ids Demo.pets_twice = ["3"; "4"]
  /\ match HybridSearch.bm25 Demo.pets_twice with
     | Some b => List.length (BM25Okapi.corpus b) = 2%nat
     | None => False
     end
  /\ match fst (HybridSearch.search Demo.embed Demo.overlap "cat mat" 4
                  Demo.pets) with
     | Returns rs =>
         map (fun r => (id (fst r), snd r)) rs
         = [("1", 972 # 1936); ("2", 4 # 2672)]
     | Raises _ => False
     end
  /\ match fst (HybridSearch.search Demo.embed Demo.overlap "cat mat" 4
                  Demo.pets_twice) with
     | Returns rs =>
         map (fun r => (id (fst r), snd r)) rs
         = [("3", 972 # 1936); ("1", 1 # 484);
            ("4", 4 # 2672); ("2", 1 # 668)]
     | Raises _ => False
     end
  /\ match fst (HybridSearch.search Demo.embed Demo.overlap "zebra" 4
                  Demo.pets_twice) with
     | Returns rs =>
         map (fun r => (id (fst r), snd r)) rs
         = [("3", 2 # 1260); ("1", 1 # 630);
            ("4", 2 # 1668); ("2", 1 # 834)]
     | Raises _ => False
     end.
Proof. vm_compute. repeat split. Qed.

(** ** The query route *)

Section Web.
Variable cfg : Config.
Variable embed : embedder.
Variable score : scorer.
Variable generate : generator.
Variable jsonify : QABot.Answer -> outcome unit.

(** The route on a request that carries a question, with a bot in place. *)
Lemma web_query_with_bot data question bot :
  PyDict.get data "question" = Some question ->
  question <> "" ->
  WebApp.query cfg embed score generate jsonify data (Some bot)
  = match QABot.query cfg embed score generate question None bot with
    | (Returns ans, bot') =>
        match jsonify ans with
        | Returns _ => (Returns (WebApp.result ans, 200), Some bot')
        | Raises e => (Returns (WebApp.error (exn_str e), 500), Some bot')
        end
    | (Raises e, bot') => (Returns (WebApp.error (exn_str e), 500), Some bot')
    end.
Proof.
  intros Hq Hne. unfold WebApp.query, WebApp.ask. rewrite Hq.
  destruct question as [|c question]; [contradiction|]. run.
  destruct (QABot.query cfg embed score generate (String c question) None bot)
    as [[ans|e] bot']; [|reflexivity].
  destruct (jsonify ans); reflexivity.
Qed.

(** X18. The route [/api/query], for a request with a non-empty question
    and a bot in place, treats the failures behind it differently.  An
    exception raised while retrieving comes back as status 500 with the
    exception's text as [error].  A failure of the generation call is
    turned into an answer that starts with [Error: ] and has no sources.
    An answer of the bot - that one, a generated one or the canned one -
    comes back with status 200 when [jsonify] encodes it, and as status
    500 with the encoder's text as [error] when it does not. *)
Theorem web_query_statuses data question bot :
  PyDict.get data "question" = Some question ->
  question <> "" ->
  let (out, app') :=
    WebApp.query cfg embed score generate jsonify data (Some bot) in
  match retrieval cfg embed score question None bot with
  | Raises e =>
      out = Returns (WebApp.error (exn_str e), 500) /\ app' = Some bot
  | Returns [] =>
      match jsonify QABot.insufficient with
      | Returns _ => out = Returns (WebApp.result QABot.insufficient, 200)
      | Raises e => out = Returns (WebApp.error (exn_str e), 500)
      end
      /\ app' = Some bot
  | Returns (r :: rs) =>
      exists ans,
        fst (QABot.query cfg embed score generate question None bot)
        = Returns ans
        /\ match generate (request_of bot question (r :: rs)) with
           | Returns a => QABot.answer ans = a
           | Raises e =>
               QABot.answer ans = ("Error: " ++ exn_str e)%string
               /\ QABot.sources ans = []
           end
        /\ match jsonify ans with
           | Returns _ => out = Returns (WebApp.result ans, 200)
           | Raises e => out = Returns (WebApp.error (exn_str e), 500)
           end
  end.
Proof.
  intros Hq Hne. rewrite (web_query_with_bot _ _ _ Hq Hne), query_unfold.
  destruct (retrieval cfg embed score question None bot) as [[|r rs]|e].
  - destruct (jsonify QABot.insufficient); split; reflexivity.
  - unfold QABot.generate_answer, OpenAI.create, request_of. run.
    destruct (generate _) as [a|e]; simpl.
    + match goal with
      | |- context [jsonify ?x] => destruct (jsonify x) eqn:Hj
      end; eexists; (split; [reflexivity|]); rewrite Hj; split; reflexivity.
    + match goal with
      | |- context [jsonify ?x] => destruct (jsonify x) eqn:Hj
      end; eexists; (split; [reflexivity|]); rewrite Hj;
        (split; [split; reflexivity | reflexivity]).
  - split; reflexivity.
Qed.

(** X19. The route [/api/query] answers every request whose body is a JSON
    object: it never raises, whatever the bot and the encoder do.  The
    status is 400 exactly when the question is missing or empty, 200
    exactly when the body is an answer of the bot, and 500 otherwise. *)
Theorem web_query_never_raises data app :
  exists body status app',
    WebApp.query cfg embed score generate jsonify data app
    = (Returns (body, status), app')
    /\ (status = 400
        <-> PyDict.get data "question" = None
            \/ PyDict.get data "question" = Some "")
    /\ (status = 200 <-> exists ans, body = WebApp.result ans)
    /\ (status = 200 \/ status = 400 \/ status = 500).
Proof.
  unfold WebApp.query, WebApp.ask.
  destruct (PyDict.get data "question") as [[|c q]|]; run.
  - do 3 eexists. split; [reflexivity|]. repeat split; try tauto.
    + discriminate.
    + intros [ans H]. discriminate.
  - destruct app as [bot|].
    + destruct (QABot.query cfg embed score generate (String c q) None bot)
        as [[ans|e] bot'].
      * destruct (jsonify ans).
        -- do 3 eexists. split; [reflexivity|]. repeat split;
             try discriminate; try tauto.
           ++ intros [H|H]; discriminate.
           ++ intros _. now exists ans.
        -- do 3 eexists. split; [reflexivity|]. repeat split;
             try discriminate; try tauto.
           ++ intros [H|H]; discriminate.
           ++ intros [ans' H]. discriminate.
      * do 3 eexists. split; [reflexivity|]. repeat split;
          try discriminate; try tauto.
        -- intros [H|H]; discriminate.
        -- intros [ans H]. discriminate.
    + do 3 eexists. split; [reflexivity|]. repeat split;
        try discriminate; try tauto.
      * intros [H|H]; discriminate.
      * intros [ans H]. discriminate.
  - do 3 eexists. split; [reflexivity|]. repeat split; try tauto.
    + discriminate.
    + intros [ans H]. discriminate.
Qed.
End Web.

(** ** The further properties at work on the demo deployment *)

Lemma demo_lonely_indexed : indexed Demo.embed Demo.lonely.
Proof.
  apply (indexed_more Demo.embed
           (HybridSearch.__init__ Demo.cfg Demo.empty_store (Some 0%Q))
           [Demo.cat]).
  - now apply (indexed_new Demo.embed Demo.cfg None None false).
  - repeat constructor; simpl; intuition discriminate.
  - intros doc _. reflexivity.
  - vm_compute. reflexivity.
Qed.


Lemma hybrid_search_ranked_witness :
  exists rs,
    fst (HybridSearch.search Demo.embed Demo.overlap "cat mat" 1 Demo.pets)
    = Returns rs
    /\ Z.of_nat (List.length rs) <= 1
    /\ Forall (fun r => stored (HybridSearch.vector_store Demo.pets) (fst r)) rs
    /\ descending rs.
Proof.
  destruct (fst (HybridSearch.search Demo.embed Demo.overlap "cat mat" 1
                   Demo.pets)) as [rs|e] eqn:E;
    [|vm_compute in E; discriminate].
  exists rs. split; [reflexivity|].
  apply (hybrid_search_ranked Demo.embed Demo.overlap "cat mat" 1 Demo.pets rs).
  - lia.
  - exact E.
Defined.

Lemma hybrid_search_no_duplicates_witness :
  exists rs,
    fst (HybridSearch.search Demo.embed Demo.overlap "cat mat" 5 Demo.pets)
    = Returns rs
    /\ NoDup (ids_of rs)
    /\ Forall (fun r =>
                 PyDict.get
                   (VectorStore.documents (HybridSearch.vector_store Demo.pets))
                   (id (fst r)) = Some (fst r)) rs.
Proof.
  destruct (fst (HybridSearch.search Demo.embed Demo.overlap "cat mat" 5
                   Demo.pets)) as [rs|e] eqn:E;
    [|vm_compute in E; discriminate].
  exists rs. split; [reflexivity|].
  apply (hybrid_search_no_duplicates Demo.embed Demo.overlap "cat mat" 5
           Demo.pets rs).
  - exact demo_pets_indexed.
  - exact E.
Defined.

Lemma search_degenerate_weights_witness :
  exists norm sem rs,
    HybridSearch.normalize
      (BM25Okapi.get_scores Demo.overlap
         (BM25Okapi.mk [split (content Demo.cat)]) (split "cat mat"))
    = Returns norm
    /\ fst (VectorStore.search Demo.embed "cat mat" (1 * 2)
              (HybridSearch.vector_store Demo.lonely)) = Returns sem
    /\ fst (HybridSearch.search Demo.embed Demo.overlap "cat mat" 1 Demo.lonely)
       = Returns rs
    /\ forall doc s,
         In (doc, s) rs ->
         ((HybridSearch.alpha Demo.lonely == 0)%Q ->
          (s == or_zero (lexical_score
                           (combine (HybridSearch.doc_ids Demo.lonely) norm)
                           (id doc)))%Q)
         /\ ((HybridSearch.alpha Demo.lonely == 1)%Q ->
             (s == or_zero (semantic_score sem (id doc)))%Q).
Proof.
  destruct (HybridSearch.normalize
              (BM25Okapi.get_scores Demo.overlap
                 (BM25Okapi.mk [split (content Demo.cat)]) (split "cat mat")))
    as [norm|e] eqn:Hn; [|vm_compute in Hn; discriminate].
  destruct (fst (VectorStore.search Demo.embed "cat mat" (1 * 2)
                   (HybridSearch.vector_store Demo.lonely)))
    as [sem|e] eqn:Hs; [|vm_compute in Hs; discriminate].
  destruct (fst (HybridSearch.search Demo.embed Demo.overlap "cat mat" 1
                   Demo.lonely)) as [rs|e] eqn:Hr;
    [|vm_compute in Hr; discriminate].
  exists norm, sem, rs.
  split; [reflexivity|]. split; [reflexivity|]. split; [reflexivity|].
  apply (search_degenerate_weights Demo.embed Demo.overlap Demo.lonely
           (BM25Okapi.mk [split (content Demo.cat)]) "cat mat" 1 norm sem rs).
  - exact demo_lonely_indexed.
  - vm_compute. reflexivity.
  - exact Hn.
  - exact Hs.
  - exact Hr.
Defined.

Lemma index_documents_replaces_lexical_index_witness :
  HybridSearch.doc_ids Demo.pets_twice = map id [Demo.cat'; Demo.dogs']
  /\ HybridSearch.bm25 Demo.pets_twice
     = Some (BM25Okapi.mk
               (map (fun doc => split (content doc)) [Demo.cat'; Demo.dogs']))
  /\ forall i old,
       PyDict.get (VectorStore.documents (HybridSearch.vector_store Demo.pets)) i
       = Some old ->
       PyDict.get
         (VectorStore.documents (HybridSearch.vector_store Demo.pets_twice)) i
       = Some old
       /\ forall scores,
            lexical_score (combine (HybridSearch.doc_ids Demo.pets_twice) scores)
                          i = None.
Proof.
  apply (index_documents_replaces_lexical_index Demo.embed Demo.pets
           [Demo.cat'; Demo.dogs'] Demo.pets_twice).
  - exact demo_pets_indexed.
  - repeat constructor; simpl; intuition discriminate.
  - intros doc [<-|[<-|[]]]; reflexivity.
  - vm_compute. reflexivity.
Defined.

Lemma add_documents_failure_is_atomic_witness :
  snd (VectorStore.add_documents Demo.unauthorized [Demo.cat] Demo.empty_store)
  = Demo.empty_store.
Proof.
  apply (add_documents_failure_is_atomic Demo.unauthorized [Demo.cat]
           Demo.empty_store (Exn CollaboratorError "invalid api key")).
  - reflexivity.
  - discriminate.
Defined.

Lemma add_documents_short_embeddings_witness :
  exists vs',
    VectorStore.add_documents Demo.embed_first_only [Demo.cat; Demo.dogs]
      Demo.empty_store
    = (Raises (Exn IndexError ""), vs')
    /\ index_size vs'
       = index_size Demo.empty_store
         + Z.of_nat (List.length [[inject_Z 22; inject_Z 6]])
    /\ 0 < Z.of_nat (List.length [[inject_Z 22; inject_Z 6]]).
Proof.
  destruct (Faiss.add (VectorStore.index Demo.empty_store)
              [[inject_Z 22; inject_Z 6]]) as [idx'|e] eqn:Ha;
    [|vm_compute in Ha; discriminate].
  apply (add_documents_short_embeddings Demo.embed_first_only
           [Demo.cat; Demo.dogs] Demo.empty_store
           [[inject_Z 22; inject_Z 6]] idx').
  - vm_compute. reflexivity.
  - vm_compute. reflexivity.
  - exact Ha.
  - simpl. lia.
Defined.

Lemma index_documents_without_tokens_witness :
  let vs' :=
    snd (VectorStore.add_documents Demo.embed [Demo.blank]
           (HybridSearch.vector_store Demo.fresh)) in
  HybridSearch.index_documents Demo.embed [Demo.blank] Demo.fresh
  = (Raises (Exn ZeroDivisionError "division by zero"),
     HybridSearch.set_vector_store vs' Demo.fresh)
  /\ HybridSearch.bm25 (HybridSearch.set_vector_store vs' Demo.fresh)
     = HybridSearch.bm25 Demo.fresh
  /\ HybridSearch.doc_ids (HybridSearch.set_vector_store vs' Demo.fresh)
     = HybridSearch.doc_ids Demo.fresh
  /\ ([Demo.blank] = [] ->
      HybridSearch.set_vector_store vs' Demo.fresh = Demo.fresh).
Proof.
  apply (index_documents_without_tokens Demo.embed [Demo.blank] Demo.fresh).
  - intros doc [<-|[]]. reflexivity.
  - vm_compute. reflexivity.
Defined.

Lemma index_documents_propagates_store_failure_witness :
  HybridSearch.index_documents Demo.unauthorized [Demo.cat] Demo.fresh
  = (Raises (Exn CollaboratorError "invalid api key"),
     HybridSearch.set_vector_store Demo.empty_store Demo.fresh)
  /\ HybridSearch.bm25
       (HybridSearch.set_vector_store Demo.empty_store Demo.fresh)
     = HybridSearch.bm25 Demo.fresh
  /\ HybridSearch.doc_ids
       (HybridSearch.set_vector_store Demo.empty_store Demo.fresh)
     = HybridSearch.doc_ids Demo.fresh
  /\ (exn_cls (Exn CollaboratorError "invalid api key") <> IndexError ->
      HybridSearch.set_vector_store Demo.empty_store Demo.fresh = Demo.fresh).
Proof.
  apply (index_documents_propagates_store_failure Demo.unauthorized
           [Demo.cat] Demo.fresh).
  reflexivity.
Defined.

Lemma add_documents_then_get_document_witness :
  exists embs,
    Demo.embed (map content [Demo.cat; Demo.dogs])
      (VectorStore.embedding_model_name Demo.empty_store) document
    = Returns embs
    /\ (forall k doc,
          nth_error [Demo.cat; Demo.dogs] k = Some doc ->
          exists e,
            nth_error embs k = Some e
            /\ VectorStore.get_document (id doc)
                 (HybridSearch.vector_store Demo.pets)
               = (Returns (Some (with_embedding doc e)),
                  HybridSearch.vector_store Demo.pets))
    /\ (forall i,
          ~ In i (map id [Demo.cat; Demo.dogs]) ->
          fst (VectorStore.get_document i (HybridSearch.vector_store Demo.pets))
          = fst (VectorStore.get_document i Demo.empty_store)).
Proof.
  apply (add_documents_then_get_document Demo.embed [Demo.cat; Demo.dogs]
           Demo.empty_store (HybridSearch.vector_store Demo.pets)).
  - discriminate.
  - repeat constructor; simpl; intuition discriminate.
  - vm_compute. reflexivity.
Defined.

Lemma clear_restarts_slots_witness :
  let vs' :=
    snd (VectorStore.add_documents Demo.embed [Demo.dogs; Demo.cat]
           (snd (VectorStore.clear (HybridSearch.vector_store Demo.pets)))) in
  map fst (VectorStore.id_to_idx vs') = map id [Demo.dogs; Demo.cat]
  /\ map snd (VectorStore.id_to_idx vs')
     = slots (List.length [Demo.dogs; Demo.cat])
  /\ PyDict.keys (VectorStore.documents vs') = map id [Demo.dogs; Demo.cat]
  /\ forall i, ~ In i (map id [Demo.dogs; Demo.cat]) ->
               VectorStore.get_document i vs' = (Returns None, vs').
Proof.
  apply (clear_restarts_slots Demo.embed (HybridSearch.vector_store Demo.pets)
           [Demo.dogs; Demo.cat]).
  - repeat constructor; simpl; intuition discriminate.
  - vm_compute. reflexivity.
Defined.

Lemma query_success_witness :
  exists r rs,
    retrieval Demo.cfg Demo.embed Demo.overlap "cat mat" None
              (Demo.bot Demo.pets) = Returns (r :: rs)
    /\ let (out, bot') :=
         QABot.query Demo.cfg Demo.embed Demo.overlap Demo.answers
                     "cat mat" None (Demo.bot Demo.pets) in
       exists ans,
         out = Returns ans
         /\ QABot.answer ans = "It sums two numbers."
         /\ QABot.confidence ans = snd r
         /\ map QABot.relevance (QABot.sources ans) = map snd (r :: rs)
         /\ map QABot.preview (QABot.sources ans)
            = map (fun x => content (fst x)) (r :: rs)
         /\ OpenAI.requests (QABot.client bot')
            = OpenAI.requests (QABot.client (Demo.bot Demo.pets))
                ++ [request_of (Demo.bot Demo.pets) "cat mat" (r :: rs)]
         /\ QABot.hybrid_search bot' = QABot.hybrid_search (Demo.bot Demo.pets).
Proof.
  destruct (retrieval Demo.cfg Demo.embed Demo.overlap "cat mat" None
              (Demo.bot Demo.pets)) as [[|r rs]|e] eqn:E;
    try (vm_compute in E; discriminate).
  exists r, rs. split; [reflexivity|].
  apply (query_success Demo.cfg Demo.embed Demo.overlap Demo.answers
           "cat mat" None (Demo.bot Demo.pets) r rs "It sums two numbers.").
  - exact E.
  - reflexivity.
Defined.

Lemma query_propagates_retrieval_failure_witness :
  QABot.query Demo.cfg Demo.down_for_queries Demo.overlap Demo.answers
              "cat mat" None (Demo.bot Demo.pets)
  = (Raises (Exn CollaboratorError "service unavailable"),
     Demo.bot Demo.pets).
Proof.
  apply (query_propagates_retrieval_failure Demo.cfg Demo.down_for_queries
           Demo.overlap Demo.answers "cat mat" None (Demo.bot Demo.pets)).
  vm_compute. reflexivity.
Defined.

Lemma main_builds_an_indexed_retriever_witness :
  indexed Demo.embed DemoRepo.deployed
  /\ HybridSearch.doc_ids DemoRepo.deployed
     = map id (Main.documents [DemoRepo.parsed] [DemoRepo.summarised]).
Proof.
  apply (main_builds_an_indexed_retriever Demo.embed Demo.cfg
           Demo.empty_store DemoRepo.deployed
           [DemoRepo.parsed] [DemoRepo.summarised]).
  - reflexivity.
  - vm_compute. reflexivity.
Defined.

Lemma web_query_statuses_witness :
  let (out, app') :=
    WebApp.query Demo.cfg Demo.embed Demo.overlap Demo.answers
                 Demo.refuses_float32
                 [("question", "cat mat")] (Some (Demo.bot Demo.pets)) in
  match retrieval Demo.cfg Demo.embed Demo.overlap "cat mat" None
                  (Demo.bot Demo.pets) with
  | Raises e =>
      out = Returns (WebApp.error (exn_str e), 500)
      /\ app' = Some (Demo.bot Demo.pets)
  | Returns [] =>
      match Demo.refuses_float32 QABot.insufficient with
      | Returns _ => out = Returns (WebApp.result QABot.insufficient, 200)
      | Raises e => out = Returns (WebApp.error (exn_str e), 500)
      end
      /\ app' = Some (Demo.bot Demo.pets)
  | Returns (r :: rs) =>
      exists ans,
        fst (QABot.query Demo.cfg Demo.embed Demo.overlap Demo.answers
               "cat mat" None (Demo.bot Demo.pets))
        = Returns ans
        /\ match Demo.answers
                   (request_of (Demo.bot Demo.pets) "cat mat" (r :: rs)) with
           | Returns a => QABot.answer ans = a
           | Raises e =>
               QABot.answer ans = ("Error: " ++ exn_str e)%string
               /\ QABot.sources ans = []
           end
        /\ match Demo.refuses_float32 ans with
           | Returns _ => out = Returns (WebApp.result ans, 200)
           | Raises e => out = Returns (WebApp.error (exn_str e), 500)
           end
  end.
Proof.
  apply (web_query_statuses Demo.cfg Demo.embed Demo.overlap
           Demo.answers Demo.refuses_float32
           [("question", "cat mat")] "cat mat" (Demo.bot Demo.pets)).
  - reflexivity.
  - discriminate.
Defined.

(** The route on the demo deployment: an answer that encodes comes back
    with status 200, one that does not with status 500, and a failing
    retrieval with status 500. *)
Example web_query_at_work :
  match fst (WebApp.query Demo.cfg Demo.embed Demo.overlap Demo.answers
               Demo.encodes [("question", "cat mat")]
               (Some (Demo.bot Demo.pets))) with
  | Returns (WebApp.result ans, status) =>
      QABot.answer ans = "It sums two numbers." /\ status = 200
  | _ => False
  end
  /\ fst (WebApp.query Demo.cfg Demo.embed Demo.overlap Demo.answers
            Demo.refuses_float32 [("question", "cat mat")]
            (Some (Demo.bot Demo.pets)))
     = Returns
         (WebApp.error "Object of type float32 is not JSON serializable", 500)
  /\ fst (WebApp.query Demo.cfg Demo.down_for_queries Demo.overlap
            Demo.answers Demo.encodes [("question", "cat mat")]
            (Some (Demo.bot Demo.pets)))
     = Returns (WebApp.error "service unavailable", 500).
Proof. vm_compute. repeat split. Qed.
